(** * restful-api: the user store, its error mapping and its HTTP handlers

    A shallow embedding of the Go packages [internal/domain],
    [internal/storage], [internal/handler], [internal/config] and
    [internal/middleware] of huberts90/restful-api and of its two commands,
    followed by the properties the specification states about them.

    Conventions of the embedding:
    - Go's [int] and [int64] are 64-bit two's complement integers; they are
      carried as [Z] and every arithmetic result that can leave the range is
      passed through [wrapInt].
    - A function returning [(T, error)] returns a pair whose second component
      is an [option error] ([None] is Go's [nil]).
    - The database handle [*sql.DB] is an oracle ([DB]) that fixes the answer
      of every driver call; the store's code runs in a writer monad [M] that
      records each driver call and each log entry in program order.
    - Functions of libraries whose result the program only passes on
      ([time.ParseDuration], [time.Time.MarshalJSON], the e-mail grammar of
      the validator, the path cleaning of the router) are parameters; the
      parts of [net/http] and [gorilla/mux] the program's behaviour depends
      on (the response writer, the matching of routes) are written out. *)

From Stdlib Require Import ZArith List String Ascii Bool Lia.
From Stdlib Require Import DecimalString DecimalPos Sorting.Sorted.
Import ListNotations.
Set Warnings "-register-all".
Local Open Scope string_scope.
Local Open Scope Z_scope.

(* ================================================================== *)
(** ** Go integers and formatting *)

Module GoInt.

Definition minInt : Z := - 2 ^ 63.
Definition maxInt : Z := 2 ^ 63 - 1.

(** The value a 64-bit signed register holds after an operation whose
    mathematical result is [z]. *)
Definition wrapInt (z : Z) : Z := (z + 2 ^ 63) mod 2 ^ 64 - 2 ^ 63.

Definition inRange (z : Z) : bool := (minInt <=? z) && (z <=? maxInt).

(** [fmt.Sprintf("%d", z)]. *)
Definition sprintf_d (z : Z) : string := NilZero.string_of_int (Z.to_int z).

(** Go's [/] on integers truncates toward zero; the one quotient that leaves
    the range, [minInt / -1], is [minInt]. *)
Definition div (a b : Z) : Z :=
  if (a =? minInt) && (b =? -1) then minInt else Z.quot a b.

Definition isDigit (c : ascii) : bool :=
  let n := nat_of_ascii c in (48 <=? n)%nat && (n <=? 57)%nat.

Definition digitVal (c : ascii) : Z := Z.of_nat (nat_of_ascii c) - 48.

Fixpoint parseDigits (s : string) (acc : Z) : option Z :=
  match s with
  | EmptyString => Some acc
  | String c rest =>
      if isDigit c then parseDigits rest (10 * acc + digitVal c) else None
  end.

(** [strconv.ParseInt(s, 10, 64)] (and [strconv.Atoi], the same function on a
    64-bit platform): an optional sign, at least one decimal digit, nothing
    else, and a value inside the 64-bit range; [None] stands for the
    [*NumError] result. *)
Definition ParseInt (s : string) : option Z :=
  let '(neg, body) :=
    match s with
    | String "-"%char rest => (true, rest)
    | String "+"%char rest => (false, rest)
    | _ => (false, s)
    end in
  match body with
  | EmptyString => None
  | _ =>
      match parseDigits body 0 with
      | None => None
      | Some v =>
          let z := if neg then - v else v in
          if inRange z then Some z else None
      end
  end.

Definition Atoi := ParseInt.

End GoInt.

(* ================================================================== *)
(** ** Go error values, [errors.Is] and [errors.As] *)

Module Errors.

(** The package-level error variables created with [errors.New]; each is one
    allocation, compared by identity. *)
Inductive sentinel : Type :=
| SqlErrNoRows          (* database/sql: ErrNoRows *)
| SqlErrTxDone          (* database/sql: ErrTxDone *)
| StUserNotFound
| StDuplicateEmail
| StInvalidID
| StInvalidPageSize
| StInvalidPage
| StDatabaseInternal.

Definition sentinel_eqb (a b : sentinel) : bool :=
  match a, b with
  | SqlErrNoRows, SqlErrNoRows | SqlErrTxDone, SqlErrTxDone
  | StUserNotFound, StUserNotFound | StDuplicateEmail, StDuplicateEmail
  | StInvalidID, StInvalidID | StInvalidPageSize, StInvalidPageSize
  | StInvalidPage, StInvalidPage | StDatabaseInternal, StDatabaseInternal => true
  | _, _ => false
  end.

(** The fields of [pq.Error] the store reads. *)
Record PqError : Type := mkPqError {
  Code : string;
  Constraint : string;
  Message : string
}.

(** An error value: a sentinel, a driver error [*pq.Error], a validation
    failure of the validator package, some other leaf error (a context
    deadline, a network failure, ...), or the result of [fmt.Errorf] with its
    [%w] operands in order (its [Unwrap] returns them). *)
Inductive error : Type :=
| New (s : sentinel)
| Pq (e : PqError)
| ValidationErrors (fields : list string)
| Other (msg : string)
| Errorf (format : string) (wrapped : list error).

(** [errors.Is(err, target)] for a sentinel target: a pre-order walk of the
    tree of wrapped errors. *)
Fixpoint errorsIs (err : error) (target : sentinel) : bool :=
  match err with
  | New s => sentinel_eqb s target
  | Errorf _ ws =>
      (fix any (l : list error) : bool :=
         match l with
         | [] => false
         | w :: l' => errorsIs w target || any l'
         end) ws
  | _ => false
  end.

(** [errors.As(err, &pqErr)] with [pqErr] of type [*pq.Error]: the first
    driver error met in the same pre-order walk. *)
Fixpoint errorsAsPq (err : error) : option PqError :=
  match err with
  | Pq e => Some e
  | Errorf _ ws =>
      (fix first (l : list error) : option PqError :=
         match l with
         | [] => None
         | w :: l' =>
             match errorsAsPq w with
             | Some e => Some e
             | None => first l'
             end
         end) ws
  | _ => None
  end.

End Errors.
Export Errors.

(* ================================================================== *)
(** ** Package domain *)

Module Domain.

(** [time.Time] values are opaque instants. *)
Definition Time := Z.

Record User : Type := mkUser {
  ID : Z;
  Email : string;
  FirstName : string;
  LastName : string;
  CreatedAt : Time;
  UpdatedAt : Time
}.

Record UserCreate : Type := mkUserCreate {
  uc_Email : string;
  uc_FirstName : string;
  uc_LastName : string
}.

Record UserUpdate : Type := mkUserUpdate {
  uu_Email : string;
  uu_FirstName : string;
  uu_LastName : string
}.

Record UserCreateResponse : Type := mkUserCreateResponse { ucr_ID : Z }.

Record UserResponse : Type := mkUserResponse {
  ur_ID : Z;
  ur_Email : string;
  ur_FirstName : string;
  ur_LastName : string;
  ur_CreatedAt : Time;
  ur_UpdatedAt : Time
}.

Definition ToResponse (u : User) : UserResponse :=
  {| ur_ID := ID u;
     ur_Email := Email u;
     ur_FirstName := FirstName u;
     ur_LastName := LastName u;
     ur_CreatedAt := CreatedAt u;
     ur_UpdatedAt := UpdatedAt u |}.

Record PaginatedUsersResponse : Type := mkPaginated {
  Users : list UserResponse;
  TotalCount : Z;
  Page : Z;
  PageSize : Z;
  TotalPages : Z
}.

(** *** The validator tags

    [validator.New().Struct(u)] walks the fields of [u] and runs the tags of
    each field from left to right; the struct is rejected when some field
    fails some tag. *)

Inductive Tag : Type :=
| required
| omitempty
| email
| alpha
| min (n : nat).

(** [unicode/utf8.RuneCountInString]: the classification of a leading byte
    (the [first] table and [acceptRanges] of the Go library), then the loop
    that counts one rune per well-formed sequence and one per stray byte. *)
Definition leadInfo (c : nat) : option (nat * nat * nat) :=
  (* size, and the accepted range of the second byte *)
  if (c <? 194)%nat then None
  else if (c <? 224)%nat then Some (2, 128, 191)%nat
  else if (c =? 224)%nat then Some (3, 160, 191)%nat
  else if (c <? 237)%nat then Some (3, 128, 191)%nat
  else if (c =? 237)%nat then Some (3, 128, 159)%nat
  else if (c <? 240)%nat then Some (3, 128, 191)%nat
  else if (c =? 240)%nat then Some (4, 144, 191)%nat
  else if (c <? 244)%nat then Some (4, 128, 191)%nat
  else if (c =? 244)%nat then Some (4, 128, 143)%nat
  else None.

Definition isCont (c : nat) : bool := (128 <=? c)%nat && (c <=? 191)%nat.

Definition runeSize (bs : list nat) : nat :=
  match bs with
  | [] => 1%nat
  | c :: rest =>
      if (c <? 128)%nat then 1%nat
      else match leadInfo c with
           | None => 1%nat
           | Some (size, lo, hi) =>
               if (List.length bs <? size)%nat then 1%nat
               else
                 let b1 := nth 0 rest 0%nat in
                 if (b1 <? lo)%nat || (hi <? b1)%nat then 1%nat
                 else if (size =? 2)%nat then 2%nat
                 else if negb (isCont (nth 1 rest 0%nat)) then 1%nat
                 else if (size =? 3)%nat then 3%nat
                 else if negb (isCont (nth 2 rest 0%nat)) then 1%nat
                 else 4%nat
           end
  end.

Fixpoint runeCountFrom (fuel : nat) (bs : list nat) : nat :=
  match fuel, bs with
  | O, _ => O
  | _, [] => O
  | S fuel', _ => S (runeCountFrom fuel' (skipn (runeSize bs) bs))
  end.

Definition bytesOf (s : string) : list nat :=
  List.map nat_of_ascii (list_ascii_of_string s).

Definition RuneCountInString (s : string) : nat :=
  let bs := bytesOf s in runeCountFrom (List.length bs) bs.

(** The [alpha] tag: the regular expression [^[a-zA-Z]+$]. *)
Definition isLetter (c : ascii) : bool :=
  let n := nat_of_ascii c in
  ((65 <=? n)%nat && (n <=? 90)%nat) || ((97 <=? n)%nat && (n <=? 122)%nat).

Fixpoint allLetters (s : string) : bool :=
  match s with
  | EmptyString => true
  | String c rest => isLetter c && allLetters rest
  end.

Definition isAlpha (s : string) : bool :=
  match s with
  | EmptyString => false
  | _ => allLetters s
  end.

Definition isEmptyString (s : string) : bool :=
  match s with EmptyString => true | _ => false end.

Section Validator.

(** The [email] tag is the address grammar of the validator package, a
    regular expression of that library; it is a parameter here. *)
Variable isEmail : string -> bool.

Fixpoint runTags (tags : list Tag) (v : string) : bool :=
  match tags with
  | [] => true
  | omitempty :: rest => if isEmptyString v then true else runTags rest v
  | required :: rest => if isEmptyString v then false else runTags rest v
  | email :: rest => isEmail v && runTags rest v
  | alpha :: rest => isAlpha v && runTags rest v
  | min n :: rest => (n <=? RuneCountInString v)%nat && runTags rest v
  end.

(** The names of the fields that fail, in declaration order. *)
Definition failing (fields : list (string * list Tag * string)) : list string :=
  List.map (fun f => fst (fst f))
    (List.filter (fun f => negb (runTags (snd (fst f)) (snd f))) fields).

Definition validateStruct (fields : list (string * list Tag * string))
  : option error :=
  match failing fields with
  | [] => None
  | fs => Some (ValidationErrors fs)
  end.

End Validator.

End Domain.
Export Domain.

(** The struct declarations of the domain package as the API server builds
    them: name fields carry the [alpha] tag. *)
Module DomainAlpha.

Definition UserCreate_tags (u : UserCreate) : list (string * list Tag * string) :=
  [ ("Email", [required; email], uc_Email u);
    ("FirstName", [required; alpha], uc_FirstName u);
    ("LastName", [required; alpha], uc_LastName u) ].

Definition UserUpdate_tags (u : UserUpdate) : list (string * list Tag * string) :=
  [ ("Email", [omitempty; email], uu_Email u);
    ("FirstName", [omitempty; alpha; min 2], uu_FirstName u);
    ("LastName", [omitempty; alpha; min 2], uu_LastName u) ].

Definition UserCreate_Validate (isEmail : string -> bool) (u : UserCreate)
  : option error := validateStruct isEmail (UserCreate_tags u).

Definition UserUpdate_Validate (isEmail : string -> bool) (u : UserUpdate)
  : option error := validateStruct isEmail (UserUpdate_tags u).

End DomainAlpha.

(** The second copy of the same declarations, without the [alpha] tag. *)
Module DomainPlain.

Definition UserCreate_tags (u : UserCreate) : list (string * list Tag * string) :=
  [ ("Email", [required; email], uc_Email u);
    ("FirstName", [required], uc_FirstName u);
    ("LastName", [required], uc_LastName u) ].

Definition UserUpdate_tags (u : UserUpdate) : list (string * list Tag * string) :=
  [ ("Email", [omitempty; email], uu_Email u);
    ("FirstName", [omitempty; min 2], uu_FirstName u);
    ("LastName", [omitempty; min 2], uu_LastName u) ].

Definition UserCreate_Validate (isEmail : string -> bool) (u : UserCreate)
  : option error := validateStruct isEmail (UserCreate_tags u).

Definition UserUpdate_Validate (isEmail : string -> bool) (u : UserUpdate)
  : option error := validateStruct isEmail (UserUpdate_tags u).

End DomainPlain.

(* ================================================================== *)
(** ** Driver calls, log entries and the monad the store runs in *)

Module Effects.

Inductive result (A : Type) : Type :=
| Ok (a : A)
| Err (e : error).
Arguments Ok {A} a.
Arguments Err {A} e.

(** A positional statement argument. *)
Inductive Arg : Type :=
| ArgString (s : string)
| ArgInt (z : Z).

(** The calls the code makes on [database/sql]. *)
Inductive Call : Type :=
| Open (driver connStr : string)
| PingContext (timeout : Z)
| Close
| SetMaxOpenConns (n : Z)
| SetMaxIdleConns (n : Z)
| SetConnMaxLifetime (d : Z)
| SetConnMaxIdleTime (d : Z)
| QueryRowContext (query : string) (args : list Arg)
| ExecContext (query : string) (args : list Arg)
| BeginTx (readOnly : bool)
| TxQueryRowContext (query : string) (args : list Arg)
| TxQueryContext (query : string) (args : list Arg)
| RowsClose
| TxCommit
| TxRollback.

(** [zap.Int64] and [zap.String] fields. *)
Inductive Field : Type :=
| Int64Field (key : string) (v : Z)
| StringField (key : string) (v : string).

Inductive Event : Type :=
| Driver (c : Call)
| LogError (msg : string) (err : error) (fields : list Field)
| LogWarn (msg : string) (err : error).

(** A computation returns its value together with the events it caused, in
    order. *)
Definition M (A : Type) : Type := (A * list Event)%type.

Definition ret {A : Type} (a : A) : M A := (a, []).

Definition bind {A B : Type} (m : M A) (k : A -> M B) : M B :=
  let '(a, t1) := m in
  let '(b, t2) := k a in
  (b, (t1 ++ t2)%list).

Definition emit (e : Event) : M unit := (tt, [e]).

Definition call (c : Call) : M unit := emit (Driver c).

Definition value {A : Type} (m : M A) : A := fst m.
Definition trace {A : Type} (m : M A) : list Event := snd m.

Definition isDriver (e : Event) : bool :=
  match e with Driver _ => true | _ => false end.

(** The driver calls of a trace, log entries dropped. *)
Definition driverCalls (t : list Event) : list Call :=
  flat_map (fun e => match e with Driver c => [c] | _ => [] end) t.

(** What a result set yields: the outcome of [Scan] on each row that
    [rows.Next] delivers, then the value of [rows.Err]. *)
Record Rows : Type := mkRows {
  scans : list (result User);
  iterErr : option error
}.

(** The answers of the database handle.  [db_Exec] answers [ExecContext] with
    the [sql.Result], itself reduced to the answer of its [RowsAffected].
    [tx_Rollback] is told whether [Commit] was called before it. *)
Record DB : Type := mkDB {
  db_Ping : option error;
  db_Close : option error;
  db_QueryRowScanInt64 : string -> list Arg -> result Z;
  db_QueryRowScanUser : string -> list Arg -> result User;
  db_Exec : string -> list Arg -> result (result Z);
  db_BeginTx : bool -> option error;
  tx_QueryRowScanInt : string -> list Arg -> result Z;
  tx_Query : string -> list Arg -> result Rows;
  tx_Commit : option error;
  tx_Rollback : bool -> option error
}.

End Effects.
Export Effects.

Declare Scope go_scope.
Delimit Scope go_scope with go.
Notation "x <- m ;; k" := (bind m (fun x => k))
  (at level 61, m at next level, right associativity) : go_scope.
Notation "m ;;; k" := (bind m (fun _ => k))
  (at level 61, right associativity) : go_scope.
Local Open Scope go_scope.

(* ================================================================== *)
(** ** Package storage *)

Module Storage.

Definition ErrUserNotFound : error := New StUserNotFound.
Definition ErrDuplicateEmail : error := New StDuplicateEmail.
Definition ErrInvalidID : error := New StInvalidID.
Definition ErrInvalidPageSize : error := New StInvalidPageSize.
Definition ErrInvalidPage : error := New StInvalidPage.
Definition ErrDatabaseInternal : error := New StDatabaseInternal.
Definition sqlErrNoRows : error := New SqlErrNoRows.

Definition sqlCreateUser : string :=
  "INSERT INTO users (email, first_name, last_name, created_at, updated_at) VALUES ($1, $2, $3, NOW(), NOW()) RETURNING id".
Definition sqlGetUserByID : string :=
  "SELECT id, email, first_name, last_name, created_at, updated_at FROM users WHERE id = $1".
Definition sqlDeleteUser : string := "DELETE FROM users WHERE id = $1".
Definition sqlCountUsers : string := "SELECT COUNT(*) FROM users".
Definition sqlListUsers : string :=
  "SELECT id, email, first_name, last_name, created_at, updated_at FROM users ORDER BY id LIMIT $1 OFFSET $2".

(** Modelled from the spec: the declaration of [storage.PostgresConfig] is not
    among the sources; these are the fields the constructor reads and the
    pool settings the configuration loader fills in (durations in
    nanoseconds). *)
Record PostgresConfig : Type := mkPostgresConfig {
  cfg_Host : string;
  cfg_Port : Z;
  cfg_User : string;
  cfg_Password : string;
  cfg_DBName : string;
  cfg_SSLMode : string;
  cfg_MaxOpenConns : Z;
  cfg_MaxIdleConns : Z;
  cfg_ConnMaxLifetime : Z;
  cfg_ConnMaxIdleTime : Z
}.

Record PostgresStore : Type := mkPostgresStore { db : DB }.

Definition Second : Z := 1000000000.

Definition connString (cfg : PostgresConfig) : string :=
  "host=" ++ cfg_Host cfg ++ " port=" ++ GoInt.sprintf_d (cfg_Port cfg)
  ++ " user=" ++ cfg_User cfg ++ " password=" ++ cfg_Password cfg
  ++ " dbname=" ++ cfg_DBName cfg ++ " sslmode=" ++ cfg_SSLMode cfg.

(** [sqlOpen] is [sql.Open]: it answers with a handle or an error. *)
Definition NewPostgresStore (sqlOpen : string -> string -> result DB)
  (cfg : PostgresConfig) : M (option PostgresStore * option error) :=
  let connStr := connString cfg in
  call (Open "postgres" connStr) ;;;
  match sqlOpen "postgres" connStr with
  | Err err =>
      ret (None, Some (Errorf "failed to open database connection: %w" [err]))
  | Ok d =>
      call (PingContext (5 * Second)) ;;;
      match db_Ping d with
      | Some err =>
          (* the deferred close runs as the function returns *)
          call Close ;;;
          match db_Close d with
          | Some closeErr =>
              emit (LogWarn "failed to close database connection" closeErr)
          | None => ret tt
          end ;;;
          ret (None, Some (Errorf "failed to ping database: %w" [err]))
      | None => ret (Some {| db := d |}, None)
      end
  end.

Definition PostgresStore_Close (s : PostgresStore) : M (option error) :=
  call Close ;;; ret (db_Close (db s)).

Definition pgDuplicateCode : string := "23505".

Definition handleError (err : error) (msg : string) (fields : list Field)
  : M error :=
  if match errorsAsPq err with
     | Some pqErr =>
         String.eqb (Code pqErr) pgDuplicateCode
         && String.eqb (Constraint pqErr) "users_email_key"
     | None => false
     end
  then ret ErrDuplicateEmail
  else if errorsIs err SqlErrNoRows then ret ErrUserNotFound
  else
    emit (LogError msg err fields) ;;;
    ret (Errorf "%w: %w" [ErrDatabaseInternal; err]).

(** The deferred rollback of [withTx]. *)
Definition deferredRollback (s : PostgresStore) (committed : bool) : M unit :=
  call TxRollback ;;;
  match tx_Rollback (db s) committed with
  | Some txErr => emit (LogError "failed to rollback transaction" txErr [])
  | None => ret tt
  end.

(** [withTx]: [fn] is the closure; [S] is the state of the variables it
    captures and assigns. *)
Definition withTx {S : Type} (s : PostgresStore) (readOnly : bool)
  (init : S) (fn : S -> M (S * option error)) : M (S * option error) :=
  call (BeginTx readOnly) ;;;
  match db_BeginTx (db s) readOnly with
  | Some err =>
      e <- handleError err "failed to begin transaction" [] ;;
      ret (init, Some e)
  | None =>
      r <- fn init ;;
      match snd r with
      | Some err =>
          deferredRollback s false ;;;
          ret (fst r, Some err)
      | None =>
          call TxCommit ;;;
          match tx_Commit (db s) with
          | Some err =>
              e <- handleError err "failed to commit transaction" [] ;;
              deferredRollback s true ;;;
              ret (fst r, Some e)
          | None =>
              deferredRollback s true ;;;
              ret (fst r, None)
          end
      end
  end.

Definition CreateUser (s : PostgresStore) (userCreate : UserCreate)
  : M (Z * option error) :=
  let args := [ArgString (uc_Email userCreate);
               ArgString (uc_FirstName userCreate);
               ArgString (uc_LastName userCreate)] in
  call (QueryRowContext sqlCreateUser args) ;;;
  match db_QueryRowScanInt64 (db s) sqlCreateUser args with
  | Err err =>
      e <- handleError err "failed to retrieve last inserted id" [] ;;
      ret (0, Some e)
  | Ok userID => ret (userID, None)
  end.

Definition GetUserByID (s : PostgresStore) (id : Z)
  : M (option User * option error) :=
  if id <=? 0 then ret (None, Some ErrInvalidID)
  else
    call (QueryRowContext sqlGetUserByID [ArgInt id]) ;;;
    match db_QueryRowScanUser (db s) sqlGetUserByID [ArgInt id] with
    | Err err =>
        e <- handleError err "failed to get user by ID" [Int64Field "id" id] ;;
        ret (None, Some e)
    | Ok user => ret (Some user, None)
    end.

(** One optional column of [buildUpdateQuery]: the state is the triple
    [updates], [args], [argPosition]. *)
Definition addColumn (column value : string)
  (st : list string * list Arg * Z) : list string * list Arg * Z :=
  let '(updates, args, argPosition) := st in
  if negb (String.eqb value "") then
    ((updates ++ [(column ++ " = $" ++ GoInt.sprintf_d argPosition)%string])%list,
     (args ++ [ArgString value])%list,
     GoInt.wrapInt (argPosition + 1))
  else st.

Definition buildUpdateQuery (userUpdate : UserUpdate) (id : Z)
  : string * list Arg :=
  let st := ([], [], 1) in
  let st := addColumn "email" (uu_Email userUpdate) st in
  let st := addColumn "first_name" (uu_FirstName userUpdate) st in
  let st := addColumn "last_name" (uu_LastName userUpdate) st in
  let '(updates, args, argPosition) := st in
  let updates := (updates ++ ["updated_at = NOW()"])%list in
  let query := "UPDATE users SET " ++ String.concat ", " updates
               ++ " WHERE id = $" ++ GoInt.sprintf_d argPosition
               ++ " RETURNING id" in
  (query, (args ++ [ArgInt id])%list).

Definition UpdateUser (s : PostgresStore) (id : Z) (userUpdate : UserUpdate)
  : M (option error) :=
  if id <=? 0 then ret (Some ErrInvalidID)
  else
    let '(query, args) := buildUpdateQuery userUpdate id in
    call (ExecContext query args) ;;;
    let zapFieldID := Int64Field "id" id in
    match db_Exec (db s) query args with
    | Err err =>
        e <- handleError err "failed to update user" [zapFieldID] ;;
        ret (Some e)
    | Ok (Err err) =>
        e <- handleError err "failed to retrieve rows affected" [zapFieldID] ;;
        ret (Some e)
    | Ok (Ok rowsAffected) =>
        if rowsAffected =? 0 then ret (Some ErrUserNotFound) else ret None
    end.

Definition DeleteUser (s : PostgresStore) (id : Z) : M (option error) :=
  if id <=? 0 then ret (Some ErrInvalidID)
  else
    call (ExecContext sqlDeleteUser [ArgInt id]) ;;;
    match db_Exec (db s) sqlDeleteUser [ArgInt id] with
    | Err err =>
        e <- handleError err "failed to delete user" [Int64Field "id" id] ;;
        ret (Some e)
    | Ok (Err err) =>
        e <- handleError err "failed to get rows affected" [] ;;
        ret (Some e)
    | Ok (Ok rowsAffected) =>
        if rowsAffected =? 0 then ret (Some ErrUserNotFound) else ret None
    end.

(** The [for rows.Next()] loop of [ListUsers]. *)
Fixpoint scanLoop (items : list (result User)) (users : list User)
  : M (list User * option error) :=
  match items with
  | [] => ret (users, None)
  | Ok user :: rest => scanLoop rest (users ++ [user])%list
  | Err err :: _ =>
      e <- handleError err "failed to scan user row" [] ;;
      ret (users, Some e)
  end.

(** The closure [ListUsers] hands to [withTx]; its state is the pair
    [users], [totalCount]. *)
Definition listUsersTx (s : PostgresStore) (page pageSize : Z)
  (st : list User * Z) : M (list User * Z * option error) :=
  let '(users, totalCount) := st in
  call (TxQueryRowContext sqlCountUsers []) ;;;
  match tx_QueryRowScanInt (db s) sqlCountUsers [] with
  | Err err =>
      e <- handleError err "failed to count users" [] ;;
      ret (users, totalCount, Some e)
  | Ok totalCount =>
      let offset := GoInt.wrapInt ((page - 1) * pageSize) in
      let args := [ArgInt pageSize; ArgInt offset] in
      call (TxQueryContext sqlListUsers args) ;;;
      match tx_Query (db s) sqlListUsers args with
      | Err err =>
          e <- handleError err "failed to query users" [] ;;
          ret (users, totalCount, Some e)
      | Ok rows =>
          r <- scanLoop (scans rows) [] ;;
          match snd r with
          | Some e => call RowsClose ;;; ret (fst r, totalCount, Some e)
          | None =>
              match iterErr rows with
              | Some err =>
                  e <- handleError err "error iterating user rows" [] ;;
                  call RowsClose ;;;
                  ret (fst r, totalCount, Some e)
              | None => call RowsClose ;;; ret (fst r, totalCount, None)
              end
          end
      end
  end.

Definition ListUsers (s : PostgresStore) (page pageSize : Z)
  : M (list User * Z * option error) :=
  if page <? 1 then ret ([], 0, Some ErrInvalidPage)
  else if (pageSize <? 1) || (pageSize >? 100)
  then ret ([], 0, Some ErrInvalidPageSize)
  else
    r <- withTx s true ([], 0) (listUsersTx s page pageSize) ;;
    match snd r with
    | Some err => ret ([], 0, Some err)
    | None => ret (fst (fst r), snd (fst r), None)
    end.

End Storage.
Export Storage.

(* ================================================================== *)
(** ** Requests and writers of [net/http] *)

Module Http.

(** The parts of an [*http.Request] the program reads.  [Path] is
    [r.URL.Path], [Query] is [r.URL.Query().Get]; the last two fields are
    the outcome of decoding the body, as JSON, into each of the two input
    structs ([None] when [Decode] fails). *)
Record Request : Type := mkRequest {
  Method : string;
  Path : string;
  RemoteAddr : string;
  UserAgent : string;
  Query : string -> string;
  DecodeUserCreate : option UserCreate;
  DecodeUserUpdate : option UserUpdate
}.

(** An [http.ResponseWriter] as a handler sees it: the calls go out, and
    the one answer a handler of this program reads back is the error of its
    [Write] (no handler writes twice). *)
Record ResponseWriter : Type := mkResponseWriter {
  WriteErr : option error
}.

End Http.

(* ================================================================== *)
(** ** The router of [gorilla/mux]

    The part of the library the program relies on: routes made of a path
    template and a method, tried in the order of their registration. *)

Module Mux.

(** A path template: a literal path, or a literal followed by one variable
    that matches one or more decimal digits ([{name:[0-9]+}]). *)
Inductive Template : Type :=
| Literal (path : string)
| Digits (path : string) (name : string).

Fixpoint cutPrefix (prefix s : string) : option string :=
  match prefix with
  | EmptyString => Some s
  | String c prefix' =>
      match s with
      | String d s' => if Ascii.eqb c d then cutPrefix prefix' s' else None
      | EmptyString => None
      end
  end.

Fixpoint allDigits (s : string) : bool :=
  match s with
  | EmptyString => true
  | String c rest => GoInt.isDigit c && allDigits rest
  end.

(** The regular expression of a template registered below [prefix],
    anchored at both ends, on a path: [None] when the path does not match,
    else the variables ([mux.Vars]; a missing key reads as the empty
    string). *)
Definition matchTemplate (prefix : string) (t : Template) (path : string)
  : option (string -> string) :=
  match cutPrefix prefix path with
  | None => None
  | Some rest =>
      match t with
      | Literal p => if String.eqb rest p then Some (fun _ => "") else None
      | Digits p name =>
          match cutPrefix p rest with
          | None => None
          | Some v =>
              if negb (isEmptyString v) && allDigits v
              then Some (fun key => if String.eqb key name then v else "")
              else None
          end
      end
  end.

Definition StatusMovedPermanently : Z := 301.
Definition StatusNotFound : Z := 404.
Definition StatusMethodNotAllowed : Z := 405.

Section Router.

(** The writer handed to a handler, and what a handler does with it. *)
Variables W R : Type.

Definition HandlerFunc : Type :=
  W -> Http.Request -> (string -> string) -> M R.

Record Route : Type := mkRoute {
  template : Template;
  method : string;
  handler : HandlerFunc
}.

(** A router, or the subrouter of a path prefix. *)
Record Router : Type := mkRouter {
  pathPrefix : string;
  routes : list Route
}.

(** [router.HandleFunc(path, f).Methods(method)]. *)
Definition HandleFunc (router : Router) (path : Template) (f : HandlerFunc)
  (m : string) : Router :=
  {| pathPrefix := pathPrefix router;
     routes := (routes router
                ++ [{| template := path; method := m; handler := f |}])%list |}.

Inductive RouteMatch : Type :=
| Matched (f : HandlerFunc) (vars : string -> string)
| ErrMethodMismatch
| ErrNotFound.

(** [Router.Match]: the first route whose path and method both match; when
    there is none, a method mismatch if the path of some route matched. *)
Fixpoint matchRoutes (prefix : string) (rs : list Route) (r : Http.Request)
  (mismatch : bool) : RouteMatch :=
  match rs with
  | [] => if mismatch then ErrMethodMismatch else ErrNotFound
  | route :: rest =>
      match matchTemplate prefix (template route) (Http.Path r) with
      | None => matchRoutes prefix rest r mismatch
      | Some vars =>
          if String.eqb (method route) (Http.Method r)
          then Matched (handler route) vars
          else matchRoutes prefix rest r true
      end
  end.

Definition Match (router : Router) (r : Http.Request) : RouteMatch :=
  matchRoutes (pathPrefix router) (routes router) r false.

(** A request is served by the handler of a route, or answered by the
    router itself with a bare status. *)
Inductive Served : Type :=
| Handled (resp : R)
| ByRouter (code : Z).

(** [cleanPath], the canonical form of a path ([path.Clean] with the
    trailing slash kept). *)
Variable cleanPath : string -> string.

(** [Router.ServeHTTP]: a path that is not canonical is redirected; else
    the handler of the match runs, and a request without a match is
    answered 405 or 404. *)
Definition ServeHTTP (router : Router) (w : W) (r : Http.Request) : M Served :=
  if negb (String.eqb (cleanPath (Http.Path r)) (Http.Path r))
  then ret (ByRouter StatusMovedPermanently)
  else
    match Match router r with
    | Matched f vars => resp <- f w r vars ;; ret (Handled resp)
    | ErrMethodMismatch => ret (ByRouter StatusMethodNotAllowed)
    | ErrNotFound => ret (ByRouter StatusNotFound)
    end.

End Router.

Arguments Matched {W R} f vars.
Arguments ErrMethodMismatch {W R}.
Arguments ErrNotFound {W R}.
Arguments Handled {R} resp.
Arguments ByRouter {R} code.
Arguments mkRoute {W R} template method handler.
Arguments mkRouter {W R} pathPrefix routes.
Arguments template {W R} r.
Arguments method {W R} r.
Arguments handler {W R} r.
Arguments pathPrefix {W R} r.
Arguments routes {W R} r.
Arguments HandleFunc {W R} router path f m.
Arguments matchRoutes {W R} prefix rs r mismatch.
Arguments Match {W R} router r.
Arguments ServeHTTP {W R} cleanPath router w r.

End Mux.

(* ================================================================== *)
(** ** Package handler *)

Module Handler.

Definition StatusOK : Z := 200.
Definition StatusCreated : Z := 201.
Definition StatusNoContent : Z := 204.
Definition StatusBadRequest : Z := 400.
Definition StatusNotFound : Z := 404.
Definition StatusConflict : Z := 409.
Definition StatusInternalServerError : Z := 500.

Definition MethodGet : string := "GET".
Definition MethodPost : string := "POST".
Definition MethodPut : string := "PUT".
Definition MethodDelete : string := "DELETE".

(** The interface [storage.Storer] (without [Close], which no handler
    calls). *)
Record Storer : Type := mkStorer {
  st_CreateUser : UserCreate -> M (Z * option error);
  st_GetUserByID : Z -> M (option User * option error);
  st_UpdateUser : Z -> UserUpdate -> M (option error);
  st_DeleteUser : Z -> M (option error);
  st_ListUsers : Z -> Z -> M (list User * Z * option error)
}.

(** [*PostgresStore] implements [Storer]. *)
Definition postgresStorer (s : PostgresStore) : Storer :=
  {| st_CreateUser := CreateUser s;
     st_GetUserByID := GetUserByID s;
     st_UpdateUser := UpdateUser s;
     st_DeleteUser := DeleteUser s;
     st_ListUsers := ListUsers s |}.

Record UserHandler : Type := mkUserHandler { store : Storer }.

(** What is handed to [json.Marshal]. *)
Inductive Payload : Type :=
| ErrorMessage (message : string)        (* map[string]string{"error": message} *)
| ErrorText (err : error)                (* the same, with err.Error() *)
| Created (r : UserCreateResponse)
| OneUser (r : UserResponse)
| Text (s : string)
| PageOfUsers (r : PaginatedUsersResponse).

(** What a handler does to its writer: [WriteHeader(code)] followed by one
    [Write] of the JSON text of a payload, [WriteHeader(code)] alone, or
    nothing when the handler panics. *)
Inductive Response : Type :=
| Json (code : Z) (payload : Payload)
| Header (code : Z)
| Panic.

Definition statusOf (r : Response) : option Z :=
  match r with
  | Json code _ => Some code
  | Header code => Some code
  | Panic => None
  end.

(** [idVar] is [mux.Vars(r)["id"]]. *)
Definition parseIDFromURL (idVar : string) : Z * option error :=
  match GoInt.ParseInt idVar with
  | Some id =>
      if id <=? 0 then (0, Some (Other ("invalid user ID: " ++ idVar)))
      else (id, None)
  | None => (0, Some (Other ("invalid user ID: " ++ idVar)))
  end.

(** The timestamps of a user response, in the order of the struct's
    fields. *)
Definition userTimes (r : UserResponse) : list Time :=
  [ur_CreatedAt r; ur_UpdatedAt r].

(** The timestamps [json.Marshal] meets in a payload, in encoding order. *)
Definition payloadTimes (payload : Payload) : list Time :=
  match payload with
  | OneUser r => userTimes r
  | PageOfUsers r => flat_map userTimes (Users r)
  | _ => []
  end.

Section Handlers.

Variable isEmail : string -> bool.

(** [time.Time.MarshalJSON], a method of the Go library: [None] when it
    yields the JSON text of the instant, else its error (it refuses an
    instant whose year lies outside 0..9999). *)
Variable MarshalJSON : Time -> option error.

(** The error of [json.Marshal] on a payload, [None] when it yields the
    text.  Strings and integers are always encoded; the encoding stops at
    the first timestamp that refuses, with a [*json.MarshalerError] that
    wraps the refusal. *)
Fixpoint marshalTimes (times : list Time) : option error :=
  match times with
  | [] => None
  | t :: rest =>
      match MarshalJSON t with
      | Some err =>
          Some (Errorf "json: error calling MarshalJSON for type time.Time: %w"
                  [err])
      | None => marshalTimes rest
      end
  end.

Definition jsonMarshal (payload : Payload) : option error :=
  marshalTimes (payloadTimes payload).

Definition respondWithJSON (w : Http.ResponseWriter) (code : Z)
  (payload : Payload) : M Response :=
  match jsonMarshal payload with
  | Some err =>
      emit (LogError "failed to marshal JSON response" err []) ;;;
      ret (Header StatusInternalServerError)
  | None =>
      match Http.WriteErr w with
      | Some err => emit (LogError "failed to write response" err [])
      | None => ret tt
      end ;;;
      ret (Json code payload)
  end.

Definition respondWithError (w : Http.ResponseWriter) (code : Z)
  (message : string) : M Response :=
  respondWithJSON w code (ErrorMessage message).

Definition respondWithData (w : Http.ResponseWriter) (code : Z)
  (payload : Payload) : M Response :=
  respondWithJSON w code payload.

(** [body] is the outcome of decoding the request body: [None] when
    [Decode] fails. *)
Definition CreateUser (h : UserHandler) (w : Http.ResponseWriter)
  (body : option UserCreate) : M Response :=
  match body with
  | None => respondWithError w StatusBadRequest "Invalid request"
  | Some userCreate =>
      match DomainAlpha.UserCreate_Validate isEmail userCreate with
      | Some err => respondWithJSON w StatusBadRequest (ErrorText err)
      | None =>
          r <- st_CreateUser (store h) userCreate ;;
          match snd r with
          | Some err =>
              if errorsIs err StDuplicateEmail
              then respondWithError w StatusConflict "Email already exists"
              else
                emit (LogError "Failed to create user" err
                        [StringField "email" (uc_Email userCreate)]) ;;;
                respondWithError w StatusInternalServerError
                  "Failed to create user"
          | None =>
              respondWithData w StatusCreated (Created {| ucr_ID := fst r |})
          end
      end
  end.

Definition GetUser (h : UserHandler) (w : Http.ResponseWriter)
  (idVar : string) : M Response :=
  match parseIDFromURL idVar with
  | (_, Some _) => respondWithError w StatusBadRequest "Invalid user ID"
  | (id, None) =>
      r <- st_GetUserByID (store h) id ;;
      match snd r with
      | Some err =>
          if errorsIs err StUserNotFound
          then respondWithError w StatusNotFound "User not found"
          else
            emit (LogError "Failed to get user" err [Int64Field "id" id]) ;;;
            respondWithError w StatusInternalServerError "Failed to get user"
      | None =>
          match fst r with
          | Some user => respondWithData w StatusOK (OneUser (ToResponse user))
          | None => ret Panic     (* a nil *User is dereferenced *)
          end
      end
  end.

Definition UpdateUser (h : UserHandler) (w : Http.ResponseWriter)
  (idVar : string) (body : option UserUpdate) : M Response :=
  match parseIDFromURL idVar with
  | (_, Some _) => respondWithError w StatusBadRequest "Invalid user ID"
  | (id, None) =>
      match body with
      | None => respondWithError w StatusBadRequest "Invalid request body"
      | Some userUpdate =>
          match DomainAlpha.UserUpdate_Validate isEmail userUpdate with
          | Some err => respondWithJSON w StatusBadRequest (ErrorText err)
          | None =>
              r <- st_UpdateUser (store h) id userUpdate ;;
              match r with
              | Some err =>
                  if errorsIs err StUserNotFound
                  then respondWithError w StatusNotFound "User not found"
                  else if errorsIs err StDuplicateEmail
                  then respondWithError w StatusConflict "Email already exists"
                  else
                    emit (LogError "Failed to update user" err
                            [Int64Field "id" id]) ;;;
                    respondWithError w StatusInternalServerError
                      "Failed to update user"
              | None => respondWithData w StatusOK (Text "")
              end
          end
      end
  end.

Definition DeleteUser (h : UserHandler) (w : Http.ResponseWriter)
  (idVar : string) : M Response :=
  match parseIDFromURL idVar with
  | (_, Some _) => respondWithError w StatusBadRequest "Invalid user ID"
  | (id, None) =>
      r <- st_DeleteUser (store h) id ;;
      match r with
      | Some err =>
          if errorsIs err StUserNotFound
          then respondWithError w StatusNotFound "User not found"
          else
            emit (LogError "Failed to delete user" err [Int64Field "id" id]) ;;;
            respondWithError w StatusInternalServerError "Failed to delete user"
      | None => ret (Header StatusNoContent)
      end
  end.

(** The [page] and [page_size] query parameters as [ListUsers] reads them;
    [Query().Get] yields the empty string for a missing parameter. *)
Definition pageParam (raw : string) : Z :=
  match GoInt.Atoi raw with
  | Some page => if page <=? 0 then 1 else page
  | None => 1
  end.

Definition pageSizeParam (raw : string) : Z :=
  match GoInt.Atoi raw with
  | Some pageSize =>
      if (pageSize <=? 0) || (pageSize >? 100) then 10 else pageSize
  | None => 10
  end.

(** The page count of the listing response. *)
Definition totalPagesOf (totalCount pageSize : Z) : Z :=
  let totalPages := GoInt.div totalCount pageSize in
  if totalPages <? 1 then 1 else totalPages.

Definition ListUsers (h : UserHandler) (w : Http.ResponseWriter)
  (rawPage rawPageSize : string) : M Response :=
  let page := pageParam rawPage in
  let pageSize := pageSizeParam rawPageSize in
  r <- st_ListUsers (store h) page pageSize ;;
  let '(users, totalCount, err) := r in
  match err with
  | Some err =>
      emit (LogError "Failed to list users" err []) ;;;
      respondWithError w StatusInternalServerError "Failed to list users"
  | None =>
      let usersToResponse := List.map ToResponse users in
      let totalPages := totalPagesOf totalCount pageSize in
      respondWithJSON w StatusOK
        (PageOfUsers {| Users := usersToResponse;
                        TotalCount := totalCount;
                        TotalPages := totalPages;
                        Page := page;
                        PageSize := pageSize |})
  end.

(** [RegisterRoutes]: the five routes, in the order of the source.  Each
    handler is given what it reads from the request: the decoded body, the
    variable [id] of the path, the raw query parameters. *)
Definition RegisterRoutes (h : UserHandler)
  (router : Mux.Router Http.ResponseWriter Response)
  : Mux.Router Http.ResponseWriter Response :=
  let router :=
    Mux.HandleFunc router (Mux.Literal "/users")
      (fun w r _ => CreateUser h w (Http.DecodeUserCreate r)) MethodPost in
  let router :=
    Mux.HandleFunc router (Mux.Digits "/users/" "id")
      (fun w _ vars => GetUser h w (vars "id")) MethodGet in
  let router :=
    Mux.HandleFunc router (Mux.Digits "/users/" "id")
      (fun w r vars => UpdateUser h w (vars "id") (Http.DecodeUserUpdate r))
      MethodPut in
  let router :=
    Mux.HandleFunc router (Mux.Digits "/users/" "id")
      (fun w _ vars => DeleteUser h w (vars "id")) MethodDelete in
  Mux.HandleFunc router (Mux.Literal "/users")
    (fun w r _ => ListUsers h w (Http.Query r "page") (Http.Query r "page_size"))
    MethodGet.

End Handlers.

End Handler.

(* ================================================================== *)
(** ** A relational backend holding a table of users

    The answers PostgreSQL gives to the two statements of [ListUsers] when
    the table [users] holds the rows [tbl]: [COUNT] is the number of rows;
    [ORDER BY id LIMIT $1 OFFSET $2] sorts by identity, drops [$2] rows and
    keeps at most [$1]; a negative limit or offset is refused (SQLSTATE 2201W
    and 2201X).  A transaction that was committed answers a later rollback
    with [sql.ErrTxDone]. *)

Module Table.

Fixpoint insertByID (u : User) (l : list User) : list User :=
  match l with
  | [] => [u]
  | v :: l' => if ID u <=? ID v then u :: l else v :: insertByID u l'
  end.

Definition orderByID (tbl : list User) : list User :=
  fold_right insertByID [] tbl.

Definition unsupported {A : Type} : result A := Err (Other "unsupported statement").

Definition selectPage (tbl : list User) (limit offset : Z) : result Rows :=
  if limit <? 0 then
    Err (Pq {| Code := "2201W"; Constraint := "";
               Message := "LIMIT must not be negative" |})
  else if offset <? 0 then
    Err (Pq {| Code := "2201X"; Constraint := "";
               Message := "OFFSET must not be negative" |})
  else
    Ok {| scans := List.map Ok (firstn (Z.to_nat limit)
                                  (skipn (Z.to_nat offset) (orderByID tbl)));
          iterErr := None |}.

Definition tableDB (tbl : list User) : DB :=
  {| db_Ping := None;
     db_Close := None;
     db_QueryRowScanInt64 := fun _ _ => unsupported;
     db_QueryRowScanUser := fun _ _ => unsupported;
     db_Exec := fun _ _ => unsupported;
     db_BeginTx := fun _ => None;
     tx_QueryRowScanInt := fun query _ =>
       if String.eqb query sqlCountUsers
       then Ok (Z.of_nat (List.length tbl)) else unsupported;
     tx_Query := fun query args =>
       if String.eqb query sqlListUsers then
         match args with
         | [ArgInt limit; ArgInt offset] => selectPage tbl limit offset
         | _ => unsupported
         end
       else unsupported;
     tx_Commit := None;
     tx_Rollback := fun committed =>
       if committed then Some (New SqlErrTxDone) else None |}.

End Table.

(* ================================================================== *)
(** ** Package config *)

Module Config.

(** The process environment, as [os.LookupEnv] reads it. *)
Definition Env : Type := string -> option string.

Record ServerConfig : Type := mkServerConfig { sc_Port : Z }.

Record Config : Type := mkConfig {
  Server : ServerConfig;
  Postgres : PostgresConfig;
  IsProd : bool
}.

Definition Minute : Z := 60 * Second.

(** The [*strconv.NumError] of [strconv.Atoi] on [s]; no code reads inside
    it. *)
Definition atoiError (s : string) : error :=
  Other ("strconv.Atoi: parsing " ++ s).

Definition loadEnv (env : Env) (key defaultValue : string) : string :=
  match env key with
  | Some val => val
  | None => defaultValue
  end.

Definition loadIntEnv (env : Env) (key : string) (defaultValue : Z)
  : Z * option error :=
  let valStr := loadEnv env key "" in
  if String.eqb valStr "" then (defaultValue, None)
  else
    match GoInt.Atoi valStr with
    | None => (0, Some (atoiError valStr))
    | Some val => (val, None)
    end.

Section Durations.

(** [time.ParseDuration], a function of the Go library: the duration in
    nanoseconds, or its error. *)
Variable ParseDuration : string -> result Z.

Definition loadTimeDurEnv (env : Env) (key : string) (defaultValue : Z)
  : Z * option error :=
  let valStr := loadEnv env key "" in
  if String.eqb valStr "" then (defaultValue, None)
  else
    match ParseDuration valStr with
    | Err err => (0, Some err)
    | Ok val => (val, None)
    end.

Definition LoadConfig (env : Env) : option Config * option error :=
  match loadIntEnv env "SERVER_PORT" 8080 with
  | (_, Some err) => (None, Some (Errorf "invalid SERVER_PORT: %w" [err]))
  | (port, None) =>
  let pgHost := loadEnv env "POSTGRES_HOST" "localhost" in
  match loadIntEnv env "POSTGRES_PORT" 5432 with
  | (_, Some err) => (None, Some (Errorf "invalid POSTGRES_PORT: %w" [err]))
  | (pgPort, None) =>
  let pgUser := loadEnv env "POSTGRES_USER" "postgres" in
  let pgPassword := loadEnv env "POSTGRES_PASSWORD" "postgres" in
  let pgDBName := loadEnv env "POSTGRES_DB" "users_db" in
  let pgSSLMode := loadEnv env "POSTGRES_SSLMODE" "disable" in
  match loadIntEnv env "MAX_OPEN_CONNS" 25 with
  | (_, Some err) => (None, Some (Errorf "invalid MAX_OPEN_CONNS: %w" [err]))
  | (maxOpenConns, None) =>
  match loadIntEnv env "MAX_IDLE_CONNS" 5 with
  | (_, Some err) => (None, Some (Errorf "invalid MAX_IDLE_CONNS: %w" [err]))
  | (maxIdleConns, None) =>
  match loadTimeDurEnv env "CONN_MAX_LIFETIME" (5 * Minute) with
  | (_, Some err) => (None, Some (Errorf "invalid CONN_MAX_LIFETIME: %w" [err]))
  | (connMaxLifetime, None) =>
  match loadTimeDurEnv env "CONN_MAX_IDLETIME" (5 * Minute) with
  | (_, Some err) => (None, Some (Errorf "invalid CONN_MAX_IDLETIME: %w" [err]))
  | (connMaxIdletime, None) =>
  let isProd := String.eqb (loadEnv env "ENV" "development") "production" in
  (Some {| Server := {| sc_Port := port |};
           Postgres := {| cfg_Host := pgHost;
                          cfg_Port := pgPort;
                          cfg_User := pgUser;
                          cfg_Password := pgPassword;
                          cfg_DBName := pgDBName;
                          cfg_SSLMode := pgSSLMode;
                          cfg_MaxOpenConns := maxOpenConns;
                          cfg_MaxIdleConns := maxIdleConns;
                          cfg_ConnMaxLifetime := connMaxLifetime;
                          cfg_ConnMaxIdleTime := connMaxIdletime |};
           IsProd := isProd |},
   None)
  end end end end end end.

End Durations.

End Config.

(* ================================================================== *)
(** ** Package middleware *)

Module Middleware.

(** What a handler does to the [http.ResponseWriter] it is given. *)
Inductive WriterCall : Type :=
| CallWriteHeader (statusCode : Z)
| CallWrite (data : string).

(** The response of [net/http] on an HTTP/1 connection: whether the status
    line is fixed and with which code, the informational responses sent
    before it, and the data its [Write] accepted. *)
Record ResponseWriter : Type := mkResponseWriter {
  wroteHeader : bool;
  status : Z;
  interim : list Z;
  body : list string
}.

Definition newResponseWriter : ResponseWriter :=
  {| wroteHeader := false; status := 0; interim := []; body := [] |}.

(** The codes [checkWriteHeaderCode] panics on. *)
Definition invalidCode (code : Z) : bool := (code <? 100) || (code >? 999).

(** The codes sent as informational responses, which leave the status
    open: 1xx except 101. *)
Definition informational (code : Z) : bool :=
  (100 <=? code) && (code <=? 199) && negb (code =? 101).

Definition bodyAllowedForStatus (status : Z) : bool :=
  if (100 <=? status) && (status <=? 199) then false
  else if status =? 204 then false
  else if status =? 304 then false
  else true.

(** [response.WriteHeader]: a call after the status is fixed is ignored
    (and logged as superfluous); else a code outside 100..999 panics
    ([None]), an informational code is sent at once and leaves the status
    open, and any other code fixes the status. *)
Definition rw_WriteHeader (w : ResponseWriter) (statusCode : Z)
  : option ResponseWriter :=
  if wroteHeader w then Some w
  else if invalidCode statusCode then None
  else if informational statusCode then
    Some {| wroteHeader := false; status := status w;
            interim := (interim w ++ [statusCode])%list; body := body w |}
  else
    Some {| wroteHeader := true; status := statusCode;
            interim := interim w; body := body w |}.

(** [response.Write]: with no status yet it is fixed to 200; empty data
    is then accepted, and other data are refused ([ErrBodyNotAllowed], the
    writer unchanged) when the status allows no body.  The error [Write]
    returns is not part of the state. *)
Definition rw_Write (w : ResponseWriter) (data : string)
  : option ResponseWriter :=
  match (if wroteHeader w then Some w else rw_WriteHeader w 200) with
  | None => None
  | Some w =>
      if String.eqb data "" then Some w
      else if negb (bodyAllowedForStatus (status w)) then Some w
      else Some {| wroteHeader := wroteHeader w; status := status w;
                   interim := interim w; body := (body w ++ [data])%list |}
  end.

(** The status of the response once the handler has returned: a handler
    that fixed none gets 200. *)
Definition sentStatus (w : ResponseWriter) : Z :=
  if wroteHeader w then status w else 200.

Record responseWriterWrapper : Type := mkWrapper {
  inner : ResponseWriter;
  statusCode : Z
}.

(** The wrapper's own method: it records the code, then calls the embedded
    writer, whose panic it does not stop. *)
Definition WriteHeader (w : responseWriterWrapper) (code : Z)
  : option responseWriterWrapper :=
  let w := {| inner := inner w; statusCode := code |} in
  match rw_WriteHeader (inner w) code with
  | Some i => Some {| inner := i; statusCode := statusCode w |}
  | None => None
  end.

(** [Write] is promoted from the embedded writer. *)
Definition Write (w : responseWriterWrapper) (data : string)
  : option responseWriterWrapper :=
  match rw_Write (inner w) data with
  | Some i => Some {| inner := i; statusCode := statusCode w |}
  | None => None
  end.

Definition apply (w : responseWriterWrapper) (c : WriterCall)
  : option responseWriterWrapper :=
  match c with
  | CallWriteHeader code => WriteHeader w code
  | CallWrite data => Write w data
  end.

(** [next.ServeHTTP(ww, r)] for a handler that makes the calls [calls];
    [None] when one of them panics. *)
Fixpoint ServeHTTP (calls : list WriterCall) (w : responseWriterWrapper)
  : option responseWriterWrapper :=
  match calls with
  | [] => Some w
  | c :: rest =>
      match apply w c with
      | Some w => ServeHTTP rest w
      | None => None
      end
  end.

(** The fields of the ["HTTP request"] log entry. *)
Record AccessLog : Type := mkAccessLog {
  log_method : string;
  log_path : string;
  log_remote_addr : string;
  log_status : Z;
  log_duration : Z;
  log_user_agent : string
}.

(** [LoggingMiddleware(logger)(next)] serving [r] on the writer [w];
    [duration] is what [time.Since(start)] returns.  A handler that panics
    is [None], and so is a panic of the writer: the panic unwinds through
    the middleware, which has no deferred call, and no entry is written. *)
Definition LoggingMiddleware (next : option (list WriterCall))
  (duration : Z) (w : ResponseWriter) (r : Http.Request)
  : option (ResponseWriter * AccessLog) :=
  let ww := {| inner := w; statusCode := 200 |} in
  match next with
  | None => None
  | Some calls =>
      match ServeHTTP calls ww with
      | None => None
      | Some ww =>
          Some (inner ww,
                {| log_method := Http.Method r;
                   log_path := Http.Path r;
                   log_remote_addr := Http.RemoteAddr r;
                   log_status := statusCode ww;
                   log_duration := duration;
                   log_user_agent := Http.UserAgent r |})
      end
  end.

(** The calls the handlers of package handler make on their writer:
    [respondWithJSON] writes the header and then the text [json.Marshal]
    made of the payload ([marshal]), or the header 500 alone when
    [json.Marshal] failed; a delete that succeeds writes the header
    only. *)
Definition writerCalls (marshal : Handler.Payload -> string)
  (r : Handler.Response) : option (list WriterCall) :=
  match r with
  | Handler.Json code payload =>
      Some [CallWriteHeader code; CallWrite (marshal payload)]
  | Handler.Header code => Some [CallWriteHeader code]
  | Handler.Panic => None
  end.

End Middleware.

(* ================================================================== *)
(** ** Command migrate *)

Module MigrateCmd.

(** The command line after [flag.Parse]. *)
Record Flags : Type := mkFlags {
  migrationsPath : string;
  direction : string;
  steps : Z
}.

(** The flags' defaults. *)
Definition defaultFlags : Flags :=
  {| migrationsPath := "migrations"; direction := "up"; steps := 0 |}.

(** The calls on the migrate library. *)
Inductive Call : Type :=
| New (sourceURL databaseURL : string)
| Up
| Down
| Steps (n : Z)
| CloseInstance.

(** The argument a log line formats. *)
Inductive LogArg : Type :=
| NoArg
| ErrArg (err : error)
| StringArg (s : string).

(** What the command does, in order: calls on the library and lines of the
    standard logger; [Fatalf] is the last thing a run does. *)
Inductive Output : Type :=
| Did (c : Call)
| Printf (format : string) (arg : LogArg)
| Fatalf (format : string) (arg : LogArg).

(** The answers of a migrate instance. *)
Record Migrate : Type := mkMigrate {
  m_Up : option error;
  m_Down : option error;
  m_Steps : Z -> option error;
  m_Close : option error * option error
}.

Section Main.

Variable ParseDuration : string -> result Z.

(** [migrate.New]. *)
Variable migrateNew : string -> string -> result Migrate.

(** [errors.Is(err, migrate.ErrNoChange)]. *)
Variable isNoChange : error -> bool.

Definition dsnOf (pg : PostgresConfig) : string :=
  "postgres://" ++ cfg_User pg ++ ":" ++ cfg_Password pg ++ "@"
  ++ cfg_Host pg ++ ":" ++ GoInt.sprintf_d (cfg_Port pg) ++ "/"
  ++ cfg_DBName pg ++ "?sslmode=" ++ cfg_SSLMode pg.

(** The deferred function: it runs when [main] returns, not when
    [log.Fatalf] exits the process. *)
Definition deferredClose (m : Migrate) : list Output :=
  (Did CloseInstance
   :: match fst (m_Close m) with
      | Some srcErr => [Printf "Failed to close migration source: %v" (ErrArg srcErr)]
      | None => []
      end
   ++ match snd (m_Close m) with
      | Some dbErr => [Printf "Failed to close migration database: %v" (ErrArg dbErr)]
      | None => []
      end)%list.

(** The migration the [switch] selects: the call and its answer, or [None]
    for a direction that is neither [up] nor [down]. *)
Definition selectMigration (m : Migrate) (f : Flags)
  : option (Call * option error) :=
  if String.eqb (direction f) "up" then
    if steps f >? 0 then Some (Steps (steps f), m_Steps m (steps f))
    else Some (Up, m_Up m)
  else if String.eqb (direction f) "down" then
    if steps f >? 0
    then Some (Steps (GoInt.wrapInt (- steps f)),
               m_Steps m (GoInt.wrapInt (- steps f)))
    else Some (Down, m_Down m)
  else None.

(** [main]: the exit status (0 when [main] returns, 1 after [log.Fatalf], 2
    after a panic) and the output. *)
Definition main (env : Config.Env) (f : Flags) : Z * list Output :=
  match Config.LoadConfig ParseDuration env with
  | (_, Some err) =>
      (1, [Fatalf "Failed to load configuration: %v" (ErrArg err)])
  | (None, None) => (2, [])
  | (Some cfg, None) =>
      let source := "file://" ++ migrationsPath f in
      let dsn := dsnOf (Config.Postgres cfg) in
      match migrateNew source dsn with
      | Err err =>
          (1, [Did (New source dsn);
               Fatalf "Failed to create migrate instance: %v" (ErrArg err)])
      | Ok m =>
          match selectMigration m f with
          | None =>
              (1, [Did (New source dsn);
                   Fatalf "Invalid command: %s" (StringArg (direction f))])
          | Some (c, err) =>
              match err with
              | Some e =>
                  if negb (isNoChange e)
                  then (1, [Did (New source dsn); Did c;
                            Fatalf "Migration failed: %v" (ErrArg e)])
                  else (0, (Did (New source dsn) :: Did c
                            :: Printf "Migration completed successfully" NoArg
                            :: deferredClose m)%list)
              | None =>
                  (0, (Did (New source dsn) :: Did c
                       :: Printf "Migration completed successfully" NoArg
                       :: deferredClose m)%list)
              end
          end
      end
  end.

End Main.

(** The library calls of an output. *)
Definition calls (out : list Output) : list Call :=
  flat_map (fun o => match o with Did c => [c] | _ => [] end) out.

End MigrateCmd.

(* ================================================================== *)
(** ** Command api: from the start of [main] to the registration of the
    handlers *)

Module ApiMain.

(** What [database/sql] answers on a handle after [Close]: every statement
    and every transaction is refused; a second [Close] succeeds. *)
Definition errDBClosed : error := Other "sql: database is closed".

Definition closed (d : DB) : DB :=
  {| db_Ping := Some errDBClosed;
     db_Close := None;
     db_QueryRowScanInt64 := fun _ _ => Err errDBClosed;
     db_QueryRowScanUser := fun _ _ => Err errDBClosed;
     db_Exec := fun _ _ => Err errDBClosed;
     db_BeginTx := fun _ => Some errDBClosed;
     tx_QueryRowScanInt := tx_QueryRowScanInt d;
     tx_Query := tx_Query d;
     tx_Commit := tx_Commit d;
     tx_Rollback := tx_Rollback d |}.

(** How the start of [main] ends: the process exits on a fatal log line, it
    panics, or the handlers are registered on [handler] and the server is
    configured for [port]. *)
Inductive Startup : Type :=
| Fatal (msg : string) (err : error)
| Panicked
| Serving (handler : Handler.UserHandler) (port : Z).

Section Main.

Variable ParseDuration : string -> result Z.

(** [logger.NewLogger], which builds a zap configuration. *)
Variable NewLogger : bool -> option error.

Variable sqlOpen : string -> string -> result DB.

(** [main] up to [userHandler.RegisterRoutes]; the trace holds the driver
    calls and the error and warning entries, the informational entries are
    left out. *)
Definition startup (env : Config.Env) : M Startup :=
  match Config.LoadConfig ParseDuration env with
  | (_, Some err) => ret (Fatal "Failed to load configuration: %v" err)
  | (None, None) => ret Panicked
  | (Some cfg, None) =>
      match NewLogger (Config.IsProd cfg) with
      | Some err => ret (Fatal "Failed to initialize logger: %v" err)
      | None =>
          r <- NewPostgresStore sqlOpen (Config.Postgres cfg) ;;
          match r with
          | (_, Some err) => ret (Fatal "Failed to connect to database" err)
          | (None, None) => ret Panicked
          | (Some store, None) =>
              (* _ = store.Close() *)
              _ <- PostgresStore_Close store ;;
              let store := {| db := closed (db store) |} in
              let userHandler :=
                {| Handler.store := Handler.postgresStorer store |} in
              ret (Serving userHandler (Config.sc_Port (Config.Server cfg)))
          end
      end
  end.

End Main.

End ApiMain.

(* ================================================================== *)
(** ** Vocabulary of the statements, and the fixtures of the tests *)

(** The backend error is a unique-constraint violation on the e-mail column:
    the driver error that [errors.As] finds carries SQLSTATE 23505 and names
    the constraint [users_email_key]. *)
Definition emailUniqueViolation (err : error) : Prop :=
  exists pqErr, errorsAsPq err = Some pqErr
                /\ Code pqErr = "23505"
                /\ Constraint pqErr = "users_email_key".

Definition emailUniqueViolationb (err : error) : bool :=
  match errorsAsPq err with
  | Some pqErr =>
      String.eqb (Code pqErr) "23505"
      && String.eqb (Constraint pqErr) "users_email_key"
  | None => false
  end.

(** [answersWith d raw]: the handle [d] answers some call the store can make
    with the error [raw] (the rollback and the close apart, whose errors are
    only logged). *)
Inductive answersWith (d : DB) : error -> Prop :=
| aw_BeginTx ro raw :
    db_BeginTx d ro = Some raw -> answersWith d raw
| aw_Commit raw :
    tx_Commit d = Some raw -> answersWith d raw
| aw_ScanInt64 q a raw :
    db_QueryRowScanInt64 d q a = Err raw -> answersWith d raw
| aw_ScanUser q a raw :
    db_QueryRowScanUser d q a = Err raw -> answersWith d raw
| aw_Exec q a raw :
    db_Exec d q a = Err raw -> answersWith d raw
| aw_RowsAffected q a raw :
    db_Exec d q a = Ok (Err raw) -> answersWith d raw
| aw_TxScanInt q a raw :
    tx_QueryRowScanInt d q a = Err raw -> answersWith d raw
| aw_TxQuery q a raw :
    tx_Query d q a = Err raw -> answersWith d raw
| aw_RowScan q a rows raw :
    tx_Query d q a = Ok rows -> In (Err raw) (scans rows) -> answersWith d raw
| aw_RowsErr q a rows raw :
    tx_Query d q a = Ok rows -> iterErr rows = Some raw -> answersWith d raw.

(** An operation's error result is [routed] when it is [nil], one of the
    listed errors the operation raises without any backend error at hand, or
    the image under [handleError] of an error the backend answered with. *)
Definition routed (d : DB) (own : list error) (r : option error) : Prop :=
  match r with
  | None => True
  | Some e =>
      In e own
      \/ exists raw msg fields,
           answersWith d raw /\ e = value (handleError raw msg fields)
  end.

(** The image of a backend error under [handleError]; it is the same for
    every message and every list of fields. *)
Definition mapped (raw : error) : error := value (handleError raw "" []).

(** The error of an answer of the backend. *)
Definition resultError {A : Type} (r : result A) : option error :=
  match r with
  | Err raw => Some raw
  | Ok _ => None
  end.

(** The error of the answer to [ExecContext], or else of its
    [RowsAffected]. *)
Definition execError (r : result (result Z)) : option error :=
  match r with
  | Err raw => Some raw
  | Ok (Err raw) => Some raw
  | Ok (Ok _) => None
  end.

(** The statement ran and affected no row. *)
Definition zeroRows (r : result (result Z)) : bool :=
  match r with
  | Ok (Ok n) => n =? 0
  | _ => false
  end.

(** The error of the first row that fails to scan. *)
Fixpoint firstScanError (items : list (result User)) : option error :=
  match items with
  | [] => None
  | Ok _ :: rest => firstScanError rest
  | Err raw :: _ => Some raw
  end.

(** The first error the backend answers with along a listing: at the begin
    of the transaction, the count, the query, a row, the end of the rows or
    the commit. *)
Definition listingError (d : DB) (page pageSize : Z) : option error :=
  match db_BeginTx d true with
  | Some raw => Some raw
  | None =>
      match tx_QueryRowScanInt d sqlCountUsers [] with
      | Err raw => Some raw
      | Ok _ =>
          match tx_Query d sqlListUsers
                  [ArgInt pageSize;
                   ArgInt (GoInt.wrapInt ((page - 1) * pageSize))] with
          | Err raw => Some raw
          | Ok rows =>
              match firstScanError (scans rows) with
              | Some raw => Some raw
              | None =>
                  match iterErr rows with
                  | Some raw => Some raw
                  | None => tx_Commit d
                  end
              end
          end
      end
  end.

(** What an operation returns as its error when the backend answered with
    [backend] along its calls: the image of that error under
    [handleError], or [otherwise] when the backend raised none. *)
Definition surfaces (backend : option error) (otherwise : option error)
  : option error :=
  match backend with
  | Some raw => Some (mapped raw)
  | None => otherwise
  end.

(** The entries an operation logs for the backend error it surfaces. *)
Definition surfacedLog (backend : option error) (msg : string)
  (fields : list Field) : list Event :=
  match backend with
  | Some raw => trace (handleError raw msg fields)
  | None => []
  end.

(** The columns an update supplies, in declaration order, with their
    values. *)
Definition suppliedColumns (u : UserUpdate) : list (string * string) :=
  List.filter (fun cv => negb (String.eqb (snd cv) ""))
    [("email", uu_Email u);
     ("first_name", uu_FirstName u);
     ("last_name", uu_LastName u)].

(** [column = $pos] for each column, numbered from [pos]. *)
Fixpoint assignments (cols : list (string * string)) (pos : Z) : list string :=
  match cols with
  | [] => []
  | (column, _) :: rest =>
      (column ++ " = $" ++ GoInt.sprintf_d pos)%string
        :: assignments rest (pos + 1)
  end.

Definition updateStatement (u : UserUpdate) : string :=
  "UPDATE users SET "
  ++ String.concat ", "
       (assignments (suppliedColumns u) 1 ++ ["updated_at = NOW()"])%list
  ++ " WHERE id = $"
  ++ GoInt.sprintf_d (Z.of_nat (List.length (suppliedColumns u)) + 1)
  ++ " RETURNING id".

Definition updateArguments (u : UserUpdate) (id : Z) : list Arg :=
  (List.map (fun cv => ArgString (snd cv)) (suppliedColumns u)
   ++ [ArgInt id])%list.

(** A writer whose [Write] succeeds, and one on a connection the client
    has left. *)
Definition okWriter : Http.ResponseWriter := {| Http.WriteErr := None |}.

Definition brokenWriter : Http.ResponseWriter :=
  {| Http.WriteErr := Some (Other "write: broken pipe") |}.

(** What [respondWithJSON] logs after its [Write]. *)
Definition writeLog (w : Http.ResponseWriter) : list Event :=
  match Http.WriteErr w with
  | Some err => [LogError "failed to write response" err []]
  | None => []
  end.

(** Every instant has a JSON text. *)
Definition marshalsAll : Time -> option error := fun _ => None.

(** No instant before 0 has a JSON text. *)
Definition marshalsSinceZero : Time -> option error :=
  fun t => if t <? 0
           then Some (Other "Time.MarshalJSON: year outside of range [0,9999]")
           else None.

(** [MarshalJSON] accepts the two timestamps of each of the users. *)
Definition marshals (MarshalJSON : Time -> option error) (users : list User)
  : Prop :=
  Forall (fun u => MarshalJSON (CreatedAt u) = None
                   /\ MarshalJSON (UpdatedAt u) = None) users.

(** The page of the listing response, by the words of the specification:
    the page count is the truncated quotient of the total count by the page
    size, and at least one. *)
Definition pageResponse (users : list User) (totalCount page pageSize : Z)
  : PaginatedUsersResponse :=
  {| Users := List.map ToResponse users;
     TotalCount := totalCount;
     Page := page;
     PageSize := pageSize;
     TotalPages := Z.max 1 (Z.quot totalCount pageSize) |}.

(** The subrouter of a path prefix, before any route is registered. *)
Definition newRouter (prefix : string)
  : Mux.Router Http.ResponseWriter Handler.Response :=
  {| Mux.pathPrefix := prefix; Mux.routes := [] |}.

(** The value of a string of decimal digits. *)
Fixpoint digitsValueFrom (s : string) (acc : Z) : Z :=
  match s with
  | EmptyString => acc
  | String c rest => digitsValueFrom rest (10 * acc + GoInt.digitVal c)
  end.

Definition digitsValue (s : string) : Z := digitsValueFrom s 0.

(** A request for [path] with the given method, nothing else set. *)
Definition requestFor (m path : string) : Http.Request :=
  {| Http.Method := m; Http.Path := path;
     Http.RemoteAddr := ""; Http.UserAgent := "";
     Http.Query := fun _ => "";
     Http.DecodeUserCreate := None; Http.DecodeUserUpdate := None |}.

(** The status codes the handlers answer with. *)
Definition handlerStatuses : list Z := [200; 201; 204; 400; 404; 409; 500].

(** The responses of the handlers: a body goes with one of six codes, a
    bare header is 204 or 500. *)
Definition wellFormed (resp : Handler.Response) : Prop :=
  match resp with
  | Handler.Json code _ => In code [200; 201; 400; 404; 409; 500]
  | Handler.Header code => In code [204; 500]
  | Handler.Panic => True
  end.

(** The access log entry of a request answered with [code] after
    [duration]. *)
Definition accessLog (r : Http.Request) (code duration : Z)
  : Middleware.AccessLog :=
  {| Middleware.log_method := Http.Method r;
     Middleware.log_path := Http.Path r;
     Middleware.log_remote_addr := Http.RemoteAddr r;
     Middleware.log_status := code;
     Middleware.log_duration := duration;
     Middleware.log_user_agent := Http.UserAgent r |}.

(** A store double that answers every listing with the same page, as the
    handler's unit test sets it up. *)
Definition listingStub (users : list User) (totalCount : Z) : Handler.Storer :=
  {| Handler.st_CreateUser := fun _ => ret (0, None);
     Handler.st_GetUserByID := fun _ => ret (None, Some ErrUserNotFound);
     Handler.st_UpdateUser := fun _ _ => ret None;
     Handler.st_DeleteUser := fun _ => ret None;
     Handler.st_ListUsers := fun _ _ => ret (users, totalCount, None) |}.

Definition seedUsers : list User :=
  [ {| ID := 1; Email := "user1@example.com"; FirstName := "John";
       LastName := "Doe"; CreatedAt := 0; UpdatedAt := 0 |};
    {| ID := 2; Email := "user2@example.com"; FirstName := "Jane";
       LastName := "Smith"; CreatedAt := 0; UpdatedAt := 0 |} ].

Definition ascendingID (l : list User) : Prop :=
  Sorted (fun a b => ID a <= ID b) l.

(** The rows of page [page] of a table, by the words of the specification:
    sort by identity, skip [(page - 1) * pageSize] rows, keep [pageSize]. *)
Definition pageOf (tbl : list User) (page pageSize : Z) : list User :=
  firstn (Z.to_nat pageSize)
    (skipn (Z.to_nat ((page - 1) * pageSize)) (Table.orderByID tbl)).

Definition isPoolSetting (c : Call) : bool :=
  match c with
  | SetMaxOpenConns _ | SetMaxIdleConns _
  | SetConnMaxLifetime _ | SetConnMaxIdleTime _ => true
  | _ => false
  end.

(** The configuration of the integration suite. *)
Definition suiteConfig : PostgresConfig :=
  {| cfg_Host := "localhost"; cfg_Port := 5432; cfg_User := "postgres";
     cfg_Password := "postgres"; cfg_DBName := "users_db";
     cfg_SSLMode := "disable";
     cfg_MaxOpenConns := 5; cfg_MaxIdleConns := 2;
     cfg_ConnMaxLifetime := 300 * Second;
     cfg_ConnMaxIdleTime := 60 * Second |}.

(** A handle whose probe fails with [err]. *)
Definition unreachableDB (err closeErr : option error) : DB :=
  {| db_Ping := err;
     db_Close := closeErr;
     db_QueryRowScanInt64 := fun _ _ => Table.unsupported;
     db_QueryRowScanUser := fun _ _ => Table.unsupported;
     db_Exec := fun _ _ => Table.unsupported;
     db_BeginTx := fun _ => None;
     tx_QueryRowScanInt := fun _ _ => Table.unsupported;
     tx_Query := fun _ _ => Table.unsupported;
     tx_Commit := None;
     tx_Rollback := fun _ => None |}.

Inductive Operation : Type := OpCreate | OpGet | OpUpdate | OpDelete | OpList.

(** The status a handler answers with when the store returns the error
    [err]. *)
Definition statusFor (op : Operation) (err : error) : Z :=
  match op with
  | OpCreate => if errorsIs err StDuplicateEmail then 409 else 500
  | OpGet | OpDelete => if errorsIs err StUserNotFound then 404 else 500
  | OpUpdate =>
      if errorsIs err StUserNotFound then 404
      else if errorsIs err StDuplicateEmail then 409
      else 500
  | OpList => 500
  end.

(** A store double with a fixed error answer to every call. *)
Definition failingStorer (err : error) : Handler.Storer :=
  {| Handler.st_CreateUser := fun _ => ret (0, Some err);
     Handler.st_GetUserByID := fun _ => ret (None, Some err);
     Handler.st_UpdateUser := fun _ _ => ret (Some err);
     Handler.st_DeleteUser := fun _ => ret (Some err);
     Handler.st_ListUsers := fun _ _ => ret ([], 0, Some err) |}.

(** The driver error of the store's duplicate-email test. *)
Definition duplicateEmailError : error :=
  Pq {| Code := "23505"; Constraint := "users_email_key"; Message := "" |}.

(** A unique violation on another constraint. *)
Definition otherUniqueError : error :=
  Pq {| Code := "23505"; Constraint := "users_pkey"; Message := "" |}.

(** A handle on which every statement meets no row and every insert meets
    the e-mail constraint. *)
Definition conflictDB : DB :=
  {| db_Ping := None;
     db_Close := None;
     db_QueryRowScanInt64 := fun _ _ => Err duplicateEmailError;
     db_QueryRowScanUser := fun _ _ => Err sqlErrNoRows;
     db_Exec := fun _ _ => Ok (Ok 0);
     db_BeginTx := fun _ => Some (Other "connection refused");
     tx_QueryRowScanInt := fun _ _ => Table.unsupported;
     tx_Query := fun _ _ => Table.unsupported;
     tx_Commit := None;
     tx_Rollback := fun _ => None |}.

Definition inTransaction (c : Call) : bool :=
  match c with
  | TxQueryRowContext _ _ | TxQueryContext _ _
  | RowsClose | TxCommit | TxRollback => true
  | _ => false
  end.

Definition commitCalls (fnErr : option error) : list Call :=
  match fnErr with
  | None => [TxCommit]
  | Some _ => []
  end.

(** [t] ends with the entries [suffix]. *)
Definition endsWith (t suffix : list Event) : Prop :=
  exists pre, t = (pre ++ suffix)%list.

(** The backend error does not itself wrap one of the store's own error
    values. *)
Definition foreign (raw : error) : Prop :=
  errorsIs raw StDuplicateEmail = false
  /\ errorsIs raw StUserNotFound = false
  /\ errorsIs raw StDatabaseInternal = false.

(** The number of pages that [totalCount] records fill at [pageSize] records
    a page. *)
Definition pagesNeeded (totalCount pageSize : Z) : Z :=
  (totalCount + pageSize - 1) / pageSize.

(** The handler built on a store, as [NewUserHandler] builds it. *)
Definition handlerOn (s : PostgresStore) : Handler.UserHandler :=
  {| Handler.store := Handler.postgresStorer s |}.

(** The variable is set to a non-empty value that is not a decimal 64-bit
    integer. *)
Definition badInt (env : Config.Env) (key : string) : Prop :=
  exists v, env key = Some v /\ v <> "" /\ GoInt.Atoi v = None.

(** The variable is set to a non-empty value that [ParseDuration] refuses. *)
Definition badDuration (ParseDuration : string -> result Z)
  (env : Config.Env) (key : string) : Prop :=
  exists v e, env key = Some v /\ v <> "" /\ ParseDuration v = Err e.

(** The variable is not set, or set to the empty string. *)
Definition unsetOrEmpty (env : Config.Env) (key : string) : Prop :=
  env key = None \/ env key = Some "".

(** The configuration of an empty environment. *)
Definition defaultConfig : Config.Config :=
  {| Config.Server := {| Config.sc_Port := 8080 |};
     Config.Postgres :=
       {| cfg_Host := "localhost"; cfg_Port := 5432; cfg_User := "postgres";
          cfg_Password := "postgres"; cfg_DBName := "users_db";
          cfg_SSLMode := "disable";
          cfg_MaxOpenConns := 25; cfg_MaxIdleConns := 5;
          cfg_ConnMaxLifetime := 300 * Second;
          cfg_ConnMaxIdleTime := 300 * Second |};
     Config.IsProd := false |}.

(** An environment that sets a negative database port, an empty host and
    the production mode. *)
Definition oddEnv : Config.Env :=
  fun key =>
    if String.eqb key "POSTGRES_PORT" then Some "-1"
    else if String.eqb key "POSTGRES_HOST" then Some ""
    else if String.eqb key "ENV" then Some "production"
    else None.

(** The code of the last [WriteHeader] among [calls], [d] when there is
    none. *)
Definition lastHeader (calls : list Middleware.WriterCall) (d : Z) : Z :=
  fold_left
    (fun acc c =>
       match c with
       | Middleware.CallWriteHeader code => code
       | Middleware.CallWrite _ => acc
       end)
    calls d.

(** The status the calls fix on a fresh writer: the code of the first
    [WriteHeader] that is not informational, when no [Write] comes before
    it, and 200 otherwise. *)
Fixpoint fixedStatus (calls : list Middleware.WriterCall) : Z :=
  match calls with
  | [] => 200
  | Middleware.CallWrite _ :: _ => 200
  | Middleware.CallWriteHeader code :: rest =>
      if Middleware.informational code then fixedStatus rest else code
  end.

(** Some [WriteHeader] with a code outside 100..999 comes before the status
    is fixed. *)
Fixpoint panics (calls : list Middleware.WriterCall) : bool :=
  match calls with
  | [] => false
  | Middleware.CallWrite _ :: _ => false
  | Middleware.CallWriteHeader code :: rest =>
      Middleware.invalidCode code
      || (Middleware.informational code && panics rest)
  end.

Definition isWrite (c : Middleware.WriterCall) : bool :=
  match c with
  | Middleware.CallWrite _ => true
  | Middleware.CallWriteHeader _ => false
  end.

(** The migration ran to its end: it returned [nil], or an error that is
    [migrate.ErrNoChange]. *)
Definition migrated (isNoChange : error -> bool) (err : option error) : Prop :=
  match err with
  | None => True
  | Some e => isNoChange e = true
  end.

(* ================================================================== *)
(** * Properties *)

(** ** The monad *)

Section MonadFacts.

Context {A B : Type}.

Lemma value_ret (a : A) : value (ret a) = a.
Proof. reflexivity. Qed.

Lemma trace_ret (a : A) : trace (ret a) = [].
Proof. reflexivity. Qed.

Lemma value_bind (m : M A) (k : A -> M B) :
  value (bind m k) = value (k (value m)).
Proof.
  unfold bind, value. destruct m as [a t1]. simpl.
  destruct (k a) as [b t2]. reflexivity.
Qed.

Lemma trace_bind (m : M A) (k : A -> M B) :
  trace (bind m k) = (trace m ++ trace (k (value m)))%list.
Proof.
  unfold bind, value, trace. destruct m as [a t1]. simpl.
  destruct (k a) as [b t2]. reflexivity.
Qed.

End MonadFacts.

Lemma driverCalls_app (t1 t2 : list Event) :
  driverCalls (t1 ++ t2) = (driverCalls t1 ++ driverCalls t2)%list.
Proof. unfold driverCalls. apply flat_map_app. Qed.

Create Rewrite HintDb go.
#[local] Hint Rewrite @value_bind @trace_bind @value_ret @trace_ret
  driverCalls_app : go.

Ltac go_simpl := repeat (autorewrite with go; cbn [value trace fst snd emit call]).

(** ** The responses of the handlers *)

Section ResponseFacts.

Variable MarshalJSON : Time -> option error.
Variable w : Http.ResponseWriter.

Lemma respondWithJSON_cases (code : Z) (payload : Handler.Payload) :
  Handler.respondWithJSON MarshalJSON w code payload
  = match Handler.jsonMarshal MarshalJSON payload with
    | Some err =>
        (Handler.Header 500,
         [LogError "failed to marshal JSON response" err []])
    | None => (Handler.Json code payload, writeLog w)
    end.
Proof.
  unfold Handler.respondWithJSON, writeLog.
  destruct (Handler.jsonMarshal MarshalJSON payload); [reflexivity|].
  destruct (Http.WriteErr w); reflexivity.
Qed.

(** A payload without a timestamp is always written. *)
Lemma respondWithJSON_plain (code : Z) (payload : Handler.Payload) :
  Handler.payloadTimes payload = [] ->
  Handler.respondWithJSON MarshalJSON w code payload
  = (Handler.Json code payload, writeLog w).
Proof.
  intros H. rewrite respondWithJSON_cases. unfold Handler.jsonMarshal.
  rewrite H. reflexivity.
Qed.

Lemma respondWithError_eq (code : Z) (message : string) :
  Handler.respondWithError MarshalJSON w code message
  = (Handler.Json code (Handler.ErrorMessage message), writeLog w).
Proof. apply respondWithJSON_plain. reflexivity. Qed.

Lemma respondWithData_eq (code : Z) (payload : Handler.Payload) :
  Handler.respondWithData MarshalJSON w code payload
  = Handler.respondWithJSON MarshalJSON w code payload.
Proof. reflexivity. Qed.

Lemma driverCalls_writeLog : driverCalls (writeLog w) = [].
Proof. unfold writeLog. destruct (Http.WriteErr w); reflexivity. Qed.

Lemma respondWithJSON_no_driver (code : Z) (payload : Handler.Payload) :
  driverCalls (trace (Handler.respondWithJSON MarshalJSON w code payload)) = [].
Proof.
  rewrite respondWithJSON_cases.
  destruct (Handler.jsonMarshal MarshalJSON payload);
    [reflexivity | apply driverCalls_writeLog].
Qed.

Lemma respondWithJSON_status (code : Z) (payload : Handler.Payload) :
  Handler.statusOf
    (value (Handler.respondWithJSON MarshalJSON w code payload))
  = Some (match Handler.jsonMarshal MarshalJSON payload with
          | Some _ => 500
          | None => code
          end).
Proof.
  rewrite respondWithJSON_cases.
  destruct (Handler.jsonMarshal MarshalJSON payload); reflexivity.
Qed.

Lemma marshalTimes_none (times : list Time) :
  Handler.marshalTimes MarshalJSON times = None
  <-> Forall (fun t => MarshalJSON t = None) times.
Proof.
  induction times as [|t times IH]; simpl.
  - split; [constructor | reflexivity].
  - destruct (MarshalJSON t) eqn:E.
    + split; [discriminate|]. intros H. inversion H; congruence.
    + rewrite IH. split.
      * intros H. constructor; assumption.
      * intros H. inversion H; assumption.
Qed.

Lemma jsonMarshal_user (u : User) :
  Handler.jsonMarshal MarshalJSON (Handler.OneUser (ToResponse u)) = None
  <-> MarshalJSON (CreatedAt u) = None /\ MarshalJSON (UpdatedAt u) = None.
Proof.
  unfold Handler.jsonMarshal. rewrite marshalTimes_none.
  cbn [Handler.payloadTimes Handler.userTimes ToResponse ur_CreatedAt
       ur_UpdatedAt].
  split.
  - intros H. inversion H as [|? ? H1 H2]; subst.
    inversion H2; subst. auto.
  - intros [H1 H2]. repeat constructor; assumption.
Qed.

Lemma jsonMarshal_page (users : list User) (totalCount page pageSize pages : Z) :
  Handler.jsonMarshal MarshalJSON
    (Handler.PageOfUsers
       {| Users := List.map ToResponse users; TotalCount := totalCount;
          Page := page; PageSize := pageSize; TotalPages := pages |}) = None
  <-> marshals MarshalJSON users.
Proof.
  unfold Handler.jsonMarshal, marshals. rewrite marshalTimes_none.
  cbn [Handler.payloadTimes Users].
  induction users as [|u users IH]; simpl.
  - split; constructor.
  - split.
    + intros H. inversion H as [|? ? H1 H2]; subst.
      inversion H2 as [|? ? H3 H4]; subst.
      constructor; [auto | apply IH, H4].
    + intros H. inversion H as [|? ? [H1 H2] H3]; subst.
      constructor; [exact H1|]. constructor; [exact H2|]. apply IH, H3.
Qed.

End ResponseFacts.

#[local] Hint Rewrite respondWithError_eq respondWithData_eq
  driverCalls_writeLog respondWithJSON_no_driver : go.
#[local] Hint Rewrite respondWithJSON_plain using reflexivity : go.

(** ** The error mapping *)

Lemma emailUniqueViolation_reflect (err : error) :
  emailUniqueViolationb err = true <-> emailUniqueViolation err.
Proof.
  unfold emailUniqueViolationb, emailUniqueViolation.
  destruct (errorsAsPq err) as [p|].
  - rewrite andb_true_iff, !String.eqb_eq. split.
    + intros [Hc Hk]. exists p. auto.
    + intros [q [Hq [Hc Hk]]]. inversion Hq; subst. auto.
  - split; [discriminate|]. intros [q [Hq _]]. discriminate.
Qed.

(** The three branches of [handleError], by the two tests it makes. *)
Lemma handleError_cases (err : error) (msg : string) (fields : list Field) :
  handleError err msg fields =
  if emailUniqueViolationb err then ret ErrDuplicateEmail
  else if errorsIs err SqlErrNoRows then ret ErrUserNotFound
  else (Errorf "%w: %w" [ErrDatabaseInternal; err],
        [LogError msg err fields]).
Proof.
  unfold handleError, emailUniqueViolationb, pgDuplicateCode.
  destruct (errorsAsPq err) as [p|]; simpl.
  - destruct (String.eqb (Code p) "23505" &&
              String.eqb (Constraint p) "users_email_key"); [reflexivity|].
    destruct (errorsIs err SqlErrNoRows); reflexivity.
  - destruct (errorsIs err SqlErrNoRows); reflexivity.
Qed.

(** The mapped error does not depend on the message and fields handed to the
    logger. *)
Lemma handleError_value_indep (err : error) (m1 m2 : string)
  (f1 f2 : list Field) :
  value (handleError err m1 f1) = value (handleError err m2 f2).
Proof.
  rewrite !handleError_cases.
  destruct (emailUniqueViolationb err); [reflexivity|].
  destruct (errorsIs err SqlErrNoRows); reflexivity.
Qed.

(** [handleError] never talks to the driver. *)
Lemma handleError_no_driver (err : error) (msg : string) (fields : list Field) :
  driverCalls (trace (handleError err msg fields)) = [].
Proof.
  rewrite handleError_cases.
  destruct (emailUniqueViolationb err); [reflexivity|].
  destruct (errorsIs err SqlErrNoRows); reflexivity.
Qed.

Lemma handleError_duplicate_iff (err : error) (msg : string)
  (fields : list Field) :
  value (handleError err msg fields) = ErrDuplicateEmail
  <-> emailUniqueViolation err.
Proof.
  split.
  - intros H. rewrite handleError_cases in H.
    destruct (emailUniqueViolationb err) eqn:E.
    + apply emailUniqueViolation_reflect, E.
    + destruct (errorsIs err SqlErrNoRows); discriminate H.
  - intros H. apply emailUniqueViolation_reflect in H.
    rewrite handleError_cases, H. reflexivity.
Qed.

Lemma handleError_otherwise (err : error) (msg : string)
  (fields : list Field) :
  ~ emailUniqueViolation err ->
  value (handleError err msg fields) =
  if errorsIs err SqlErrNoRows then ErrUserNotFound
  else Errorf "%w: %w" [ErrDatabaseInternal; err].
Proof.
  intros Hn. rewrite handleError_cases.
  destruct (emailUniqueViolationb err) eqn:E.
  - exfalso. apply Hn, emailUniqueViolation_reflect, E.
  - destruct (errorsIs err SqlErrNoRows); reflexivity.
Qed.

(** C10. [handleError] answers [ErrDuplicateEmail] exactly when the driver
    error found by [errors.As] has SQLSTATE 23505 and the constraint name
    [users_email_key]; every other error, a unique violation under another
    constraint name included, becomes [ErrUserNotFound] when it is a no-rows
    error and otherwise the internal error that wraps it. *)
Theorem handleError_duplicate_only_users_email_key :
  forall (err : error) (msg : string) (fields : list Field),
    (value (handleError err msg fields) = ErrDuplicateEmail
     <-> emailUniqueViolation err)
    /\ (~ emailUniqueViolation err ->
        value (handleError err msg fields) =
        if errorsIs err SqlErrNoRows then ErrUserNotFound
        else Errorf "%w: %w" [ErrDatabaseInternal; err])
    /\ (forall pqErr : PqError,
          Code pqErr <> "23505" \/ Constraint pqErr <> "users_email_key" ->
          value (handleError (Pq pqErr) msg fields) =
          Errorf "%w: %w" [ErrDatabaseInternal; Pq pqErr]).
Proof.
  intros err msg fields. split; [|split].
  - apply handleError_duplicate_iff.
  - apply handleError_otherwise.
  - intros p Hp. rewrite handleError_otherwise; [reflexivity|].
    intros [q [Hq [Hc Hk]]]. simpl in Hq. inversion Hq; subst q.
    destruct Hp; contradiction.
Qed.

(** ** Every backend error goes through [handleError] *)

Lemma routed_handleError (d : DB) (own : list error) (raw : error)
  (msg : string) (fields : list Field) :
  answersWith d raw ->
  routed d own (Some (value (handleError raw msg fields))).
Proof. intros H. right. exists raw, msg, fields. auto. Qed.

Lemma scanLoop_routed (d : DB) (items : list (result User)) :
  forall users,
    (forall raw, In (Err raw) items -> answersWith d raw) ->
    routed d [] (snd (value (scanLoop items users))).
Proof.
  induction items as [|[u|raw] rest IH]; intros users Hin; simpl.
  - exact I.
  - apply IH. intros r Hr. apply Hin. right. exact Hr.
  - go_simpl. apply routed_handleError. apply Hin. left. reflexivity.
Qed.

Lemma routed_weaken (d : DB) (own own' : list error) (r : option error) :
  incl own own' -> routed d own r -> routed d own' r.
Proof.
  intros Hi. destruct r as [e|]; simpl; [|auto].
  intros [H|H]; [left; apply Hi, H | right; exact H].
Qed.

Lemma listUsersTx_routed (s : PostgresStore) (page pageSize : Z)
  (st : list User * Z) :
  routed (db s) [] (snd (value (listUsersTx s page pageSize st))).
Proof.
  unfold listUsersTx. destruct st as [users totalCount]. go_simpl.
  destruct (tx_QueryRowScanInt (db s) sqlCountUsers []) as [n|raw] eqn:Ec.
  - go_simpl.
    destruct (tx_Query (db s) sqlListUsers
                [ArgInt pageSize;
                 ArgInt (GoInt.wrapInt ((page - 1) * pageSize))])
      as [rows|raw] eqn:Eq.
    + go_simpl.
      pose proof (scanLoop_routed (db s) (scans rows) []
                    (fun raw H => aw_RowScan _ _ _ _ _ Eq H)) as Hs.
      destruct (snd (value (scanLoop (scans rows) []))) as [e|] eqn:Es.
      * go_simpl. exact Hs.
      * destruct (iterErr rows) as [raw|] eqn:Ei; go_simpl.
        -- apply routed_handleError. eapply aw_RowsErr; eauto.
        -- exact I.
    + go_simpl. apply routed_handleError. eapply aw_TxQuery; eauto.
  - go_simpl. apply routed_handleError. eapply aw_TxScanInt; eauto.
Qed.

Lemma withTx_routed {S : Type} (s : PostgresStore) (ro : bool) (init : S)
  (fn : S -> M (S * option error)) :
  routed (db s) [] (snd (value (fn init))) ->
  routed (db s) [] (snd (value (withTx s ro init fn))).
Proof.
  intros Hfn. unfold withTx. go_simpl.
  destruct (db_BeginTx (db s) ro) as [raw|] eqn:Eb.
  - go_simpl. apply routed_handleError. eapply aw_BeginTx; eauto.
  - go_simpl. destruct (snd (value (fn init))) as [e|] eqn:Ef.
    + go_simpl. exact Hfn.
    + go_simpl. destruct (tx_Commit (db s)) as [raw|] eqn:Ecm.
      * go_simpl. apply routed_handleError. eapply aw_Commit; eauto.
      * go_simpl. exact I.
Qed.

Lemma mapped_eq (raw : error) (msg : string) (fields : list Field) :
  value (handleError raw msg fields) = mapped raw.
Proof. apply handleError_value_indep. Qed.

Lemma scanLoop_error (items : list (result User)) :
  forall users,
    snd (value (scanLoop items users))
    = surfaces (firstScanError items) None.
Proof.
  induction items as [|[u|raw] rest IH]; intros users; simpl.
  - reflexivity.
  - apply IH.
  - go_simpl. rewrite mapped_eq. reflexivity.
Qed.

Lemma ListUsers_error (s : PostgresStore) (page pageSize : Z) :
  1 <= page -> 1 <= pageSize <= 100 ->
  snd (value (ListUsers s page pageSize))
  = surfaces (listingError (db s) page pageSize) None.
Proof.
  intros Hp Hs. unfold ListUsers, listingError.
  destruct (page <? 1) eqn:E1; [apply Z.ltb_lt in E1; lia|].
  destruct ((pageSize <? 1) || (pageSize >? 100)) eqn:E2.
  { apply orb_true_iff in E2. destruct E2 as [E2|E2].
    - apply Z.ltb_lt in E2. lia.
    - apply Z.gtb_lt in E2. lia. }
  assert (Hw : snd (value (withTx s true ([], 0) (listUsersTx s page pageSize)))
               = surfaces (listingError (db s) page pageSize) None).
  { unfold withTx, listUsersTx, listingError. go_simpl.
    destruct (db_BeginTx (db s) true) as [raw|]; go_simpl;
      [rewrite mapped_eq; reflexivity|].
    destruct (tx_QueryRowScanInt (db s) sqlCountUsers []) as [n|raw]; go_simpl;
      [|rewrite mapped_eq; reflexivity].
    destruct (tx_Query (db s) sqlListUsers _) as [rows|raw]; go_simpl;
      [|rewrite mapped_eq; reflexivity].
    pose proof (scanLoop_error (scans rows) []) as Hscan.
    destruct (snd (value (scanLoop (scans rows) []))) as [e|]; go_simpl.
    - destruct (firstScanError (scans rows)); [exact Hscan | discriminate Hscan].
    - destruct (firstScanError (scans rows)); [discriminate Hscan|].
      destruct (iterErr rows) as [raw|]; go_simpl;
        [rewrite mapped_eq; reflexivity|].
      destruct (tx_Commit (db s)) as [raw|]; go_simpl;
        [rewrite mapped_eq; reflexivity | reflexivity]. }
  go_simpl. unfold listingError in Hw.
  destruct (snd (value (withTx s true ([], 0) (listUsersTx s page pageSize))))
    as [e|]; go_simpl; exact Hw.
Qed.

(** C1. [handleError] maps a backend error to [ErrDuplicateEmail] when it is
    a unique-constraint violation on the e-mail column, else to
    [ErrUserNotFound] when it is a no-rows error, else to the internal error
    that wraps [ErrDatabaseInternal] and the original cause.  The error
    result of each of the five storage operations is [nil], an error the
    operation raises with no backend error at hand (a rejected argument, or
    zero rows affected), or the image under [handleError] of an error the
    backend answered with.  And it is determined by the backend's answers:
    once the arguments are accepted, an operation whose backend answers one
    of its calls with an error returns the image of the first such error
    under [handleError], logging what [handleError] logs for it, and an
    operation whose backend answers with no error returns [nil], or
    [ErrUserNotFound] for an update or a delete that affected no row. *)
Theorem handleError_is_the_single_error_path :
  forall (s : PostgresStore),
    (forall (err : error) (msg : string) (fields : list Field),
        (emailUniqueViolation err ->
         value (handleError err msg fields) = ErrDuplicateEmail)
        /\ (~ emailUniqueViolation err -> errorsIs err SqlErrNoRows = true ->
            value (handleError err msg fields) = ErrUserNotFound)
        /\ (~ emailUniqueViolation err -> errorsIs err SqlErrNoRows = false ->
            value (handleError err msg fields) =
            Errorf "%w: %w" [ErrDatabaseInternal; err]))
    /\ (forall uc, routed (db s) [] (snd (value (CreateUser s uc))))
    /\ (forall id,
          routed (db s) [ErrInvalidID] (snd (value (GetUserByID s id))))
    /\ (forall id u,
          routed (db s) [ErrInvalidID; ErrUserNotFound]
            (value (UpdateUser s id u)))
    /\ (forall id,
          routed (db s) [ErrInvalidID; ErrUserNotFound]
            (value (DeleteUser s id)))
    /\ (forall page pageSize,
          routed (db s) [ErrInvalidPage; ErrInvalidPageSize]
            (snd (value (ListUsers s page pageSize))))
    (* the error result, from the answers of the backend *)
    /\ (forall uc,
          let answer :=
            db_QueryRowScanInt64 (db s) sqlCreateUser
              [ArgString (uc_Email uc); ArgString (uc_FirstName uc);
               ArgString (uc_LastName uc)] in
          snd (value (CreateUser s uc)) = surfaces (resultError answer) None
          /\ trace (CreateUser s uc)
             = Driver (QueryRowContext sqlCreateUser
                         [ArgString (uc_Email uc); ArgString (uc_FirstName uc);
                          ArgString (uc_LastName uc)])
               :: surfacedLog (resultError answer)
                    "failed to retrieve last inserted id" [])
    /\ (forall id,
          0 < id ->
          let answer := db_QueryRowScanUser (db s) sqlGetUserByID [ArgInt id] in
          snd (value (GetUserByID s id)) = surfaces (resultError answer) None
          /\ trace (GetUserByID s id)
             = Driver (QueryRowContext sqlGetUserByID [ArgInt id])
               :: surfacedLog (resultError answer)
                    "failed to get user by ID" [Int64Field "id" id])
    /\ (forall id u,
          0 < id ->
          let answer :=
            db_Exec (db s) (fst (buildUpdateQuery u id))
              (snd (buildUpdateQuery u id)) in
          value (UpdateUser s id u)
          = surfaces (execError answer)
              (if zeroRows answer then Some ErrUserNotFound else None)
          /\ trace (UpdateUser s id u)
             = Driver (ExecContext (fst (buildUpdateQuery u id))
                         (snd (buildUpdateQuery u id)))
               :: surfacedLog (execError answer)
                    (match answer with
                     | Err _ => "failed to update user"
                     | Ok _ => "failed to retrieve rows affected"
                     end)
                    [Int64Field "id" id])
    /\ (forall id,
          0 < id ->
          let answer := db_Exec (db s) sqlDeleteUser [ArgInt id] in
          value (DeleteUser s id)
          = surfaces (execError answer)
              (if zeroRows answer then Some ErrUserNotFound else None)
          /\ trace (DeleteUser s id)
             = Driver (ExecContext sqlDeleteUser [ArgInt id])
               :: surfacedLog (execError answer)
                    (match answer with
                     | Err _ => "failed to delete user"
                     | Ok _ => "failed to get rows affected"
                     end)
                    (match answer with
                     | Err _ => [Int64Field "id" id]
                     | Ok _ => []
                     end))
    /\ (forall page pageSize,
          1 <= page -> 1 <= pageSize <= 100 ->
          snd (value (ListUsers s page pageSize))
          = surfaces (listingError (db s) page pageSize) None).
Proof.
  intros s.
  split; [|split; [|split; [|split; [|split; [|split; [|split; [|split;
    [|split; [|split]]]]]]]]].
  - intros err msg fields. split; [|split].
    + intros H. apply handleError_duplicate_iff, H.
    + intros Hn Hr. rewrite (handleError_otherwise _ _ _ Hn), Hr. reflexivity.
    + intros Hn Hr. rewrite (handleError_otherwise _ _ _ Hn), Hr. reflexivity.
  - intros uc. unfold CreateUser. go_simpl.
    destruct (db_QueryRowScanInt64 _ _ _) as [n|raw] eqn:E; go_simpl.
    + exact I.
    + apply routed_handleError. eapply aw_ScanInt64; eauto.
  - intros id. unfold GetUserByID.
    destruct (id <=? 0); go_simpl; [left; left; reflexivity|].
    destruct (db_QueryRowScanUser _ _ _) as [u|raw] eqn:E; go_simpl.
    + exact I.
    + apply routed_handleError. eapply aw_ScanUser; eauto.
  - intros id u. unfold UpdateUser.
    destruct (id <=? 0); go_simpl; [left; left; reflexivity|].
    destruct (buildUpdateQuery u id) as [query args]. go_simpl.
    destruct (db_Exec _ _ _) as [[n|raw]|raw] eqn:E; go_simpl.
    + destruct (n =? 0); simpl; [left; right; left; reflexivity | exact I].
    + apply routed_handleError. eapply aw_RowsAffected; eauto.
    + apply routed_handleError. eapply aw_Exec; eauto.
  - intros id. unfold DeleteUser.
    destruct (id <=? 0); go_simpl; [left; left; reflexivity|].
    destruct (db_Exec _ _ _) as [[n|raw]|raw] eqn:E; go_simpl.
    + destruct (n =? 0); simpl; [left; right; left; reflexivity | exact I].
    + apply routed_handleError. eapply aw_RowsAffected; eauto.
    + apply routed_handleError. eapply aw_Exec; eauto.
  - intros page pageSize. unfold ListUsers.
    destruct (page <? 1); go_simpl; [left; left; reflexivity|].
    destruct ((pageSize <? 1) || (pageSize >? 100)); go_simpl;
      [left; right; left; reflexivity|].
    pose proof (withTx_routed s true ([], 0) (listUsersTx s page pageSize)
                  (listUsersTx_routed s page pageSize ([], 0))) as H.
    destruct (snd (value (withTx s true ([], 0) (listUsersTx s page pageSize))))
      as [e|]; go_simpl.
    + eapply routed_weaken; [|exact H]. intros x [].
    + exact I.
  - intros uc. cbv zeta. unfold CreateUser. go_simpl.
    destruct (db_QueryRowScanInt64 _ _ _) as [n|raw]; go_simpl.
    + split; reflexivity.
    + rewrite mapped_eq, ?app_nil_r. split; reflexivity.
  - intros id Hid. cbv zeta. unfold GetUserByID.
    destruct (id <=? 0) eqn:E; [apply Z.leb_le in E; lia|]. go_simpl.
    destruct (db_QueryRowScanUser _ _ _) as [u|raw]; go_simpl.
    + split; reflexivity.
    + rewrite mapped_eq, ?app_nil_r. split; reflexivity.
  - intros id u Hid. cbv zeta. unfold UpdateUser.
    destruct (id <=? 0) eqn:E; [apply Z.leb_le in E; lia|].
    destruct (buildUpdateQuery u id) as [query args]. go_simpl.
    destruct (db_Exec _ _ _) as [[n|raw]|raw]; go_simpl.
    + cbn [surfaces execError zeroRows surfacedLog].
      rewrite ?app_nil_r. destruct (n =? 0); split; reflexivity.
    + rewrite mapped_eq, ?app_nil_r. split; reflexivity.
    + rewrite mapped_eq, ?app_nil_r. split; reflexivity.
  - intros id Hid. cbv zeta. unfold DeleteUser.
    destruct (id <=? 0) eqn:E; [apply Z.leb_le in E; lia|]. go_simpl.
    destruct (db_Exec _ _ _) as [[n|raw]|raw]; go_simpl.
    + cbn [surfaces execError zeroRows surfacedLog].
      rewrite ?app_nil_r. destruct (n =? 0); split; reflexivity.
    + rewrite mapped_eq, ?app_nil_r. split; reflexivity.
    + rewrite mapped_eq, ?app_nil_r. split; reflexivity.
  - intros page pageSize. apply ListUsers_error.
Qed.

(** ** The update statement *)

Lemma buildUpdateQuery_shape (u : UserUpdate) (id : Z) :
  buildUpdateQuery u id = (updateStatement u, updateArguments u id).
Proof.
  destruct u as [e f l].
  destruct e as [|e0 e']; destruct f as [|f0 f']; destruct l as [|l0 l'];
    reflexivity.
Qed.

Lemma UpdateUser_calls (s : PostgresStore) (id : Z) (u : UserUpdate) :
  0 < id ->
  driverCalls (trace (UpdateUser s id u)) =
  [ExecContext (fst (buildUpdateQuery u id)) (snd (buildUpdateQuery u id))].
Proof.
  intros Hid. unfold UpdateUser.
  destruct (id <=? 0) eqn:E; [apply Z.leb_le in E; lia|].
  destruct (buildUpdateQuery u id) as [query args]. go_simpl.
  destruct (db_Exec (db s) query args) as [[n|raw]|raw]; go_simpl.
  - destruct (n =? 0); reflexivity.
  - rewrite handleError_no_driver. reflexivity.
  - rewrite handleError_no_driver. reflexivity.
Qed.

Lemma UpdateUser_zero_rows (s : PostgresStore) (id : Z) (u : UserUpdate) :
  0 < id ->
  db_Exec (db s) (fst (buildUpdateQuery u id)) (snd (buildUpdateQuery u id))
  = Ok (Ok 0) ->
  value (UpdateUser s id u) = Some ErrUserNotFound.
Proof.
  intros Hid. unfold UpdateUser.
  destruct (id <=? 0) eqn:E; [apply Z.leb_le in E; lia|].
  destruct (buildUpdateQuery u id) as [query args]. simpl.
  intros Hx. go_simpl. rewrite Hx. reflexivity.
Qed.

(** C2. The statement [UpdateUser] builds assigns exactly the supplied
    columns among email, first name and last name, in this order, then the
    update timestamp, and takes as positional arguments the supplied values
    in the same order followed by the identity; for a positive identity the
    statement is executed (it is the one driver call), also when no field is
    supplied, and zero rows affected gives [ErrUserNotFound]. *)
Theorem UpdateUser_statement_shape :
  forall (s : PostgresStore) (id : Z) (u : UserUpdate),
    buildUpdateQuery u id = (updateStatement u, updateArguments u id)
    /\ buildUpdateQuery {| uu_Email := ""; uu_FirstName := ""; uu_LastName := "" |} id
       = ("UPDATE users SET updated_at = NOW() WHERE id = $1 RETURNING id",
          [ArgInt id])
    /\ (0 < id ->
        driverCalls (trace (UpdateUser s id u)) =
        [ExecContext (updateStatement u) (updateArguments u id)]
        /\ (db_Exec (db s) (updateStatement u) (updateArguments u id)
            = Ok (Ok 0) ->
            value (UpdateUser s id u) = Some ErrUserNotFound)).
Proof.
  intros s id u. split; [apply buildUpdateQuery_shape|].
  split; [reflexivity|].
  intros Hid. split.
  - rewrite (UpdateUser_calls s id u Hid), buildUpdateQuery_shape. reflexivity.
  - intros Hx. apply UpdateUser_zero_rows; [exact Hid|].
    rewrite buildUpdateQuery_shape. exact Hx.
Qed.

(** The statement of the store's own test: only the e-mail is supplied. *)
Example buildUpdateQuery_email_only :
  buildUpdateQuery
    {| uu_Email := "updated@example.com"; uu_FirstName := ""; uu_LastName := "" |}
    999
  = ("UPDATE users SET email = $1, updated_at = NOW() WHERE id = $2 RETURNING id",
     [ArgString "updated@example.com"; ArgInt 999]).
Proof. reflexivity. Qed.

Example buildUpdateQuery_all_fields :
  buildUpdateQuery
    {| uu_Email := "a@b.c"; uu_FirstName := "Ann"; uu_LastName := "Lee" |} 7
  = ("UPDATE users SET email = $1, first_name = $2, last_name = $3, updated_at = NOW() WHERE id = $4 RETURNING id",
     [ArgString "a@b.c"; ArgString "Ann"; ArgString "Lee"; ArgInt 7]).
Proof. reflexivity. Qed.

(** ** Arguments rejected before any backend access *)

(** C5. For an identity that is zero or negative, [GetUserByID], [UpdateUser]
    and [DeleteUser] each return [ErrInvalidID] and make no driver call (the
    trace is empty: nothing is logged either). *)
Theorem invalid_id_rejected_without_backend :
  forall (s : PostgresStore) (id : Z) (u : UserUpdate),
    id <= 0 ->
    (value (GetUserByID s id) = (None, Some ErrInvalidID)
     /\ trace (GetUserByID s id) = [])
    /\ (value (UpdateUser s id u) = Some ErrInvalidID
        /\ trace (UpdateUser s id u) = [])
    /\ (value (DeleteUser s id) = Some ErrInvalidID
        /\ trace (DeleteUser s id) = []).
Proof.
  intros s id u Hid. apply Z.leb_le in Hid.
  unfold GetUserByID, UpdateUser, DeleteUser. rewrite Hid.
  repeat split; reflexivity.
Qed.

Lemma invalid_id_rejected_witness :
  value (GetUserByID {| db := Table.tableDB [] |} (-3))
  = (None, Some ErrInvalidID)
  /\ trace (UpdateUser {| db := Table.tableDB [] |} 0
              {| uu_Email := "a@b.c"; uu_FirstName := ""; uu_LastName := "" |})
     = []
  /\ value (DeleteUser {| db := Table.tableDB [] |} 0) = Some ErrInvalidID.
Proof.
  split; [|split].
  - apply (invalid_id_rejected_without_backend
             {| db := Table.tableDB [] |} (-3)
             {| uu_Email := ""; uu_FirstName := ""; uu_LastName := "" |}).
    lia.
  - apply (invalid_id_rejected_without_backend
             {| db := Table.tableDB [] |} 0
             {| uu_Email := "a@b.c"; uu_FirstName := ""; uu_LastName := "" |}).
    lia.
  - apply (invalid_id_rejected_without_backend
             {| db := Table.tableDB [] |} 0
             {| uu_Email := ""; uu_FirstName := ""; uu_LastName := "" |}).
    lia.
Defined.

(** C4. [ListUsers] returns [ErrInvalidPage] when the page is below one, and
    [ErrInvalidPageSize] when the page size is below one or above one
    hundred (the page is tested first, so this is the answer for a page of
    at least one); whenever one of the two arguments is out of range the
    result is one of these two errors with no rows and a count of zero, no
    driver call is made and nothing is logged. *)
Theorem ListUsers_rejects_bad_paging_without_backend :
  forall (s : PostgresStore) (page pageSize : Z),
    (page < 1 ->
     value (ListUsers s page pageSize) = ([], 0, Some ErrInvalidPage)
     /\ trace (ListUsers s page pageSize) = [])
    /\ (1 <= page -> pageSize < 1 \/ pageSize > 100 ->
        value (ListUsers s page pageSize) = ([], 0, Some ErrInvalidPageSize)
        /\ trace (ListUsers s page pageSize) = [])
    /\ (page < 1 \/ pageSize < 1 \/ pageSize > 100 ->
        (value (ListUsers s page pageSize) = ([], 0, Some ErrInvalidPage)
         \/ value (ListUsers s page pageSize) = ([], 0, Some ErrInvalidPageSize))
        /\ trace (ListUsers s page pageSize) = []).
Proof.
  intros s page pageSize.
  assert (Hsize : pageSize < 1 \/ pageSize > 100 ->
                  (pageSize <? 1) || (pageSize >? 100) = true).
  { intros Hs. apply orb_true_iff. destruct Hs as [Hs|Hs].
    - left. apply Z.ltb_lt. exact Hs.
    - right. apply Z.gtb_lt. lia. }
  unfold ListUsers. split; [|split].
  - intros Hp. apply Z.ltb_lt in Hp. rewrite Hp. split; reflexivity.
  - intros Hp Hs.
    destruct (page <? 1) eqn:E; [apply Z.ltb_lt in E; lia|].
    rewrite (Hsize Hs). split; reflexivity.
  - intros Hbad. destruct (page <? 1) eqn:E.
    + split; [left|]; reflexivity.
    + apply Z.ltb_ge in E. destruct Hbad as [Hp|Hs]; [lia|].
      rewrite (Hsize Hs). split; [right|]; reflexivity.
Qed.

(** ** The listing response *)

Lemma pageSizeParam_range (raw : string) :
  1 <= Handler.pageSizeParam raw <= 100.
Proof.
  unfold Handler.pageSizeParam.
  destruct (GoInt.Atoi raw) as [n|]; [|lia].
  destruct ((n <=? 0) || (n >? 100)) eqn:E; [lia|].
  apply orb_false_iff in E. destruct E as [E1 E2].
  apply Z.leb_gt in E1. rewrite Z.gtb_ltb in E2. apply Z.ltb_ge in E2. lia.
Qed.

Lemma pageParam_range (raw : string) : 1 <= Handler.pageParam raw.
Proof.
  unfold Handler.pageParam.
  destruct (GoInt.Atoi raw) as [n|]; [|lia].
  destruct (n <=? 0) eqn:E; [lia|]. apply Z.leb_gt in E. lia.
Qed.

Lemma totalPagesOf_max (totalCount pageSize : Z) :
  1 <= pageSize ->
  Handler.totalPagesOf totalCount pageSize
  = Z.max 1 (Z.quot totalCount pageSize).
Proof.
  intros Hp. unfold Handler.totalPagesOf, GoInt.div.
  replace (pageSize =? -1) with false by (symmetry; apply Z.eqb_neq; lia).
  rewrite andb_false_r.
  destruct (Z.quot totalCount pageSize <? 1) eqn:E.
  - apply Z.ltb_lt in E. lia.
  - apply Z.ltb_ge in E. lia.
Qed.

Lemma ListUsers_response (MarshalJSON : Time -> option error)
  (h : Handler.UserHandler) (w : Http.ResponseWriter)
  (rawPage rawPageSize : string) (users : list User) (totalCount : Z) :
  value (Handler.st_ListUsers (Handler.store h)
           (Handler.pageParam rawPage) (Handler.pageSizeParam rawPageSize))
  = (users, totalCount, None) ->
  value (Handler.ListUsers MarshalJSON h w rawPage rawPageSize)
  = match Handler.jsonMarshal MarshalJSON
            (Handler.PageOfUsers
               (pageResponse users totalCount (Handler.pageParam rawPage)
                  (Handler.pageSizeParam rawPageSize))) with
    | None =>
        Handler.Json Handler.StatusOK
          (Handler.PageOfUsers
             (pageResponse users totalCount (Handler.pageParam rawPage)
                (Handler.pageSizeParam rawPageSize)))
    | Some _ => Handler.Header Handler.StatusInternalServerError
    end.
Proof.
  intros Hst. unfold Handler.ListUsers. go_simpl. rewrite Hst.
  rewrite respondWithJSON_cases.
  rewrite totalPagesOf_max by apply pageSizeParam_range.
  fold (pageResponse users totalCount (Handler.pageParam rawPage)
          (Handler.pageSizeParam rawPageSize)).
  destruct (Handler.jsonMarshal _ _); reflexivity.
Qed.

(** C3. When the store answers the listing, the response that is written
    carries the status 200, the page and page size the handler asked the
    store for, and as total page count the truncated quotient of the total
    count by the page size, raised to one when it is smaller; it is written
    whenever the timestamps of the users have a JSON text (when one has
    none, a bare 500 is sent instead, and no page count with it); 21 records
    at page size 5 give 4 pages, and so do 20. *)
Theorem ListUsers_total_pages :
  forall (MarshalJSON : Time -> option error) (h : Handler.UserHandler)
         (w : Http.ResponseWriter) (rawPage rawPageSize : string)
         (users : list User) (totalCount : Z),
    value (Handler.st_ListUsers (Handler.store h)
             (Handler.pageParam rawPage) (Handler.pageSizeParam rawPageSize))
    = (users, totalCount, None) ->
    (marshals MarshalJSON users ->
     value (Handler.ListUsers MarshalJSON h w rawPage rawPageSize)
     = Handler.Json Handler.StatusOK
         (Handler.PageOfUsers
            {| Users := List.map ToResponse users;
               TotalCount := totalCount;
               Page := Handler.pageParam rawPage;
               PageSize := Handler.pageSizeParam rawPageSize;
               TotalPages :=
                 Z.max 1 (Z.quot totalCount (Handler.pageSizeParam rawPageSize)) |}))
    /\ (~ marshals MarshalJSON users ->
        value (Handler.ListUsers MarshalJSON h w rawPage rawPageSize)
        = Handler.Header Handler.StatusInternalServerError)
    /\ Handler.totalPagesOf 21 5 = 4
    /\ Handler.totalPagesOf 20 5 = 4
    /\ Handler.pageParam "2" = 2
    /\ Handler.pageSizeParam "5" = 5.
Proof.
  intros MarshalJSON h w rawPage rawPageSize users totalCount Hst.
  pose proof (ListUsers_response MarshalJSON h w rawPage rawPageSize users
                totalCount Hst) as Hr.
  pose proof (jsonMarshal_page MarshalJSON users totalCount
                (Handler.pageParam rawPage) (Handler.pageSizeParam rawPageSize)
                (Z.max 1 (Z.quot totalCount (Handler.pageSizeParam rawPageSize))))
    as Hm.
  fold (pageResponse users totalCount (Handler.pageParam rawPage)
          (Handler.pageSizeParam rawPageSize)) in Hm.
  split; [|split; [|repeat split; reflexivity]].
  - intros Hok. apply Hm in Hok. rewrite Hok in Hr. exact Hr.
  - intros Hbad.
    destruct (Handler.jsonMarshal MarshalJSON _) as [e|] eqn:E; [exact Hr|].
    exfalso. apply Hbad, Hm. reflexivity.
Qed.

Lemma ListUsers_total_pages_witness :
  value (Handler.ListUsers marshalsAll
           {| Handler.store := listingStub seedUsers 20 |} okWriter "2" "5")
  = Handler.Json 200
      (Handler.PageOfUsers
         {| Users := List.map ToResponse seedUsers;
            TotalCount := 20; Page := 2; PageSize := 5; TotalPages := 4 |}).
Proof.
  apply (proj1 (ListUsers_total_pages marshalsAll
                  {| Handler.store := listingStub seedUsers 20 |} okWriter
                  "2" "5" seedUsers 20 eq_refl)).
  repeat constructor.
Defined.

(** ** The listing transaction *)

Lemma scanLoop_all_ok (l : list User) :
  forall acc, scanLoop (List.map Ok l) acc = ret ((acc ++ l)%list, None).
Proof.
  induction l as [|u l IH]; intros acc; simpl.
  - rewrite app_nil_r. reflexivity.
  - rewrite IH, <- app_assoc. reflexivity.
Qed.

Lemma insertByID_sorted (u : User) (l : list User) :
  ascendingID l -> ascendingID (Table.insertByID u l).
Proof.
  unfold ascendingID. induction l as [|v l IH]; intros Hs; simpl.
  - constructor; constructor.
  - destruct (ID u <=? ID v) eqn:E.
    + apply Z.leb_le in E. constructor; [exact Hs|]. constructor. exact E.
    + apply Z.leb_gt in E. inversion Hs as [|? ? Hl Hh]; subst.
      constructor; [apply IH, Hl|].
      destruct l as [|w l']; simpl.
      * constructor. lia.
      * destruct (ID u <=? ID w); constructor; [lia|].
        inversion Hh; subst. assumption.
Qed.

Lemma orderByID_sorted (tbl : list User) : ascendingID (Table.orderByID tbl).
Proof.
  unfold Table.orderByID. induction tbl as [|u tbl IH]; simpl.
  - constructor.
  - apply insertByID_sorted, IH.
Qed.

Lemma insertByID_length (u : User) (l : list User) :
  List.length (Table.insertByID u l) = S (List.length l).
Proof.
  induction l as [|v l IH]; simpl; [reflexivity|].
  destruct (ID u <=? ID v); simpl; [reflexivity|]. rewrite IH. reflexivity.
Qed.

Lemma orderByID_length (tbl : list User) :
  List.length (Table.orderByID tbl) = List.length tbl.
Proof.
  unfold Table.orderByID. induction tbl as [|u tbl IH]; simpl; [reflexivity|].
  rewrite insertByID_length, IH. reflexivity.
Qed.

Lemma ascendingID_skipn (n : nat) :
  forall l, ascendingID l -> ascendingID (skipn n l).
Proof.
  unfold ascendingID. induction n as [|n IH]; intros l Hs; simpl; [exact Hs|].
  destruct l as [|u l]; [constructor|].
  apply IH. inversion Hs; assumption.
Qed.

Lemma ascendingID_firstn (n : nat) :
  forall l, ascendingID l -> ascendingID (firstn n l).
Proof.
  unfold ascendingID. induction n as [|n IH]; intros l Hs; simpl; [constructor|].
  destruct l as [|u l]; [constructor|].
  inversion Hs as [|? ? Hl Hh]; subst.
  constructor; [apply IH, Hl|].
  destruct n; simpl; [constructor|].
  destruct l as [|v l]; [constructor|].
  constructor. inversion Hh; assumption.
Qed.

Lemma wrapInt_in_range (z : Z) :
  GoInt.minInt <= z <= GoInt.maxInt -> GoInt.wrapInt z = z.
Proof.
  unfold GoInt.minInt, GoInt.maxInt, GoInt.wrapInt. intros H.
  rewrite Z.mod_small by lia. lia.
Qed.

Lemma ListUsers_on_table (tbl : list User) (page pageSize : Z) :
  1 <= page -> 1 <= pageSize <= 100 ->
  (page - 1) * pageSize <= GoInt.maxInt ->
  ListUsers {| db := Table.tableDB tbl |} page pageSize
  = ((pageOf tbl page pageSize, Z.of_nat (List.length tbl), None),
     [Driver (BeginTx true);
      Driver (TxQueryRowContext sqlCountUsers []);
      Driver (TxQueryContext sqlListUsers
                [ArgInt pageSize; ArgInt ((page - 1) * pageSize)]);
      Driver RowsClose;
      Driver TxCommit;
      Driver TxRollback;
      LogError "failed to rollback transaction" (New SqlErrTxDone) []]).
Proof.
  intros Hp Hs Ho. unfold ListUsers.
  destruct (page <? 1) eqn:E1; [apply Z.ltb_lt in E1; lia|].
  destruct ((pageSize <? 1) || (pageSize >? 100)) eqn:E2.
  { apply orb_true_iff in E2. destruct E2 as [E2|E2].
    - apply Z.ltb_lt in E2. lia.
    - apply Z.gtb_lt in E2. lia. }
  unfold withTx, listUsersTx, deferredRollback. cbn [db Table.tableDB db_BeginTx
    tx_QueryRowScanInt tx_Query tx_Commit tx_Rollback].
  rewrite wrapInt_in_range
    by (unfold GoInt.minInt; split; [nia | exact Ho]).
  unfold Table.selectPage.
  destruct (pageSize <? 0) eqn:E3; [apply Z.ltb_lt in E3; lia|].
  destruct ((page - 1) * pageSize <? 0) eqn:E4; [apply Z.ltb_lt in E4; nia|].
  cbn [String.eqb Ascii.eqb Bool.eqb sqlCountUsers sqlListUsers scans iterErr].
  rewrite scanLoop_all_ok. reflexivity.
Qed.

(** X1. While [(page - 1) * pageSize] fits a 64-bit integer, [ListUsers] on a
    table reads the count and the page inside one read-only transaction that
    it commits, asks for [pageSize] rows from that offset, and returns the
    rows of the page in ascending identity together with the number of rows
    of the table; a page past the end is a shorter, possibly empty, slice. *)
Theorem ListUsers_page_of_table :
  forall (tbl : list User) (page pageSize : Z),
    1 <= page -> 1 <= pageSize <= 100 ->
    (page - 1) * pageSize <= GoInt.maxInt ->
    value (ListUsers {| db := Table.tableDB tbl |} page pageSize)
    = (pageOf tbl page pageSize, Z.of_nat (List.length tbl), None)
    /\ driverCalls (trace (ListUsers {| db := Table.tableDB tbl |} page pageSize))
       = [BeginTx true;
          TxQueryRowContext sqlCountUsers [];
          TxQueryContext sqlListUsers
            [ArgInt pageSize; ArgInt ((page - 1) * pageSize)];
          RowsClose; TxCommit; TxRollback]
    /\ ascendingID (pageOf tbl page pageSize)
    /\ Z.of_nat (List.length (pageOf tbl page pageSize)) <= pageSize
    /\ (Z.of_nat (List.length tbl) <= (page - 1) * pageSize ->
        pageOf tbl page pageSize = []).
Proof.
  intros tbl page pageSize Hp Hs Ho.
  rewrite (ListUsers_on_table tbl page pageSize Hp Hs Ho).
  repeat split.
  - unfold pageOf. apply ascendingID_firstn, ascendingID_skipn, orderByID_sorted.
  - unfold pageOf. rewrite length_firstn. lia.
  - intros Hbeyond. unfold pageOf. rewrite skipn_all2; [apply firstn_nil|].
    rewrite orderByID_length. lia.
Qed.

Lemma ListUsers_page_of_table_witness :
  value (ListUsers {| db := Table.tableDB seedUsers |} 1 10)
  = (seedUsers, 2, None)
  /\ value (ListUsers {| db := Table.tableDB seedUsers |} 2 10)
     = ([], 2, None).
Proof.
  split.
  - apply (ListUsers_page_of_table seedUsers 1 10); unfold GoInt.maxInt; lia.
  - apply (ListUsers_page_of_table seedUsers 2 10); unfold GoInt.maxInt; lia.
Defined.

(** C6 fails where the product leaves the 64-bit range.  Page
    288230376151711745 at page size 64 is valid for [ListUsers]; the offset
    [(page - 1) * pageSize] is 2^64 and wraps to 0, so the statement runs
    with offset 0 and the store returns the first rows of the table instead
    of the empty slice that lies 2^64 rows further. *)
Theorem ListUsers_offset_wraps :
  (288230376151711745 - 1) * 64 = 2 ^ 64
  /\ driverCalls
       (trace (ListUsers {| db := Table.tableDB seedUsers |}
                 288230376151711745 64))
     = [BeginTx true;
        TxQueryRowContext sqlCountUsers [];
        TxQueryContext sqlListUsers [ArgInt 64; ArgInt 0];
        RowsClose; TxCommit; TxRollback]
  /\ value (ListUsers {| db := Table.tableDB seedUsers |}
              288230376151711745 64)
     = (seedUsers, 2, None)
  /\ GoInt.Atoi "288230376151711745" = Some 288230376151711745.
Proof. repeat split; vm_compute; reflexivity. Qed.

(** ** The constructor *)

(** C8 fails on the pool settings: [NewPostgresStore] never applies the
    maximum open connections, maximum idle connections, connection lifetime
    or idle time of its configuration.  No trace of it holds such a call,
    two configurations that differ only in these four fields behave alike,
    and with the integration suite's configuration the driver sees the open
    and the five-second probe only. *)
Theorem NewPostgresStore_never_applies_pool_settings :
  (forall (sqlOpen : string -> string -> result DB) (cfg : PostgresConfig),
      existsb isPoolSetting
        (driverCalls (trace (NewPostgresStore sqlOpen cfg))) = false)
  /\ (forall (sqlOpen : string -> string -> result DB) (cfg : PostgresConfig)
             (a b c d : Z),
        NewPostgresStore sqlOpen cfg
        = NewPostgresStore sqlOpen
            {| cfg_Host := cfg_Host cfg; cfg_Port := cfg_Port cfg;
               cfg_User := cfg_User cfg; cfg_Password := cfg_Password cfg;
               cfg_DBName := cfg_DBName cfg; cfg_SSLMode := cfg_SSLMode cfg;
               cfg_MaxOpenConns := a; cfg_MaxIdleConns := b;
               cfg_ConnMaxLifetime := c; cfg_ConnMaxIdleTime := d |})
  /\ driverCalls
       (trace (NewPostgresStore (fun _ _ => Ok (Table.tableDB [])) suiteConfig))
     = [Open "postgres"
          "host=localhost port=5432 user=postgres password=postgres dbname=users_db sslmode=disable";
        PingContext 5000000000].
Proof.
  split; [|split].
  - intros sqlOpen cfg. unfold NewPostgresStore. go_simpl.
    destruct (sqlOpen "postgres" (connString cfg)) as [d|err]; go_simpl.
    + destruct (db_Ping d) as [err|]; go_simpl; [|reflexivity].
      destruct (db_Close d) as [closeErr|]; reflexivity.
    + reflexivity.
  - intros sqlOpen cfg a b c d. reflexivity.
  - reflexivity.
Qed.

(** X2. When the probe fails the handle is closed before the error is returned:
    the driver sees the open, the probe bounded by five seconds and the
    close, no store is returned, and the error wraps the probe's. *)
Theorem NewPostgresStore_closes_on_probe_failure :
  forall (sqlOpen : string -> string -> result DB) (cfg : PostgresConfig)
         (d : DB) (err : error),
    sqlOpen "postgres" (connString cfg) = Ok d ->
    db_Ping d = Some err ->
    value (NewPostgresStore sqlOpen cfg)
    = (None, Some (Errorf "failed to ping database: %w" [err]))
    /\ driverCalls (trace (NewPostgresStore sqlOpen cfg))
       = [Open "postgres" (connString cfg); PingContext (5 * Second); Close].
Proof.
  intros sqlOpen cfg d err Ho Hp. unfold NewPostgresStore. go_simpl.
  rewrite Ho. go_simpl. rewrite Hp. go_simpl.
  destruct (db_Close d) as [closeErr|]; split; reflexivity.
Qed.

Lemma NewPostgresStore_closes_on_probe_failure_witness :
  driverCalls
    (trace (NewPostgresStore
              (fun _ _ => Ok (unreachableDB (Some (Other "connection refused")) None))
              suiteConfig))
  = [Open "postgres" (connString suiteConfig); PingContext (5 * Second); Close].
Proof.
  apply (NewPostgresStore_closes_on_probe_failure
           (fun _ _ => Ok (unreachableDB (Some (Other "connection refused")) None))
           suiteConfig
           (unreachableDB (Some (Other "connection refused")) None)
           (Other "connection refused") eq_refl eq_refl).
Defined.

(** ** Validation of the input structs *)

Section ValidationFacts.

Variable isEmail : string -> bool.

Lemma isEmptyString_iff (v : string) : isEmptyString v = true <-> v = "".
Proof. destruct v; simpl; split; congruence. Qed.

Lemma isEmptyString_false_iff (v : string) : isEmptyString v = false <-> v <> "".
Proof. destruct v; simpl; split; congruence. Qed.

Lemma isAlpha_false_iff (v : string) :
  isAlpha v = false <-> v = "" \/ allLetters v = false.
Proof.
  destruct v as [|c v]; simpl.
  - split; auto.
  - split; [auto|]. intros [H|H]; [discriminate|exact H].
Qed.

Lemma validateStruct_three (n1 n2 n3 : string) (t1 t2 t3 : list Tag)
  (v1 v2 v3 : string) :
  validateStruct isEmail [(n1, t1, v1); (n2, t2, v2); (n3, t3, v3)] <> None
  <-> runTags isEmail t1 v1 = false
      \/ runTags isEmail t2 v2 = false
      \/ runTags isEmail t3 v3 = false.
Proof.
  unfold validateStruct, failing. simpl.
  destruct (runTags isEmail t1 v1), (runTags isEmail t2 v2),
    (runTags isEmail t3 v3); simpl; split; intros H;
    try congruence; try tauto;
    repeat match goal with H : _ \/ _ |- _ => destruct H end; congruence.
Qed.

Lemma validateStruct_error (fields : list (string * list Tag * string)) :
  validateStruct isEmail fields <> None ->
  exists fs, validateStruct isEmail fields = Some (ValidationErrors fs).
Proof.
  unfold validateStruct. destruct (failing isEmail fields) as [|f fs].
  - congruence.
  - intros _. exists (f :: fs). reflexivity.
Qed.

Lemma required_email_fails (v : string) :
  runTags isEmail [required; email] v = false
  <-> v = "" \/ isEmail v = false.
Proof.
  cbn [runTags]. rewrite andb_true_r.
  destruct (isEmptyString v) eqn:E.
  - apply isEmptyString_iff in E. tauto.
  - apply isEmptyString_false_iff in E. tauto.
Qed.

Lemma required_fails (v : string) :
  runTags isEmail [required] v = false <-> v = "".
Proof.
  cbn [runTags]. destruct (isEmptyString v) eqn:E.
  - apply isEmptyString_iff in E. tauto.
  - apply isEmptyString_false_iff in E. split; [discriminate|contradiction].
Qed.

Lemma required_alpha_fails (v : string) :
  runTags isEmail [required; alpha] v = false
  <-> v = "" \/ allLetters v = false.
Proof.
  cbn [runTags]. rewrite andb_true_r.
  destruct (isEmptyString v) eqn:E.
  - apply isEmptyString_iff in E. tauto.
  - rewrite isAlpha_false_iff. tauto.
Qed.

Lemma omitempty_email_fails (v : string) :
  runTags isEmail [omitempty; email] v = false
  <-> v <> "" /\ isEmail v = false.
Proof.
  cbn [runTags]. rewrite andb_true_r.
  destruct (isEmptyString v) eqn:E.
  - apply isEmptyString_iff in E. split; [discriminate|tauto].
  - apply isEmptyString_false_iff in E. tauto.
Qed.

Lemma omitempty_min_fails (v : string) :
  runTags isEmail [omitempty; min 2] v = false
  <-> v <> "" /\ (RuneCountInString v < 2)%nat.
Proof.
  cbn [runTags]. rewrite andb_true_r.
  destruct (isEmptyString v) eqn:E.
  - apply isEmptyString_iff in E. split; [discriminate|tauto].
  - apply isEmptyString_false_iff in E. rewrite Nat.leb_gt. tauto.
Qed.

Lemma omitempty_alpha_min_fails (v : string) :
  runTags isEmail [omitempty; alpha; min 2] v = false
  <-> v <> "" /\ (allLetters v = false \/ (RuneCountInString v < 2)%nat).
Proof.
  cbn [runTags]. rewrite andb_true_r.
  destruct (isEmptyString v) eqn:E.
  - apply isEmptyString_iff in E. split; [discriminate|tauto].
  - apply isEmptyString_false_iff in E.
    rewrite andb_false_iff, isAlpha_false_iff, Nat.leb_gt. tauto.
Qed.

End ValidationFacts.

(** C7, as the specification states it, fails on the declarations that carry
    the [alpha] tag, whatever the address grammar is, provided it accepts
    [test@example.com] (the domain tests expect it to): a create input with
    this e-mail and the non-empty first name [J0hn] is rejected. *)
Lemma UserCreate_Validate_rejects_non_letters :
  ~ (exists isEmail : string -> bool,
        isEmail "test@example.com" = true
        /\ forall u : UserCreate,
             DomainAlpha.UserCreate_Validate isEmail u <> None
             <-> uc_Email u = "" \/ isEmail (uc_Email u) = false
                 \/ uc_FirstName u = "" \/ uc_LastName u = "").
Proof.
  intros [isEmail [Hok H]].
  destruct (H {| uc_Email := "test@example.com"; uc_FirstName := "J0hn";
                 uc_LastName := "Doe" |}) as [H1 _].
  cbn [uc_Email uc_FirstName uc_LastName] in H1.
  destruct H1 as [E|[E|[E|E]]]; try discriminate E.
  - unfold DomainAlpha.UserCreate_Validate, DomainAlpha.UserCreate_tags,
      validateStruct, failing.
    cbn [uc_Email uc_FirstName uc_LastName List.filter List.map fst snd runTags
         isEmptyString].
    rewrite Hok. vm_compute. discriminate.
  - rewrite Hok in E. discriminate E.
Qed.

(** C7, amended.  With the [alpha] tag on the name fields:
    [UserCreate.Validate] fails exactly when the e-mail is empty or fails the
    address grammar, or a name is empty or holds a character that is not an
    ASCII letter; [UserUpdate.Validate] fails exactly when a supplied e-mail
    fails the grammar, or a supplied name holds a non-letter or is shorter
    than two characters.  On the copy of the declarations without the tag
    the failures are those of the specification.  Every failure is a
    validation error, and an update with no field is valid in both. *)
Theorem Validate_failures :
  forall (isEmail : string -> bool),
    (forall u : UserCreate,
        DomainAlpha.UserCreate_Validate isEmail u <> None
        <-> uc_Email u = "" \/ isEmail (uc_Email u) = false
            \/ (uc_FirstName u = "" \/ allLetters (uc_FirstName u) = false)
            \/ (uc_LastName u = "" \/ allLetters (uc_LastName u) = false))
    /\ (forall u : UserUpdate,
          DomainAlpha.UserUpdate_Validate isEmail u <> None
          <-> (uu_Email u <> "" /\ isEmail (uu_Email u) = false)
              \/ (uu_FirstName u <> ""
                  /\ (allLetters (uu_FirstName u) = false
                      \/ (RuneCountInString (uu_FirstName u) < 2)%nat))
              \/ (uu_LastName u <> ""
                  /\ (allLetters (uu_LastName u) = false
                      \/ (RuneCountInString (uu_LastName u) < 2)%nat)))
    /\ (forall u : UserCreate,
          DomainPlain.UserCreate_Validate isEmail u <> None
          <-> uc_Email u = "" \/ isEmail (uc_Email u) = false
              \/ uc_FirstName u = "" \/ uc_LastName u = "")
    /\ (forall u : UserUpdate,
          DomainPlain.UserUpdate_Validate isEmail u <> None
          <-> (uu_Email u <> "" /\ isEmail (uu_Email u) = false)
              \/ (uu_FirstName u <> ""
                  /\ (RuneCountInString (uu_FirstName u) < 2)%nat)
              \/ (uu_LastName u <> ""
                  /\ (RuneCountInString (uu_LastName u) < 2)%nat))
    /\ (forall u : UserCreate,
          (DomainAlpha.UserCreate_Validate isEmail u <> None ->
           exists fs, DomainAlpha.UserCreate_Validate isEmail u
                      = Some (ValidationErrors fs))
          /\ (DomainPlain.UserCreate_Validate isEmail u <> None ->
              exists fs, DomainPlain.UserCreate_Validate isEmail u
                         = Some (ValidationErrors fs)))
    /\ (forall u : UserUpdate,
          (DomainAlpha.UserUpdate_Validate isEmail u <> None ->
           exists fs, DomainAlpha.UserUpdate_Validate isEmail u
                      = Some (ValidationErrors fs))
          /\ (DomainPlain.UserUpdate_Validate isEmail u <> None ->
              exists fs, DomainPlain.UserUpdate_Validate isEmail u
                         = Some (ValidationErrors fs)))
    /\ DomainAlpha.UserUpdate_Validate isEmail
         {| uu_Email := ""; uu_FirstName := ""; uu_LastName := "" |} = None
    /\ DomainPlain.UserUpdate_Validate isEmail
         {| uu_Email := ""; uu_FirstName := ""; uu_LastName := "" |} = None.
Proof.
  intros isEmail.
  split; [|split; [|split; [|split; [|split; [|split; [|split]]]]]].
  - intros u. unfold DomainAlpha.UserCreate_Validate, DomainAlpha.UserCreate_tags.
    rewrite validateStruct_three, required_email_fails, !required_alpha_fails.
    tauto.
  - intros u. unfold DomainAlpha.UserUpdate_Validate, DomainAlpha.UserUpdate_tags.
    rewrite validateStruct_three, omitempty_email_fails,
      !omitempty_alpha_min_fails.
    tauto.
  - intros u. unfold DomainPlain.UserCreate_Validate, DomainPlain.UserCreate_tags.
    rewrite validateStruct_three, required_email_fails, !required_fails.
    tauto.
  - intros u. unfold DomainPlain.UserUpdate_Validate, DomainPlain.UserUpdate_tags.
    rewrite validateStruct_three, omitempty_email_fails, !omitempty_min_fails.
    tauto.
  - intros u. split; apply validateStruct_error.
  - intros u. split; apply validateStruct_error.
  - reflexivity.
  - reflexivity.
Qed.

(** ** Status codes of the handlers *)

Lemma ListUsers_store_error (MarshalJSON : Time -> option error)
  (h : Handler.UserHandler) (w : Http.ResponseWriter)
  (rawPage rawPageSize : string) (err : error) :
  snd (value (Handler.st_ListUsers (Handler.store h)
                (Handler.pageParam rawPage) (Handler.pageSizeParam rawPageSize)))
  = Some err ->
  value (Handler.ListUsers MarshalJSON h w rawPage rawPageSize)
  = Handler.Json 500 (Handler.ErrorMessage "Failed to list users").
Proof.
  intros Hst. unfold Handler.ListUsers. go_simpl.
  destruct (value (Handler.st_ListUsers (Handler.store h)
                     (Handler.pageParam rawPage)
                     (Handler.pageSizeParam rawPageSize)))
    as [[users totalCount] [e|]]; [|discriminate Hst].
  go_simpl. reflexivity.
Qed.

Lemma ListUsers_never_400 (MarshalJSON : Time -> option error)
  (h : Handler.UserHandler) (w : Http.ResponseWriter)
  (rawPage rawPageSize : string) :
  Handler.statusOf (value (Handler.ListUsers MarshalJSON h w rawPage rawPageSize))
  = Some 200
  \/ Handler.statusOf
       (value (Handler.ListUsers MarshalJSON h w rawPage rawPageSize))
     = Some 500.
Proof.
  destruct (value (Handler.st_ListUsers (Handler.store h)
                     (Handler.pageParam rawPage)
                     (Handler.pageSizeParam rawPageSize)))
    as [[users totalCount] [e|]] eqn:Est.
  - right. rewrite (ListUsers_store_error MarshalJSON h w rawPage rawPageSize e);
      [reflexivity | rewrite Est; reflexivity].
  - rewrite (ListUsers_response MarshalJSON h w rawPage rawPageSize users
               totalCount Est).
    destruct (Handler.jsonMarshal MarshalJSON _); [right | left]; reflexivity.
Qed.

(** C9, as the specification states it, fails for the listing: a request
    whose page is 0 and whose page size is 101 is not answered with 400,
    whatever the writer and the timestamps are; the handler replaces both
    by its defaults and, on the two seed users, answers 200 with page 1 and
    page size 10. *)
Lemma ListUsers_handler_never_rejects_paging :
  value (Handler.ListUsers marshalsAll
           {| Handler.store :=
                Handler.postgresStorer {| db := Table.tableDB seedUsers |} |}
           okWriter "0" "101")
  = Handler.Json Handler.StatusOK
      (Handler.PageOfUsers
         {| Users := List.map ToResponse seedUsers;
            TotalCount := 2; Page := 1; PageSize := 10; TotalPages := 1 |})
  /\ (forall (MarshalJSON : Time -> option error) (w : Http.ResponseWriter),
        Handler.statusOf
          (value (Handler.ListUsers MarshalJSON
                    {| Handler.store :=
                         Handler.postgresStorer
                           {| db := Table.tableDB seedUsers |} |}
                    w "0" "101"))
        <> Some Handler.StatusBadRequest).
Proof.
  split; [vm_compute; reflexivity|].
  intros MarshalJSON w.
  destruct (ListUsers_never_400 MarshalJSON
              {| Handler.store :=
                   Handler.postgresStorer {| db := Table.tableDB seedUsers |} |}
              w "0" "101") as [H|H]; rewrite H; discriminate.
Qed.

Lemma parseIDFromURL_invalid (idVar : string) :
  snd (Handler.parseIDFromURL idVar) <> None ->
  exists z e, Handler.parseIDFromURL idVar = (z, Some e).
Proof.
  destruct (Handler.parseIDFromURL idVar) as [z [e|]]; simpl.
  - intros _. exists z, e. reflexivity.
  - congruence.
Qed.

Lemma parseIDFromURL_invalid_iff (idVar : string) :
  snd (Handler.parseIDFromURL idVar) <> None
  <-> GoInt.ParseInt idVar = None
      \/ exists id, GoInt.ParseInt idVar = Some id /\ id <= 0.
Proof.
  unfold Handler.parseIDFromURL.
  destruct (GoInt.ParseInt idVar) as [id|]; simpl.
  - destruct (id <=? 0) eqn:E; simpl.
    + apply Z.leb_le in E. split; [|congruence].
      intros _. right. exists id. auto.
    + apply Z.leb_gt in E. split; [congruence|].
      intros [H|[i [Hi Hle]]]; [discriminate|]. inversion Hi; subst. lia.
  - split; [auto|congruence].
Qed.

(** *** The identities the router lets through *)

Lemma cutPrefix_app (p s : string) : Mux.cutPrefix p (p ++ s) = Some s.
Proof.
  induction p as [|c p IH]; simpl; [reflexivity|].
  rewrite Ascii.eqb_refl. exact IH.
Qed.

Lemma isDigit_digitVal (c : ascii) :
  GoInt.isDigit c = true -> 0 <= GoInt.digitVal c <= 9.
Proof.
  unfold GoInt.isDigit, GoInt.digitVal. intros H.
  apply andb_true_iff in H. destruct H as [H1 H2].
  apply Nat.leb_le in H1, H2. lia.
Qed.

Lemma parseDigits_digits (s : string) :
  Mux.allDigits s = true ->
  forall acc, GoInt.parseDigits s acc = Some (digitsValueFrom s acc).
Proof.
  induction s as [|c s IH]; intros H acc;
    cbn [digitsValueFrom Mux.allDigits GoInt.parseDigits] in *; [reflexivity|].
  apply andb_true_iff in H. destruct H as [Hc Hs]. rewrite Hc. apply IH, Hs.
Qed.

Lemma digitsValueFrom_nonneg (s : string) :
  Mux.allDigits s = true ->
  forall acc, 0 <= acc -> 0 <= digitsValueFrom s acc.
Proof.
  induction s as [|c s IH]; intros H acc Hacc;
    cbn [digitsValueFrom Mux.allDigits] in *; [exact Hacc|].
  apply andb_true_iff in H. destruct H as [Hc Hs].
  apply IH; [exact Hs|]. pose proof (isDigit_digitVal c Hc). lia.
Qed.

(** A string of digits carries no sign: [ParseInt] yields its value when
    it fits 64 bits. *)
Lemma ParseInt_digits (s : string) :
  Mux.allDigits s = true -> s <> "" ->
  GoInt.ParseInt s
  = if digitsValue s <=? GoInt.maxInt then Some (digitsValue s) else None.
Proof.
  intros H Hne. destruct s as [|c s]; [contradiction|].
  pose proof (digitsValueFrom_nonneg (String c s) H 0 ltac:(lia)) as Hpos.
  assert (Hp : GoInt.ParseInt (String c s)
               = match GoInt.parseDigits (String c s) 0 with
                 | None => None
                 | Some v => if GoInt.inRange v then Some v else None
                 end).
  { pose proof H as Hc. simpl in Hc. apply andb_true_iff in Hc.
    destruct Hc as [Hc _].
    destruct c as [[] [] [] [] [] [] [] []];
      first [discriminate Hc | reflexivity]. }
  rewrite Hp, (parseDigits_digits _ H). fold (digitsValue (String c s)).
  unfold GoInt.inRange.
  replace (GoInt.minInt <=? digitsValue (String c s)) with true; [reflexivity|].
  symmetry. apply Z.leb_le. unfold GoInt.minInt, digitsValue. lia.
Qed.

Lemma parseIDFromURL_digits (seg : string) :
  Mux.allDigits seg = true -> seg <> "" ->
  Handler.parseIDFromURL seg
  = if (1 <=? digitsValue seg) && (digitsValue seg <=? GoInt.maxInt)
    then (digitsValue seg, None)
    else (0, Some (Other ("invalid user ID: " ++ seg))).
Proof.
  intros H Hne. unfold Handler.parseIDFromURL.
  rewrite (ParseInt_digits seg H Hne).
  destruct (digitsValue seg <=? GoInt.maxInt); [|rewrite andb_false_r; reflexivity].
  rewrite andb_true_r.
  destruct (digitsValue seg <=? 0) eqn:E1; destruct (1 <=? digitsValue seg) eqn:E2;
    try reflexivity; exfalso.
  - apply Z.leb_le in E1, E2. lia.
  - apply Z.leb_gt in E1, E2. lia.
Qed.

Section Routing.

Variable isEmail : string -> bool.
Variable MarshalJSON : Time -> option error.
Variable cleanPath : string -> string.
Variable h : Handler.UserHandler.
Variable w : Http.ResponseWriter.

Local Abbreviation serve prefix :=
  (Mux.ServeHTTP cleanPath
     (Handler.RegisterRoutes isEmail MarshalJSON h (newRouter prefix)) w).

(** A request for [/users/seg] below the prefix of the router. *)
Lemma ServeHTTP_user (prefix seg : string) (r : Http.Request) :
  Http.Path r = prefix ++ "/users/" ++ seg ->
  cleanPath (Http.Path r) = Http.Path r ->
  serve prefix r
  = if negb (isEmptyString seg) && Mux.allDigits seg then
      if String.eqb "GET" (Http.Method r) then
        resp <- Handler.GetUser MarshalJSON h w seg ;; ret (Mux.Handled resp)
      else if String.eqb "PUT" (Http.Method r) then
        resp <- Handler.UpdateUser isEmail MarshalJSON h w seg
                  (Http.DecodeUserUpdate r) ;;
        ret (Mux.Handled resp)
      else if String.eqb "DELETE" (Http.Method r) then
        resp <- Handler.DeleteUser MarshalJSON h w seg ;; ret (Mux.Handled resp)
      else ret (Mux.ByRouter 405)
    else ret (Mux.ByRouter 404).
Proof.
  intros Hpath Hclean. unfold Mux.ServeHTTP. rewrite Hclean, String.eqb_refl.
  cbn [negb]. unfold Mux.Match, Handler.RegisterRoutes, newRouter, Mux.HandleFunc.
  cbn [Mux.pathPrefix Mux.routes app Mux.matchRoutes Mux.template Mux.method
       Mux.handler].
  unfold Mux.matchTemplate. rewrite Hpath, cutPrefix_app.
  change (String.eqb ("/users/" ++ seg) "/users") with false.
  change (Mux.cutPrefix "/users/" ("/users/" ++ seg)) with (Some seg).
  cbv iota.
  destruct (negb (isEmptyString seg) && Mux.allDigits seg); [|reflexivity].
  unfold Handler.MethodGet, Handler.MethodPut, Handler.MethodDelete.
  destruct (String.eqb "GET" (Http.Method r)); [reflexivity|].
  destruct (String.eqb "PUT" (Http.Method r)); [reflexivity|].
  destruct (String.eqb "DELETE" (Http.Method r)); reflexivity.
Qed.

(** A request for [/users] below the prefix of the router. *)
Lemma ServeHTTP_users (prefix : string) (r : Http.Request) :
  Http.Path r = prefix ++ "/users" ->
  cleanPath (Http.Path r) = Http.Path r ->
  serve prefix r
  = if String.eqb "POST" (Http.Method r) then
      resp <- Handler.CreateUser isEmail MarshalJSON h w
                (Http.DecodeUserCreate r) ;;
      ret (Mux.Handled resp)
    else if String.eqb "GET" (Http.Method r) then
      resp <- Handler.ListUsers MarshalJSON h w
                (Http.Query r "page") (Http.Query r "page_size") ;;
      ret (Mux.Handled resp)
    else ret (Mux.ByRouter 405).
Proof.
  intros Hpath Hclean. unfold Mux.ServeHTTP. rewrite Hclean, String.eqb_refl.
  cbn [negb]. unfold Mux.Match, Handler.RegisterRoutes, newRouter, Mux.HandleFunc.
  cbn [Mux.pathPrefix Mux.routes app Mux.matchRoutes Mux.template Mux.method
       Mux.handler].
  unfold Mux.matchTemplate. rewrite Hpath, cutPrefix_app.
  change (String.eqb "/users" "/users") with true.
  change (Mux.cutPrefix "/users/" "/users") with (@None string).
  cbv iota.
  unfold Handler.MethodGet, Handler.MethodPost.
  destruct (String.eqb "POST" (Http.Method r)); [reflexivity|].
  destruct (String.eqb "GET" (Http.Method r)); reflexivity.
Qed.

End Routing.

(** C9, amended.  A store error that is [ErrDuplicateEmail] is answered with
    409 by the create and update handlers, one that is [ErrUserNotFound]
    with 404 by the get, update and delete handlers, every other store error
    with 500; a successful delete is answered with 204 and no body.  An
    identity that is not a positive 64-bit decimal is answered with 400
    before the store is called; behind the routes of [RegisterRoutes] the
    identities that reach a handler are the non-empty strings of decimal
    digits, so 400 is the answer exactly for those whose value is zero or
    exceeds 64 bits, and a request whose identity is empty or holds another
    character (a sign, a letter) is answered 404 by the router and reaches
    no handler.  The listing handler never answers 400: it replaces a page
    that is missing, not a number or below one by 1 and a page size that is
    missing, not a number, below one or above one hundred by 10, asks the
    store for that page, and answers 200 with these values, or 500 when the
    store fails or a timestamp has no JSON text. *)
Theorem handler_status_mapping :
  forall (isEmail : string -> bool) (MarshalJSON : Time -> option error)
         (h : Handler.UserHandler) (w : Http.ResponseWriter),
    (* an identity the handlers cannot use *)
    (forall idVar body,
        GoInt.ParseInt idVar = None
        \/ (exists id, GoInt.ParseInt idVar = Some id /\ id <= 0) ->
        Handler.GetUser MarshalJSON h w idVar
        = (Handler.Json 400 (Handler.ErrorMessage "Invalid user ID"), writeLog w)
        /\ Handler.UpdateUser isEmail MarshalJSON h w idVar body
           = (Handler.Json 400 (Handler.ErrorMessage "Invalid user ID"),
              writeLog w)
        /\ Handler.DeleteUser MarshalJSON h w idVar
           = (Handler.Json 400 (Handler.ErrorMessage "Invalid user ID"),
              writeLog w))
    (* the identities the routes let through *)
    /\ (forall (cleanPath : string -> string) (prefix seg : string)
               (r : Http.Request),
          Http.Path r = prefix ++ "/users/" ++ seg ->
          cleanPath (Http.Path r) = Http.Path r ->
          (seg = "" \/ Mux.allDigits seg = false ->
           Mux.ServeHTTP cleanPath
             (Handler.RegisterRoutes isEmail MarshalJSON h (newRouter prefix))
             w r
           = ret (Mux.ByRouter 404))
          /\ (seg <> "" -> Mux.allDigits seg = true ->
              (Http.Method r = "GET" ->
               Mux.ServeHTTP cleanPath
                 (Handler.RegisterRoutes isEmail MarshalJSON h (newRouter prefix))
                 w r
               = (resp <- Handler.GetUser MarshalJSON h w seg ;;
                  ret (Mux.Handled resp)))
              /\ (Http.Method r = "PUT" ->
                  Mux.ServeHTTP cleanPath
                    (Handler.RegisterRoutes isEmail MarshalJSON h
                       (newRouter prefix)) w r
                  = (resp <- Handler.UpdateUser isEmail MarshalJSON h w seg
                               (Http.DecodeUserUpdate r) ;;
                     ret (Mux.Handled resp)))
              /\ (Http.Method r = "DELETE" ->
                  Mux.ServeHTTP cleanPath
                    (Handler.RegisterRoutes isEmail MarshalJSON h
                       (newRouter prefix)) w r
                  = (resp <- Handler.DeleteUser MarshalJSON h w seg ;;
                     ret (Mux.Handled resp)))))
    /\ (forall seg,
          seg <> "" -> Mux.allDigits seg = true ->
          Handler.parseIDFromURL seg
          = if (1 <=? digitsValue seg) && (digitsValue seg <=? GoInt.maxInt)
            then (digitsValue seg, None)
            else (0, Some (Other ("invalid user ID: " ++ seg))))
    (* errors of the store *)
    /\ (forall uc err,
          DomainAlpha.UserCreate_Validate isEmail uc = None ->
          snd (value (Handler.st_CreateUser (Handler.store h) uc)) = Some err ->
          Handler.statusOf
            (value (Handler.CreateUser isEmail MarshalJSON h w (Some uc)))
          = Some (statusFor OpCreate err))
    /\ (forall idVar id err,
          Handler.parseIDFromURL idVar = (id, None) ->
          snd (value (Handler.st_GetUserByID (Handler.store h) id)) = Some err ->
          Handler.statusOf (value (Handler.GetUser MarshalJSON h w idVar))
          = Some (statusFor OpGet err))
    /\ (forall idVar id uu err,
          Handler.parseIDFromURL idVar = (id, None) ->
          DomainAlpha.UserUpdate_Validate isEmail uu = None ->
          value (Handler.st_UpdateUser (Handler.store h) id uu) = Some err ->
          Handler.statusOf
            (value (Handler.UpdateUser isEmail MarshalJSON h w idVar (Some uu)))
          = Some (statusFor OpUpdate err))
    /\ (forall idVar id err,
          Handler.parseIDFromURL idVar = (id, None) ->
          value (Handler.st_DeleteUser (Handler.store h) id) = Some err ->
          Handler.statusOf (value (Handler.DeleteUser MarshalJSON h w idVar))
          = Some (statusFor OpDelete err))
    (* a successful delete *)
    /\ (forall idVar id,
          Handler.parseIDFromURL idVar = (id, None) ->
          value (Handler.st_DeleteUser (Handler.store h) id) = None ->
          value (Handler.DeleteUser MarshalJSON h w idVar)
          = Handler.Header Handler.StatusNoContent)
    (* the listing: the page and page size the store is asked for *)
    /\ (forall raw,
          (GoInt.Atoi raw = None ->
           Handler.pageParam raw = 1 /\ Handler.pageSizeParam raw = 10)
          /\ (forall n, GoInt.Atoi raw = Some n ->
                Handler.pageParam raw = (if n <=? 0 then 1 else n)
                /\ Handler.pageSizeParam raw
                   = (if (n <=? 0) || (100 <? n) then 10 else n)))
    /\ GoInt.Atoi "" = None
    /\ (forall rawPage rawPageSize,
          (forall err,
              snd (value (Handler.st_ListUsers (Handler.store h)
                            (Handler.pageParam rawPage)
                            (Handler.pageSizeParam rawPageSize))) = Some err ->
              Handler.statusOf
                (value (Handler.ListUsers MarshalJSON h w rawPage rawPageSize))
              = Some (statusFor OpList err))
          /\ (forall users totalCount,
                value (Handler.st_ListUsers (Handler.store h)
                         (Handler.pageParam rawPage)
                         (Handler.pageSizeParam rawPageSize))
                = (users, totalCount, None) ->
                value (Handler.ListUsers MarshalJSON h w rawPage rawPageSize)
                = match Handler.jsonMarshal MarshalJSON
                          (Handler.PageOfUsers
                             (pageResponse users totalCount
                                (Handler.pageParam rawPage)
                                (Handler.pageSizeParam rawPageSize))) with
                  | None =>
                      Handler.Json 200
                        (Handler.PageOfUsers
                           (pageResponse users totalCount
                              (Handler.pageParam rawPage)
                              (Handler.pageSizeParam rawPageSize)))
                  | Some _ => Handler.Header 500
                  end)
          /\ Handler.statusOf
               (value (Handler.ListUsers MarshalJSON h w rawPage rawPageSize))
             <> Some 400
          /\ exists rest,
               trace (Handler.ListUsers MarshalJSON h w rawPage rawPageSize)
               = (trace (Handler.st_ListUsers (Handler.store h)
                           (Handler.pageParam rawPage)
                           (Handler.pageSizeParam rawPageSize)) ++ rest)%list
               /\ driverCalls rest = [])
    (* the table *)
    /\ statusFor OpCreate ErrDuplicateEmail = 409
    /\ statusFor OpUpdate ErrDuplicateEmail = 409
    /\ statusFor OpGet ErrUserNotFound = 404
    /\ statusFor OpUpdate ErrUserNotFound = 404
    /\ statusFor OpDelete ErrUserNotFound = 404
    /\ (forall op raw,
          errorsIs raw StUserNotFound = false ->
          errorsIs raw StDuplicateEmail = false ->
          statusFor op (Errorf "%w: %w" [ErrDatabaseInternal; raw]) = 500).
Proof.
  intros isEmail MarshalJSON h w.
  split; [|split; [|split; [|split; [|split; [|split; [|split; [|split;
    [|split; [|split; [|split]]]]]]]]]].
  - intros idVar body Hbad. apply parseIDFromURL_invalid_iff in Hbad.
    destruct (parseIDFromURL_invalid idVar Hbad) as [z [e He]].
    unfold Handler.GetUser, Handler.UpdateUser, Handler.DeleteUser.
    rewrite He, !respondWithError_eq. repeat split; reflexivity.
  - intros cleanPath prefix seg r Hpath Hclean.
    rewrite (ServeHTTP_user isEmail MarshalJSON cleanPath h w prefix seg r
               Hpath Hclean).
    split.
    + intros [Hs|Hs].
      * subst seg. reflexivity.
      * rewrite Hs, andb_false_r. reflexivity.
    + intros Hne Hd. rewrite Hd, andb_true_r.
      replace (isEmptyString seg) with false
        by (symmetry; apply isEmptyString_false_iff; exact Hne).
      cbn [negb].
      split; [|split]; intros Hm; rewrite Hm; reflexivity.
  - intros seg Hne Hd. apply parseIDFromURL_digits; assumption.
  - intros uc err Hv Hs. unfold Handler.CreateUser. rewrite Hv.
    go_simpl. rewrite Hs. unfold statusFor.
    destruct (errorsIs err StDuplicateEmail); go_simpl; reflexivity.
  - intros idVar id err Hid Hs. unfold Handler.GetUser. rewrite Hid.
    go_simpl. rewrite Hs. unfold statusFor.
    destruct (errorsIs err StUserNotFound); go_simpl; reflexivity.
  - intros idVar id uu err Hid Hv Hs. unfold Handler.UpdateUser.
    rewrite Hid, Hv. go_simpl. rewrite Hs. unfold statusFor.
    destruct (errorsIs err StUserNotFound); go_simpl; [reflexivity|].
    destruct (errorsIs err StDuplicateEmail); go_simpl; reflexivity.
  - intros idVar id err Hid Hs. unfold Handler.DeleteUser. rewrite Hid.
    go_simpl. rewrite Hs. unfold statusFor.
    destruct (errorsIs err StUserNotFound); go_simpl; reflexivity.
  - intros idVar id Hid Hs. unfold Handler.DeleteUser. rewrite Hid.
    go_simpl. rewrite Hs. reflexivity.
  - intros raw. unfold Handler.pageParam, Handler.pageSizeParam. split.
    + intros Hn. rewrite Hn. split; reflexivity.
    + intros n Hn. rewrite Hn, Z.gtb_ltb. split; reflexivity.
  - reflexivity.
  - intros rawPage rawPageSize. split; [|split; [|split]].
    + intros err Hst.
      rewrite (ListUsers_store_error MarshalJSON h w rawPage rawPageSize err Hst).
      reflexivity.
    + intros users totalCount Hst.
      apply (ListUsers_response MarshalJSON h w rawPage rawPageSize users
               totalCount Hst).
    + destruct (ListUsers_never_400 MarshalJSON h w rawPage rawPageSize)
        as [H|H]; rewrite H; discriminate.
    + unfold Handler.ListUsers. rewrite trace_bind. eexists. split; [reflexivity|].
      destruct (value (Handler.st_ListUsers (Handler.store h)
                         (Handler.pageParam rawPage)
                         (Handler.pageSizeParam rawPageSize)))
        as [[users totalCount] [e|]]; go_simpl; reflexivity.
  - repeat split; try reflexivity.
    intros op raw Hn Hd. unfold statusFor. simpl. rewrite Hn, Hd.
    destruct op; reflexivity.
Qed.

(** The handler's unit test for a missing user. *)
Example GetUser_not_found :
  value (Handler.GetUser marshalsAll
           {| Handler.store := failingStorer ErrUserNotFound |} okWriter "999")
  = Handler.Json 404 (Handler.ErrorMessage "User not found").
Proof. reflexivity. Qed.

(** A store that reports an invalid page is answered with 500, not 400. *)
Example ListUsers_store_error_is_internal :
  Handler.statusOf
    (value (Handler.ListUsers marshalsAll
              {| Handler.store := failingStorer ErrInvalidPage |} okWriter
              "1" "10"))
  = Some 500.
Proof. reflexivity. Qed.

(** The create handler has no branch for [ErrUserNotFound]. *)
Example CreateUser_not_found_is_internal :
  Handler.statusOf
    (value (Handler.CreateUser (fun _ => true) marshalsAll
              {| Handler.store := failingStorer ErrUserNotFound |} okWriter
              (Some {| uc_Email := "new@example.com"; uc_FirstName := "John";
                       uc_LastName := "Doe" |})))
  = Some 500.
Proof. reflexivity. Qed.

(** A row whose timestamp has no JSON text: the get handler logs the
    failure of [json.Marshal] and sends a bare 500. *)
Example GetUser_unmarshallable_row :
  Handler.GetUser marshalsSinceZero
    {| Handler.store :=
         {| Handler.st_CreateUser := fun _ => ret (0, None);
            Handler.st_GetUserByID := fun id =>
              ret (Some {| ID := id; Email := "old@example.com";
                           FirstName := "Old"; LastName := "Row";
                           CreatedAt := -1; UpdatedAt := 0 |}, None);
            Handler.st_UpdateUser := fun _ _ => ret None;
            Handler.st_DeleteUser := fun _ => ret None;
            Handler.st_ListUsers := fun _ _ => ret ([], 0, None) |} |}
    okWriter "7"
  = (Handler.Header 500,
     [LogError "failed to marshal JSON response"
        (Errorf "json: error calling MarshalJSON for type time.Time: %w"
           [Other "Time.MarshalJSON: year outside of range [0,9999]"]) []]).
Proof. reflexivity. Qed.

(** A response whose [Write] fails keeps its status; the failure is
    logged. *)
Example GetUser_on_a_broken_connection :
  Handler.GetUser marshalsAll
    {| Handler.store := failingStorer ErrUserNotFound |} brokenWriter "0"
  = (Handler.Json 400 (Handler.ErrorMessage "Invalid user ID"),
     [LogError "failed to write response" (Other "write: broken pipe") []]).
Proof. reflexivity. Qed.

(** Requests below the prefix [/api]: a word, a signed number and an empty
    identity are answered 404 by the router, a known path with another
    method 405, and the identity zero 400 by the handler. *)
Example router_refuses_malformed_identities :
  List.map
    (fun r =>
       Mux.ServeHTTP (fun p => p)
         (Handler.RegisterRoutes (fun _ => true) marshalsAll
            {| Handler.store := failingStorer ErrUserNotFound |}
            (newRouter "/api"))
         okWriter r)
    [requestFor "GET" "/api/users/abc"; requestFor "GET" "/api/users/-5";
     requestFor "DELETE" "/api/users/+7"; requestFor "GET" "/api/users/";
     requestFor "PATCH" "/api/users/7"; requestFor "GET" "/api/users/0"]
  = [ret (Mux.ByRouter 404); ret (Mux.ByRouter 404); ret (Mux.ByRouter 404);
     ret (Mux.ByRouter 404); ret (Mux.ByRouter 405);
     ret (Mux.Handled
            (Handler.Json 400 (Handler.ErrorMessage "Invalid user ID")))].
Proof. reflexivity. Qed.

(** ** Rune counts of names made of letters *)

Lemma runeCountFrom_ascii (bs : list nat) :
  Forall (fun c => (c < 128)%nat) bs ->
  forall fuel, (List.length bs <= fuel)%nat ->
               runeCountFrom fuel bs = List.length bs.
Proof.
  induction 1 as [|c bs Hc Hbs IH]; intros fuel Hf.
  - destruct fuel; reflexivity.
  - destruct fuel as [|fuel]; [simpl in Hf; lia|].
    cbn [runeCountFrom]. unfold runeSize.
    replace (c <? 128)%nat with true by (symmetry; apply Nat.ltb_lt; exact Hc).
    cbn [skipn List.length]. rewrite IH; [reflexivity|].
    simpl in Hf. lia.
Qed.

Lemma isLetter_ascii (c : ascii) :
  isLetter c = true -> (nat_of_ascii c < 128)%nat.
Proof.
  unfold isLetter. intros H. apply orb_true_iff in H.
  destruct H as [H|H]; apply andb_true_iff in H; destruct H as [_ H];
    apply Nat.leb_le in H; lia.
Qed.

(** For a name that passes the [alpha] tag the [min] tag counts bytes. *)
Lemma allLetters_rune_count (s : string) :
  allLetters s = true -> RuneCountInString s = String.length s.
Proof.
  intros H. unfold RuneCountInString.
  assert (Hb : Forall (fun c => (c < 128)%nat) (bytesOf s)
               /\ List.length (bytesOf s) = String.length s).
  { induction s as [|c s IH]; simpl.
    - split; [constructor|reflexivity].
    - simpl in H. apply andb_true_iff in H. destruct H as [Hc Hs].
      destruct (IH Hs) as [IH1 IH2]. split.
      + constructor; [apply isLetter_ascii, Hc | exact IH1].
      + unfold bytesOf in *. simpl. rewrite IH2. reflexivity. }
  destruct Hb as [Hb1 Hb2].
  rewrite runeCountFrom_ascii; [exact Hb2 | exact Hb1 | lia].
Qed.

(** ** Concrete runs *)

Lemma handleError_is_the_single_error_path_witness :
  value (handleError duplicateEmailError "failed to retrieve last inserted id" [])
  = ErrDuplicateEmail
  /\ value (handleError (Errorf "scan: %w" [sqlErrNoRows]) "failed to get user by ID" [])
     = ErrUserNotFound
  /\ value (handleError (Other "connection refused") "failed to begin transaction" [])
     = Errorf "%w: %w" [ErrDatabaseInternal; Other "connection refused"]
  /\ routed conflictDB [ErrInvalidPage; ErrInvalidPageSize]
       (snd (value (ListUsers {| db := conflictDB |} 1 10)))
  /\ snd (value (ListUsers {| db := conflictDB |} 1 10))
     = Some (Errorf "%w: %w" [ErrDatabaseInternal; Other "connection refused"])
  /\ snd (value (GetUserByID {| db := conflictDB |} 999)) = Some ErrUserNotFound
  /\ trace (GetUserByID {| db := conflictDB |} 999)
     = [Driver (QueryRowContext sqlGetUserByID [ArgInt 999])].
Proof.
  pose proof (handleError_is_the_single_error_path {| db := conflictDB |})
    as [Hmap [_ [_ [_ [_ [Hrouted [_ [Hget [_ [_ Hlist]]]]]]]]]].
  split; [|split; [|split; [|split; [|split]]]].
  - apply (proj1 (Hmap duplicateEmailError _ _)).
    eexists. repeat split; reflexivity.
  - apply (proj1 (proj2 (Hmap (Errorf "scan: %w" [sqlErrNoRows]) _ _))).
    + intros [p [Hp _]]. discriminate Hp.
    + reflexivity.
  - apply (proj2 (proj2 (Hmap (Other "connection refused") _ _))).
    + intros [p [Hp _]]. discriminate Hp.
    + reflexivity.
  - apply Hrouted.
  - apply (Hlist 1 10); lia.
  - apply (Hget 999). lia.
Defined.

Lemma handleError_duplicate_only_users_email_key_witness :
  value (handleError otherUniqueError "failed to update user" [Int64Field "id" 7])
  = Errorf "%w: %w" [ErrDatabaseInternal; otherUniqueError].
Proof.
  apply (proj2 (proj2 (handleError_duplicate_only_users_email_key
                         otherUniqueError "failed to update user"
                         [Int64Field "id" 7]))).
  right. discriminate.
Defined.

Lemma UpdateUser_statement_shape_witness :
  driverCalls
    (trace (UpdateUser {| db := conflictDB |} 999
              {| uu_Email := ""; uu_FirstName := ""; uu_LastName := "" |}))
  = [ExecContext "UPDATE users SET updated_at = NOW() WHERE id = $1 RETURNING id"
       [ArgInt 999]]
  /\ value (UpdateUser {| db := conflictDB |} 999
              {| uu_Email := ""; uu_FirstName := ""; uu_LastName := "" |})
     = Some ErrUserNotFound.
Proof.
  pose proof (UpdateUser_statement_shape {| db := conflictDB |} 999
                {| uu_Email := ""; uu_FirstName := ""; uu_LastName := "" |})
    as [_ [_ H]].
  destruct (H ltac:(lia)) as [Hcalls Hzero].
  split; [exact Hcalls | apply Hzero; reflexivity].
Defined.

Lemma ListUsers_rejects_bad_paging_witness :
  (value (ListUsers {| db := conflictDB |} 0 10) = ([], 0, Some ErrInvalidPage)
   /\ trace (ListUsers {| db := conflictDB |} 0 10) = [])
  /\ (value (ListUsers {| db := conflictDB |} 1 0) = ([], 0, Some ErrInvalidPageSize)
      /\ trace (ListUsers {| db := conflictDB |} 1 0) = [])
  /\ (value (ListUsers {| db := conflictDB |} 1 101) = ([], 0, Some ErrInvalidPageSize)
      /\ trace (ListUsers {| db := conflictDB |} 1 101) = []).
Proof.
  split; [|split].
  - apply (ListUsers_rejects_bad_paging_without_backend
             {| db := conflictDB |} 0 10). lia.
  - apply (ListUsers_rejects_bad_paging_without_backend
             {| db := conflictDB |} 1 0); lia.
  - apply (ListUsers_rejects_bad_paging_without_backend
             {| db := conflictDB |} 1 101); lia.
Defined.

(** The integration suite's second create request, with the e-mail taken:
    the store maps the driver error and the handler answers 409; a get of a
    missing user is answered 404, and an identity of zero 400; a request
    for the identity [abc] is answered 404 by the router. *)
Lemma handler_status_mapping_witness :
  Handler.statusOf
    (value (Handler.CreateUser (fun _ => true) marshalsAll
              {| Handler.store := Handler.postgresStorer {| db := conflictDB |} |}
              okWriter
              (Some {| uc_Email := "new@example.com"; uc_FirstName := "John";
                       uc_LastName := "Doe" |})))
  = Some 409
  /\ Handler.statusOf
       (value (Handler.GetUser marshalsAll
                 {| Handler.store := Handler.postgresStorer {| db := conflictDB |} |}
                 okWriter "999"))
     = Some 404
  /\ Handler.GetUser marshalsAll
       {| Handler.store := Handler.postgresStorer {| db := conflictDB |} |}
       okWriter "0"
     = ret (Handler.Json 400 (Handler.ErrorMessage "Invalid user ID"))
  /\ Mux.ServeHTTP (fun p => p)
       (Handler.RegisterRoutes (fun _ => true) marshalsAll
          {| Handler.store := Handler.postgresStorer {| db := conflictDB |} |}
          (newRouter "/api"))
       okWriter (requestFor "GET" "/api/users/abc")
     = ret (Mux.ByRouter 404).
Proof.
  pose proof (handler_status_mapping (fun _ => true) marshalsAll
                {| Handler.store := Handler.postgresStorer {| db := conflictDB |} |}
                okWriter)
    as [Hid [Hroute [_ [Hcreate [Hget _]]]]].
  split; [|split; [|split]].
  - apply (Hcreate _ ErrDuplicateEmail); reflexivity.
  - apply (Hget "999" 999 ErrUserNotFound); reflexivity.
  - apply (Hid "0" None). right. exists 0. split; [reflexivity | lia].
  - apply (proj1 (Hroute (fun p => p) "/api" "abc"
                    (requestFor "GET" "/api/users/abc") eq_refl eq_refl)).
    right. reflexivity.
Defined.

(** ** The transaction around the listing *)

Lemma scanLoop_no_driver (items : list (result User)) :
  forall users, driverCalls (trace (scanLoop items users)) = [].
Proof.
  induction items as [|[u|raw] rest IH]; intros users; simpl.
  - reflexivity.
  - apply IH.
  - go_simpl. rewrite handleError_no_driver. reflexivity.
Qed.

Ltac calls_simpl :=
  go_simpl;
  repeat rewrite ?handleError_no_driver, ?scanLoop_no_driver;
  cbn [driverCalls flat_map app].

(** X3. Whatever the backend answers, a listing with valid arguments begins
    a read-only transaction first and makes every further driver call on
    that transaction; when the transaction was begun the last call is the
    rollback, and when it was not, nothing else is called. *)
Theorem ListUsers_runs_inside_one_transaction :
  forall (s : PostgresStore) (page pageSize : Z),
    1 <= page -> 1 <= pageSize <= 100 ->
    exists rest,
      driverCalls (trace (ListUsers s page pageSize)) = BeginTx true :: rest
      /\ forallb inTransaction rest = true
      /\ (db_BeginTx (db s) true = None -> last rest Close = TxRollback)
      /\ (db_BeginTx (db s) true <> None -> rest = []).
Proof.
  intros s page pageSize Hp Hs. unfold ListUsers.
  destruct (page <? 1) eqn:E1; [apply Z.ltb_lt in E1; lia|].
  destruct ((pageSize <? 1) || (pageSize >? 100)) eqn:E2.
  { apply orb_true_iff in E2. destruct E2 as [E2|E2].
    - apply Z.ltb_lt in E2. lia.
    - apply Z.gtb_lt in E2. lia. }
  rewrite trace_bind, driverCalls_app.
  match goal with
  | |- context [driverCalls (trace (match ?x with _ => _ end))] =>
      replace (driverCalls (trace (match x with
                                   | Some err => ret ([], 0, Some err)
                                   | None => ret (fst (fst (value (withTx s true ([], 0) (listUsersTx s page pageSize)))),
                                                  snd (fst (value (withTx s true ([], 0) (listUsersTx s page pageSize)))), None)
                                   end)))
        with (@nil Call) by (destruct x; reflexivity)
  end.
  rewrite app_nil_r.
  unfold withTx, deferredRollback, listUsersTx.
  destruct (db_BeginTx (db s) true) as [raw|] eqn:Eb.
  - calls_simpl. exists []. repeat split; try reflexivity; congruence.
  - calls_simpl.
    destruct (tx_QueryRowScanInt (db s) sqlCountUsers []) as [n|raw]; calls_simpl.
    + destruct (tx_Query (db s) sqlListUsers _) as [rows|raw]; calls_simpl.
      * destruct (snd (value (scanLoop (scans rows) []))) as [e|]; calls_simpl.
        -- destruct (tx_Rollback (db s) false); calls_simpl;
             eexists; repeat split; try reflexivity; congruence.
        -- destruct (iterErr rows) as [raw|]; calls_simpl.
           ++ destruct (tx_Rollback (db s) false); calls_simpl;
                eexists; repeat split; try reflexivity; congruence.
           ++ destruct (tx_Commit (db s)) as [raw|]; calls_simpl;
                destruct (tx_Rollback (db s) true); calls_simpl;
                eexists; repeat split; try reflexivity; congruence.
      * destruct (tx_Rollback (db s) false); calls_simpl;
          eexists; repeat split; try reflexivity; congruence.
    + destruct (tx_Rollback (db s) false); calls_simpl;
        eexists; repeat split; try reflexivity; congruence.
Qed.

Lemma ListUsers_runs_inside_one_transaction_witness :
  exists rest,
    driverCalls (trace (ListUsers {| db := Table.tableDB seedUsers |} 1 10))
    = BeginTx true :: rest
    /\ forallb inTransaction rest = true
    /\ (db_BeginTx (Table.tableDB seedUsers) true = None ->
        last rest Close = TxRollback)
    /\ (db_BeginTx (Table.tableDB seedUsers) true <> None -> rest = []).
Proof.
  apply (ListUsers_runs_inside_one_transaction
           {| db := Table.tableDB seedUsers |} 1 10); lia.
Defined.

(** ** What is logged *)

(** X4. [handleError] writes one error entry, with the operation's message,
    the cause and the fields, exactly when it returns the internal error;
    the duplicate-email and not-found outcomes are not logged. *)
Theorem handleError_logs_internal_errors_only :
  forall (err : error) (msg : string) (fields : list Field),
    trace (handleError err msg fields)
    = if errorsIs (value (handleError err msg fields)) StDatabaseInternal
      then [LogError msg err fields]
      else [].
Proof.
  intros err msg fields. rewrite handleError_cases.
  destruct (emailUniqueViolationb err); [reflexivity|].
  destruct (errorsIs err SqlErrNoRows); reflexivity.
Qed.

(* ================================================================== *)
(** * Further properties of the store *)

(** ** One statement per operation *)

(** X5. Whatever the backend answers, [CreateUser] makes one driver call, the
    insert that returns the identity, with the e-mail, first name and last
    name as its arguments in this order; for a positive identity
    [GetUserByID] and [DeleteUser] make one driver call each, the select and
    the delete by identity.  No operation asks a second time. *)
Theorem single_statement_operations :
  forall (s : PostgresStore),
    (forall uc,
        driverCalls (trace (CreateUser s uc))
        = [QueryRowContext sqlCreateUser
             [ArgString (uc_Email uc); ArgString (uc_FirstName uc);
              ArgString (uc_LastName uc)]])
    /\ (forall id, 0 < id ->
          driverCalls (trace (GetUserByID s id))
          = [QueryRowContext sqlGetUserByID [ArgInt id]])
    /\ (forall id, 0 < id ->
          driverCalls (trace (DeleteUser s id))
          = [ExecContext sqlDeleteUser [ArgInt id]]).
Proof.
  intros s. split; [|split].
  - intros uc. unfold CreateUser. go_simpl.
    destruct (db_QueryRowScanInt64 _ _ _) as [n|raw]; go_simpl;
      rewrite ?handleError_no_driver; reflexivity.
  - intros id Hid. unfold GetUserByID.
    destruct (id <=? 0) eqn:E; [apply Z.leb_le in E; lia|]. go_simpl.
    destruct (db_QueryRowScanUser _ _ _) as [u|raw]; go_simpl;
      rewrite ?handleError_no_driver; reflexivity.
  - intros id Hid. unfold DeleteUser.
    destruct (id <=? 0) eqn:E; [apply Z.leb_le in E; lia|]. go_simpl.
    destruct (db_Exec _ _ _) as [[n|raw]|raw]; go_simpl;
      rewrite ?handleError_no_driver; try reflexivity.
    destruct (n =? 0); reflexivity.
Qed.

Lemma single_statement_operations_witness :
  driverCalls (trace (GetUserByID {| db := conflictDB |} 999))
  = [QueryRowContext sqlGetUserByID [ArgInt 999]]
  /\ driverCalls (trace (DeleteUser {| db := conflictDB |} 1))
     = [ExecContext sqlDeleteUser [ArgInt 1]].
Proof.
  pose proof (single_statement_operations {| db := conflictDB |})
    as [_ [Hget Hdel]].
  split; [apply Hget | apply Hdel]; lia.
Defined.

(** ** The transaction helper *)

(** X6. For every closure, [withTx] behaves as follows.  When the
    transaction cannot be begun the closure is not run, nothing else is
    called, and the mapped begin error is returned.  Otherwise the closure
    runs once; the commit is attempted exactly when the closure returned no
    error; the rollback is the last driver call on every path; an error of
    the closure is returned as it is, and else the mapped commit error, or
    [nil] when the commit succeeded. *)
Theorem withTx_policy :
  forall (S : Type) (s : PostgresStore) (ro : bool) (init : S)
         (fn : S -> M (S * option error)),
    (forall raw,
        db_BeginTx (db s) ro = Some raw ->
        value (withTx s ro init fn)
        = (init, Some (value (handleError raw "failed to begin transaction" [])))
        /\ driverCalls (trace (withTx s ro init fn)) = [BeginTx ro])
    /\ (db_BeginTx (db s) ro = None ->
        driverCalls (trace (withTx s ro init fn))
        = (BeginTx ro :: driverCalls (trace (fn init))
           ++ commitCalls (snd (value (fn init))) ++ [TxRollback])%list
        /\ fst (value (withTx s ro init fn)) = fst (value (fn init))
        /\ snd (value (withTx s ro init fn))
           = match snd (value (fn init)) with
             | Some e => Some e
             | None =>
                 option_map
                   (fun raw =>
                      value (handleError raw "failed to commit transaction" []))
                   (tx_Commit (db s))
             end).
Proof.
  intros S s ro init fn. split.
  - intros raw Hb. unfold withTx. go_simpl. rewrite Hb. go_simpl.
    rewrite handleError_no_driver. split; reflexivity.
  - intros Hb. unfold withTx, deferredRollback. go_simpl. rewrite Hb. go_simpl.
    destruct (snd (value (fn init))) as [e|] eqn:Ef; go_simpl.
    + destruct (tx_Rollback (db s) false); go_simpl;
        cbn [driverCalls flat_map app commitCalls];
        rewrite ?app_nil_r; repeat split; reflexivity.
    + destruct (tx_Commit (db s)) as [raw|]; go_simpl;
        rewrite ?handleError_no_driver;
        destruct (tx_Rollback (db s) true); go_simpl;
        cbn [driverCalls flat_map app commitCalls option_map];
        rewrite ?app_nil_r; repeat split; reflexivity.
Qed.

Lemma withTx_policy_witness :
  driverCalls
    (trace (withTx {| db := Table.tableDB seedUsers |} true ([], 0)
              (listUsersTx {| db := Table.tableDB seedUsers |} 1 10)))
  = [BeginTx true;
     TxQueryRowContext sqlCountUsers [];
     TxQueryContext sqlListUsers [ArgInt 10; ArgInt 0];
     RowsClose; TxCommit; TxRollback]
  /\ value (withTx {| db := conflictDB |} true ([], 0)
              (listUsersTx {| db := conflictDB |} 1 10))
     = (([], 0),
        Some (Errorf "%w: %w" [ErrDatabaseInternal; Other "connection refused"])).
Proof.
  split.
  - apply (proj2 (withTx_policy _ {| db := Table.tableDB seedUsers |} true
                    ([], 0)
                    (listUsersTx {| db := Table.tableDB seedUsers |} 1 10))).
    reflexivity.
  - apply (proj1 (withTx_policy _ {| db := conflictDB |} true ([], 0)
                    (listUsersTx {| db := conflictDB |} 1 10))
             (Other "connection refused")).
    reflexivity.
Defined.

Lemma endsWith_refl (t : list Event) : endsWith t t.
Proof. exists []. reflexivity. Qed.

Lemma endsWith_cons (e : Event) (t suffix : list Event) :
  endsWith t suffix -> endsWith (e :: t) suffix.
Proof. intros [pre H]. exists (e :: pre). rewrite H. reflexivity. Qed.

Lemma endsWith_app (t1 t2 suffix : list Event) :
  endsWith t2 suffix -> endsWith (t1 ++ t2) suffix.
Proof.
  intros [pre H]. exists (t1 ++ pre)%list. rewrite H, app_assoc. reflexivity.
Qed.

Ltac ends_with :=
  repeat first [ apply endsWith_refl | apply endsWith_cons | apply endsWith_app ].

(** X7. The deferred rollback also runs after a commit that succeeded.  On a
    handle that answers such a rollback with an error, as [database/sql]
    does with [ErrTxDone], every listing that succeeds ends by logging
    "failed to rollback transaction" at error level; on a handle that
    answers it with [nil] a listing that succeeds logs nothing. *)
Theorem committed_listing_logs_the_rollback :
  forall (s : PostgresStore) (page pageSize : Z),
    snd (value (ListUsers s page pageSize)) = None ->
    (forall e,
        tx_Rollback (db s) true = Some e ->
        endsWith (trace (ListUsers s page pageSize))
          [Driver TxRollback;
           LogError "failed to rollback transaction" e []])
    /\ (tx_Rollback (db s) true = None ->
        forallb isDriver (trace (ListUsers s page pageSize)) = true).
Proof.
  intros s page pageSize. unfold ListUsers.
  destruct (page <? 1); [discriminate|].
  destruct ((pageSize <? 1) || (pageSize >? 100)); [discriminate|].
  unfold withTx, deferredRollback, listUsersTx. go_simpl.
  destruct (db_BeginTx (db s) true) as [raw|]; go_simpl; [discriminate|].
  destruct (tx_QueryRowScanInt (db s) sqlCountUsers []) as [n|raw];
    go_simpl; [|discriminate].
  destruct (tx_Query (db s) sqlListUsers _) as [rows|raw];
    go_simpl; [|discriminate].
  assert (Hscan : snd (value (scanLoop (scans rows) [])) = None ->
                  forallb isDriver (trace (scanLoop (scans rows) [])) = true).
  { generalize (@nil User). induction (scans rows) as [|[u|raw] rest IH];
      intros acc; simpl; [reflexivity | apply IH |].
    go_simpl. discriminate. }
  destruct (snd (value (scanLoop (scans rows) []))) as [e0|];
    go_simpl; [discriminate|].
  destruct (iterErr rows) as [raw|]; go_simpl; [discriminate|].
  destruct (tx_Commit (db s)) as [raw|]; go_simpl; [discriminate|].
  intros _. split.
  - intros e He. rewrite He. go_simpl.
    rewrite ?app_nil_r, <- ?app_assoc. cbn [app]. ends_with.
  - intros He. rewrite He. go_simpl.
    rewrite ?app_nil_r, <- ?app_assoc. cbn [app forallb isDriver andb].
    rewrite forallb_app, Hscan by reflexivity. reflexivity.
Qed.

Lemma committed_listing_logs_the_rollback_witness :
  endsWith (trace (ListUsers {| db := Table.tableDB seedUsers |} 1 10))
    [Driver TxRollback;
     LogError "failed to rollback transaction" (New SqlErrTxDone) []].
Proof.
  apply (proj1 (committed_listing_logs_the_rollback
                  {| db := Table.tableDB seedUsers |} 1 10 eq_refl)).
  reflexivity.
Defined.

(** ** The three kinds of mapped error *)

(** X8. For a backend error that wraps none of the store's own error values,
    the error [handleError] returns satisfies [errors.Is] for exactly one of
    [ErrDuplicateEmail], [ErrUserNotFound] and [ErrDatabaseInternal], so the
    handlers' tests cannot overlap; and the internal error keeps the cause
    reachable: [errors.As] finds in it the same driver error as in the
    cause. *)
Theorem mapped_error_kinds_are_disjoint :
  forall (raw : error) (msg : string) (fields : list Field),
    foreign raw ->
    (errorsIs (value (handleError raw msg fields)) StDuplicateEmail = true
     <-> emailUniqueViolation raw)
    /\ (errorsIs (value (handleError raw msg fields)) StUserNotFound = true
        <-> ~ emailUniqueViolation raw /\ errorsIs raw SqlErrNoRows = true)
    /\ (errorsIs (value (handleError raw msg fields)) StDatabaseInternal = true
        <-> ~ emailUniqueViolation raw /\ errorsIs raw SqlErrNoRows = false)
    /\ (errorsIs (value (handleError raw msg fields)) StDatabaseInternal = true ->
        errorsAsPq (value (handleError raw msg fields)) = errorsAsPq raw).
Proof.
  intros raw msg fields [Hd [Hn Hi]].
  rewrite handleError_cases.
  destruct (emailUniqueViolationb raw) eqn:E.
  - assert (Hv : emailUniqueViolation raw)
      by (apply emailUniqueViolation_reflect; exact E).
    cbn. intuition congruence.
  - assert (Hv : ~ emailUniqueViolation raw).
    { intros H. apply emailUniqueViolation_reflect in H. congruence. }
    destruct (errorsIs raw SqlErrNoRows) eqn:Er; cbn.
    + intuition congruence.
    + rewrite Hd, Hn. cbn.
      assert (Hp : match errorsAsPq raw with
                   | Some e => Some e
                   | None => None
                   end = errorsAsPq raw)
        by (destruct (errorsAsPq raw); reflexivity).
      intuition congruence.
Qed.

Lemma mapped_error_kinds_are_disjoint_witness :
  errorsIs (value (handleError otherUniqueError "failed to update user" []))
    StDatabaseInternal = true
  <-> ~ emailUniqueViolation otherUniqueError
      /\ errorsIs otherUniqueError SqlErrNoRows = false.
Proof.
  apply (mapped_error_kinds_are_disjoint otherUniqueError
           "failed to update user" []).
  repeat split; reflexivity.
Defined.

(* ================================================================== *)
(** * Decimal identities in URLs and in the environment *)

Lemma parseDigits_acc (d : Decimal.uint) :
  forall acc : positive,
    GoInt.parseDigits (NilEmpty.string_of_uint d) (Z.pos acc)
    = Some (Z.pos (Pos.of_uint_acc d acc)).
Proof.
  induction d as [|d IH|d IH|d IH|d IH|d IH|d IH|d IH|d IH|d IH|d IH];
    intros acc; [reflexivity|..];
    cbn [NilEmpty.string_of_uint GoInt.parseDigits Pos.of_uint_acc];
    match goal with
    | |- context [GoInt.isDigit ?c] =>
        change (GoInt.isDigit c) with true; cbv iota
    end;
    rewrite <- IH; f_equal;
    match goal with
    | |- context [GoInt.digitVal ?c] =>
        let v := eval vm_compute in (GoInt.digitVal c) in
        change (GoInt.digitVal c) with v
    end; lia.
Qed.

Lemma parseDigits_zero (d : Decimal.uint) :
  GoInt.parseDigits (NilEmpty.string_of_uint d) 0
  = Some (Z.of_N (Pos.of_uint d)).
Proof.
  induction d as [|d IH|d IH|d IH|d IH|d IH|d IH|d IH|d IH|d IH|d IH];
    [reflexivity|exact IH|..];
    cbn [NilEmpty.string_of_uint GoInt.parseDigits Pos.of_uint];
    match goal with
    | |- context [GoInt.isDigit ?c] =>
        change (GoInt.isDigit c) with true; cbv iota
    end;
    cbn [Z.of_N]; rewrite <- parseDigits_acc; f_equal.
Qed.

Lemma ParseInt_of_digits (p : positive) :
  GoInt.inRange (Z.pos p) = true ->
  GoInt.ParseInt (NilZero.string_of_uint (Pos.to_uint p)) = Some (Z.pos p).
Proof.
  intros Hr.
  pose proof (DecimalPos.Unsigned.of_to p) as Hof.
  pose proof (parseDigits_zero (Pos.to_uint p)) as Hpd.
  rewrite Hof in Hpd. cbn [Z.of_N] in Hpd.
  pose proof (Unsigned.to_uint_nonnil p) as Hnn.
  destruct (Pos.to_uint p) as [|d|d|d|d|d|d|d|d|d|d];
    [congruence|..];
    cbn [NilZero.string_of_uint NilEmpty.string_of_uint] in *;
    unfold GoInt.ParseInt; cbv iota beta; rewrite Hpd, Hr; reflexivity.
Qed.

Lemma ParseInt_of_negated_digits (p : positive) :
  GoInt.inRange (Z.neg p) = true ->
  GoInt.ParseInt (String "-" (NilZero.string_of_uint (Pos.to_uint p)))
  = Some (Z.neg p).
Proof.
  intros Hr.
  pose proof (DecimalPos.Unsigned.of_to p) as Hof.
  pose proof (parseDigits_zero (Pos.to_uint p)) as Hpd.
  rewrite Hof in Hpd. cbn [Z.of_N] in Hpd.
  pose proof (Unsigned.to_uint_nonnil p) as Hnn.
  destruct (Pos.to_uint p) as [|d|d|d|d|d|d|d|d|d|d];
    [congruence|..];
    cbn [NilZero.string_of_uint NilEmpty.string_of_uint] in *;
    unfold GoInt.ParseInt; cbv iota beta; rewrite Hpd;
    cbn [Z.opp]; rewrite Hr; reflexivity.
Qed.

Lemma Atoi_sprintf_d (z : Z) :
  GoInt.minInt <= z <= GoInt.maxInt ->
  GoInt.Atoi (GoInt.sprintf_d z) = Some z.
Proof.
  intros Hz.
  assert (Hr : GoInt.inRange z = true).
  { unfold GoInt.inRange. apply andb_true_iff. split; apply Z.leb_le; lia. }
  unfold GoInt.Atoi, GoInt.sprintf_d. destruct z as [|p|p].
  - reflexivity.
  - apply ParseInt_of_digits, Hr.
  - apply ParseInt_of_negated_digits, Hr.
Qed.

(** X9. The identity in a URL round-trips: every positive 64-bit identity,
    written in decimal, is parsed back to itself by [parseIDFromURL], and
    zero and every negative identity are refused. *)
Theorem parseIDFromURL_round_trip :
  forall id : Z,
    GoInt.minInt <= id <= GoInt.maxInt ->
    Handler.parseIDFromURL (GoInt.sprintf_d id)
    = if 0 <? id then (id, None)
      else (0, Some (Other ("invalid user ID: " ++ GoInt.sprintf_d id))).
Proof.
  intros id Hid. unfold Handler.parseIDFromURL.
  rewrite (Atoi_sprintf_d id Hid : GoInt.ParseInt _ = _).
  destruct (0 <? id) eqn:E.
  - apply Z.ltb_lt in E.
    destruct (id <=? 0) eqn:E'; [apply Z.leb_le in E'; lia | reflexivity].
  - apply Z.ltb_ge in E.
    destruct (id <=? 0) eqn:E'; [reflexivity | apply Z.leb_gt in E'; lia].
Qed.

Lemma parseIDFromURL_round_trip_witness :
  Handler.parseIDFromURL (GoInt.sprintf_d 9223372036854775807)
  = (9223372036854775807, None).
Proof.
  apply (parseIDFromURL_round_trip 9223372036854775807).
  unfold GoInt.minInt, GoInt.maxInt. lia.
Defined.

(** X10. The paging parameters of a listing request: a decimal page of at
    least one and a decimal page size between 1 and 100 are handed to the
    store as they are; any other number becomes page 1 or page size 10, and
    so does a parameter that is missing or not a number. *)
Theorem paging_parameters :
  forall z : Z,
    GoInt.minInt <= z <= GoInt.maxInt ->
    Handler.pageParam (GoInt.sprintf_d z) = (if 1 <=? z then z else 1)
    /\ Handler.pageSizeParam (GoInt.sprintf_d z)
       = (if (1 <=? z) && (z <=? 100) then z else 10)
    /\ (forall raw, GoInt.Atoi raw = None ->
                    Handler.pageParam raw = 1
                    /\ Handler.pageSizeParam raw = 10)
    /\ Handler.pageParam "" = 1
    /\ Handler.pageSizeParam "" = 10.
Proof.
  intros z Hz. unfold Handler.pageParam, Handler.pageSizeParam.
  rewrite (Atoi_sprintf_d z Hz).
  split; [|split; [|split; [|split]]].
  - destruct (z <=? 0) eqn:E1; destruct (1 <=? z) eqn:E2; try reflexivity.
    + apply Z.leb_le in E1, E2. lia.
    + apply Z.leb_gt in E1, E2. lia.
  - destruct (z <=? 0) eqn:E1; destruct (1 <=? z) eqn:E2;
      destruct (z >? 100) eqn:E3; destruct (z <=? 100) eqn:E4;
      try reflexivity; exfalso;
      rewrite ?Z.gtb_ltb in E3;
      repeat match goal with
             | H : (_ <=? _) = true |- _ => apply Z.leb_le in H
             | H : (_ <=? _) = false |- _ => apply Z.leb_gt in H
             | H : (_ <? _) = true |- _ => apply Z.ltb_lt in H
             | H : (_ <? _) = false |- _ => apply Z.ltb_ge in H
             end; lia.
  - intros raw Hraw. rewrite Hraw. split; reflexivity.
  - reflexivity.
  - reflexivity.
Qed.

Lemma paging_parameters_witness :
  Handler.pageParam (GoInt.sprintf_d 7) = 7
  /\ Handler.pageSizeParam (GoInt.sprintf_d 101) = 10.
Proof.
  pose proof (paging_parameters 7) as H7.
  pose proof (paging_parameters 101) as H101.
  split.
  - apply H7. unfold GoInt.minInt, GoInt.maxInt. lia.
  - apply H101. unfold GoInt.minInt, GoInt.maxInt. lia.
Defined.

(** ** The page count *)

(** X11. For a total count that is not negative the page count of the
    listing response is the number of pages needed, with a least value of
    one, exactly when the count is at most one page or a multiple of the
    page size; in every other case it is one less, so the records of the
    last, partial page lie beyond the page count. *)
Theorem total_pages_miss_the_partial_page :
  forall totalCount pageSize : Z,
    0 <= totalCount -> 1 <= pageSize ->
    Handler.totalPagesOf totalCount pageSize
    = Z.max 1 (pagesNeeded totalCount pageSize)
      - (if (pageSize <? totalCount) && negb (totalCount mod pageSize =? 0)
         then 1 else 0).
Proof.
  intros t p Ht Hp. rewrite totalPagesOf_max by exact Hp.
  unfold pagesNeeded. rewrite Z.quot_div_nonneg by lia.
  pose proof (Z.div_mod t p ltac:(lia)) as Hdm.
  pose proof (Z.mod_pos_bound t p ltac:(lia)) as Hmb.
  set (q := t / p) in *. set (r := t mod p) in *.
  assert (Hq : 0 <= q) by (apply Z.div_pos; lia).
  destruct (r =? 0) eqn:Er.
  - apply Z.eqb_eq in Er.
    assert (Hn : (t + p - 1) / p = if q =? 0 then 0 else q).
    { destruct (q =? 0) eqn:Eq0.
      - apply Z.eqb_eq in Eq0. apply Z.div_small. nia.
      - apply Z.eqb_neq in Eq0.
        symmetry. apply Z.div_unique with (r := p - 1); [left; lia | nia]. }
    rewrite Hn, andb_false_r.
    destruct (q =? 0) eqn:Eq0; [apply Z.eqb_eq in Eq0|apply Z.eqb_neq in Eq0];
      lia.
  - apply Z.eqb_neq in Er.
    assert (Hn : (t + p - 1) / p = q + 1).
    { symmetry. apply Z.div_unique with (r := r - 1); [left; lia | nia]. }
    rewrite Hn. cbn [negb]. rewrite andb_true_r.
    destruct (p <? t) eqn:Ept.
    + apply Z.ltb_lt in Ept. assert (1 <= q) by nia. lia.
    + apply Z.ltb_ge in Ept. assert (q = 0) by nia. lia.
Qed.

Lemma total_pages_miss_the_partial_page_witness :
  Handler.totalPagesOf 21 5 = Z.max 1 (pagesNeeded 21 5) - 1.
Proof. apply (total_pages_miss_the_partial_page 21 5); lia. Defined.

(* ================================================================== *)
(** * The handlers on top of the store *)

Lemma parseIDFromURL_valid (idVar : string) (id : Z) :
  Handler.parseIDFromURL idVar = (id, None) ->
  0 < id /\ GoInt.ParseInt idVar = Some id.
Proof.
  unfold Handler.parseIDFromURL.
  destruct (GoInt.ParseInt idVar) as [n|]; [|discriminate].
  destruct (n <=? 0) eqn:E; [discriminate|].
  intros H. inversion H; subst. apply Z.leb_gt in E. auto.
Qed.

Lemma parseIDFromURL_cases (idVar : string) :
  (exists z e, Handler.parseIDFromURL idVar = (z, Some e))
  \/ (exists id, Handler.parseIDFromURL idVar = (id, None)).
Proof.
  destruct (Handler.parseIDFromURL idVar) as [z [e|]].
  - left. exists z, e. reflexivity.
  - right. exists z. reflexivity.
Qed.

Lemma ListUsers_begins (s : PostgresStore) (page pageSize : Z) :
  1 <= page -> 1 <= pageSize <= 100 ->
  exists rest,
    driverCalls (trace (ListUsers s page pageSize)) = BeginTx true :: rest.
Proof.
  intros Hp Hs. unfold ListUsers.
  destruct (page <? 1) eqn:E1; [apply Z.ltb_lt in E1; lia|].
  destruct ((pageSize <? 1) || (pageSize >? 100)) eqn:E2.
  { apply orb_true_iff in E2. destruct E2 as [E2|E2].
    - apply Z.ltb_lt in E2. lia.
    - apply Z.gtb_lt in E2. lia. }
  unfold withTx. go_simpl. cbn [driverCalls flat_map app].
  eexists. reflexivity.
Qed.

(** X12. The argument checks of the store cannot fire behind the handlers.
    A get or a delete either is answered 400 without a driver call (the
    trace holds at most the entry of a [Write] that failed), or runs its one
    statement with the positive identity parsed from the URL; a listing
    always begins its transaction; and the get handler never dereferences a
    missing user, whatever the backend answers. *)
Theorem handlers_reach_the_database :
  forall (MarshalJSON : Time -> option error) (s : PostgresStore)
         (w : Http.ResponseWriter),
    (forall idVar,
        (value (Handler.GetUser MarshalJSON (handlerOn s) w idVar)
         = Handler.Json 400 (Handler.ErrorMessage "Invalid user ID")
         /\ trace (Handler.GetUser MarshalJSON (handlerOn s) w idVar)
            = writeLog w)
        \/ (exists id,
               0 < id /\ GoInt.ParseInt idVar = Some id
               /\ driverCalls
                    (trace (Handler.GetUser MarshalJSON (handlerOn s) w idVar))
                  = [QueryRowContext sqlGetUserByID [ArgInt id]]))
    /\ (forall idVar,
          (value (Handler.DeleteUser MarshalJSON (handlerOn s) w idVar)
           = Handler.Json 400 (Handler.ErrorMessage "Invalid user ID")
           /\ trace (Handler.DeleteUser MarshalJSON (handlerOn s) w idVar)
              = writeLog w)
          \/ (exists id,
                 0 < id /\ GoInt.ParseInt idVar = Some id
                 /\ driverCalls
                      (trace (Handler.DeleteUser MarshalJSON (handlerOn s) w
                                idVar))
                    = [ExecContext sqlDeleteUser [ArgInt id]]))
    /\ (forall rawPage rawPageSize,
          exists rest,
            driverCalls
              (trace (Handler.ListUsers MarshalJSON (handlerOn s) w
                        rawPage rawPageSize))
            = BeginTx true :: rest)
    /\ (forall idVar,
          value (Handler.GetUser MarshalJSON (handlerOn s) w idVar)
          <> Handler.Panic)
    /\ (Http.WriteErr w = None -> writeLog w = []).
Proof.
  intros MarshalJSON s w. split; [|split; [|split; [|split]]].
  - intros idVar. unfold Handler.GetUser.
    destruct (parseIDFromURL_cases idVar) as [[z [e He]]|[id Hid]].
    + left. rewrite He, respondWithError_eq. split; reflexivity.
    + right. destruct (parseIDFromURL_valid idVar id Hid) as [Hpos Hparse].
      exists id. rewrite Hid. split; [exact Hpos|]. split; [exact Hparse|].
      cbn [handlerOn Handler.store Handler.postgresStorer Handler.st_GetUserByID].
      unfold GetUserByID.
      destruct (id <=? 0) eqn:E; [apply Z.leb_le in E; lia|]. go_simpl.
      destruct (db_QueryRowScanUser _ _ _) as [u|raw]; go_simpl.
      * reflexivity.
      * rewrite handleError_no_driver.
        destruct (errorsIs _ StUserNotFound); go_simpl; reflexivity.
  - intros idVar. unfold Handler.DeleteUser.
    destruct (parseIDFromURL_cases idVar) as [[z [e He]]|[id Hid]].
    + left. rewrite He, respondWithError_eq. split; reflexivity.
    + right. destruct (parseIDFromURL_valid idVar id Hid) as [Hpos Hparse].
      exists id. rewrite Hid. split; [exact Hpos|]. split; [exact Hparse|].
      cbn [handlerOn Handler.store Handler.postgresStorer Handler.st_DeleteUser].
      unfold DeleteUser.
      destruct (id <=? 0) eqn:E; [apply Z.leb_le in E; lia|]. go_simpl.
      destruct (db_Exec _ _ _) as [[n|raw]|raw]; go_simpl.
      * destruct (n =? 0); go_simpl;
          [change (errorsIs ErrUserNotFound StUserNotFound) with true;
           cbv iota; go_simpl|];
          reflexivity.
      * rewrite handleError_no_driver.
        destruct (errorsIs _ StUserNotFound); go_simpl; reflexivity.
      * rewrite handleError_no_driver.
        destruct (errorsIs _ StUserNotFound); go_simpl; reflexivity.
  - intros rawPage rawPageSize. unfold Handler.ListUsers.
    cbn [handlerOn Handler.store Handler.postgresStorer Handler.st_ListUsers].
    destruct (ListUsers_begins s (Handler.pageParam rawPage)
                (Handler.pageSizeParam rawPageSize)
                (pageParam_range rawPage) (pageSizeParam_range rawPageSize))
      as [rest Hrest].
    rewrite trace_bind, driverCalls_app, Hrest.
    eexists. reflexivity.
  - intros idVar. unfold Handler.GetUser.
    destruct (Handler.parseIDFromURL idVar) as [id [e|]];
      [rewrite respondWithError_eq; discriminate|].
    cbn [handlerOn Handler.store Handler.postgresStorer Handler.st_GetUserByID].
    unfold GetUserByID. destruct (id <=? 0); go_simpl.
    + discriminate.
    + destruct (db_QueryRowScanUser _ _ _) as [u|raw]; go_simpl.
      * rewrite respondWithJSON_cases.
        destruct (Handler.jsonMarshal _ _); discriminate.
      * destruct (errorsIs _ StUserNotFound); go_simpl; discriminate.
  - intros Hw. unfold writeLog. rewrite Hw. reflexivity.
Qed.

(** ** What the handlers let through to the backend *)

Section ValidatedFields.

Variable isEmail : string -> bool.
Variable MarshalJSON : Time -> option error.
Variable w : Http.ResponseWriter.

Lemma validateStruct_three_ok (n1 n2 n3 : string) (t1 t2 t3 : list Tag)
  (v1 v2 v3 : string) :
  validateStruct isEmail [(n1, t1, v1); (n2, t2, v2); (n3, t3, v3)] = None ->
  runTags isEmail t1 v1 = true
  /\ runTags isEmail t2 v2 = true
  /\ runTags isEmail t3 v3 = true.
Proof.
  intros H.
  pose proof (validateStruct_three isEmail n1 n2 n3 t1 t2 t3 v1 v2 v3) as Hf.
  destruct (runTags isEmail t1 v1), (runTags isEmail t2 v2),
    (runTags isEmail t3 v3); try tauto;
    exfalso; apply (proj2 Hf); auto.
Qed.

Lemma required_email_ok (v : string) :
  runTags isEmail [required; email] v = true -> v <> "" /\ isEmail v = true.
Proof.
  intros H. pose proof (required_email_fails isEmail v) as Hf.
  destruct (isEmail v) eqn:E.
  - split; [|reflexivity]. intros Hv.
    assert (runTags isEmail [required; email] v = false)
      by (apply Hf; left; exact Hv).
    congruence.
  - assert (runTags isEmail [required; email] v = false)
      by (apply Hf; right; reflexivity).
    congruence.
Qed.

Lemma required_alpha_ok (v : string) :
  runTags isEmail [required; alpha] v = true -> isAlpha v = true.
Proof.
  cbn [runTags]. destruct (isEmptyString v); [discriminate|].
  rewrite andb_true_r. auto.
Qed.

Lemma omitempty_email_ok (v : string) :
  runTags isEmail [omitempty; email] v = true -> v <> "" -> isEmail v = true.
Proof.
  cbn [runTags]. intros H Hv.
  destruct (isEmptyString v) eqn:E.
  - apply isEmptyString_iff in E. contradiction.
  - rewrite andb_true_r in H. exact H.
Qed.

Lemma omitempty_alpha_min_ok (v : string) :
  runTags isEmail [omitempty; alpha; min 2] v = true -> v <> "" ->
  isAlpha v = true /\ (2 <= String.length v)%nat.
Proof.
  cbn [runTags]. intros H Hv.
  destruct (isEmptyString v) eqn:E.
  - apply isEmptyString_iff in E. contradiction.
  - rewrite andb_true_r in H. apply andb_true_iff in H. destruct H as [Ha Hm].
    split; [exact Ha|].
    apply Nat.leb_le in Hm. rewrite allLetters_rune_count in Hm; [exact Hm|].
    destruct v; [discriminate | exact Ha].
Qed.

Lemma updateArguments_strings (uu : UserUpdate) (id : Z) (v : string) :
  In (ArgString v) (updateArguments uu id) ->
  v <> "" /\ (v = uu_Email uu \/ v = uu_FirstName uu \/ v = uu_LastName uu).
Proof.
  unfold updateArguments, suppliedColumns. intros H.
  apply in_app_or in H. destruct H as [H|[H|[]]]; [|discriminate].
  apply in_map_iff in H. destruct H as [[col val] [Hw Hin]].
  inversion Hw; subst. apply filter_In in Hin. destruct Hin as [Hin Hne].
  cbn [snd] in *. split.
  - intros Hv. subst. discriminate.
  - destruct Hin as [Hc|[Hc|[Hc|[]]]]; inversion Hc; auto.
Qed.

(** X13. The backend only sees strings that passed validation.  A driver
    call made while a create request is served is the insert of a decoded
    body whose e-mail is not empty and matches the address grammar and whose
    names are non-empty and made of letters; a driver call made while an
    update request is served is the update of a decoded body for a positive
    identity, and each string among its arguments either matches the
    address grammar or consists of at least two letters. *)
Theorem handlers_forward_only_validated_fields :
  forall (s : PostgresStore),
    (forall body c,
        In c (driverCalls
                (trace (Handler.CreateUser isEmail MarshalJSON (handlerOn s) w
                          body))) ->
        exists uc,
          body = Some uc
          /\ c = QueryRowContext sqlCreateUser
                   [ArgString (uc_Email uc); ArgString (uc_FirstName uc);
                    ArgString (uc_LastName uc)]
          /\ uc_Email uc <> "" /\ isEmail (uc_Email uc) = true
          /\ isAlpha (uc_FirstName uc) = true
          /\ isAlpha (uc_LastName uc) = true)
    /\ (forall idVar body c,
          In c (driverCalls
                  (trace (Handler.UpdateUser isEmail MarshalJSON (handlerOn s) w
                            idVar body))) ->
          exists uu id,
            body = Some uu /\ 0 < id
            /\ GoInt.ParseInt idVar = Some id
            /\ c = ExecContext (updateStatement uu) (updateArguments uu id)
            /\ forall v,
                 In (ArgString v) (updateArguments uu id) ->
                 isEmail v = true
                 \/ (isAlpha v = true /\ (2 <= String.length v)%nat)).
Proof.
  intros s. split.
  - intros body c. unfold Handler.CreateUser.
    destruct body as [uc|]; [|go_simpl; intros []].
    destruct (DomainAlpha.UserCreate_Validate isEmail uc) as [e|] eqn:Ev;
      [go_simpl; intros []|].
    apply validateStruct_three_ok in Ev. destruct Ev as [He [Hf Hl]].
    apply required_email_ok in He. apply required_alpha_ok in Hf, Hl.
    cbn [handlerOn Handler.store Handler.postgresStorer Handler.st_CreateUser].
    rewrite trace_bind, driverCalls_app.
    intros Hin. apply in_app_or in Hin. destruct Hin as [Hin|Hin].
    + unfold CreateUser in Hin. revert Hin. go_simpl.
      destruct (db_QueryRowScanInt64 _ _ _) as [n|raw]; go_simpl;
        rewrite ?handleError_no_driver; cbn [driverCalls flat_map app];
        (intros [Hc|[]]; subst c; exists uc; tauto).
    + exfalso. revert Hin.
      destruct (snd (value (CreateUser s uc))) as [e|];
        [destruct (errorsIs e StDuplicateEmail)|]; go_simpl; intros [].
  - intros idVar body c. unfold Handler.UpdateUser.
    destruct (Handler.parseIDFromURL idVar) as [id [e|]] eqn:Hid;
      [go_simpl; intros []|].
    destruct (parseIDFromURL_valid idVar id Hid) as [Hpos Hparse].
    destruct body as [uu|]; [|go_simpl; intros []].
    destruct (DomainAlpha.UserUpdate_Validate isEmail uu) as [e|] eqn:Ev;
      [go_simpl; intros []|].
    apply validateStruct_three_ok in Ev. destruct Ev as [He [Hf Hl]].
    cbn [handlerOn Handler.store Handler.postgresStorer Handler.st_UpdateUser].
    rewrite trace_bind, driverCalls_app, (UpdateUser_calls s id uu Hpos),
      buildUpdateQuery_shape.
    cbn [fst snd]. intros Hin. apply in_app_or in Hin.
    destruct Hin as [[Hc|[]]|Hin].
    + subst c. exists uu, id. repeat split; auto.
      intros v Hv. apply updateArguments_strings in Hv.
      destruct Hv as [Hne [Hv|[Hv|Hv]]]; subst v.
      * left. apply omitempty_email_ok; assumption.
      * right. apply omitempty_alpha_min_ok; assumption.
      * right. apply omitempty_alpha_min_ok; assumption.
    + exfalso. revert Hin.
      destruct (value (UpdateUser s id uu)) as [e|];
        [destruct (errorsIs e StUserNotFound);
         [|destruct (errorsIs e StDuplicateEmail)]|]; go_simpl; intros [].
Qed.

End ValidatedFields.

(** ** Outcomes of a get and of a delete *)

Lemma parseIDFromURL_of_parse (idVar : string) (id : Z) :
  GoInt.ParseInt idVar = Some id -> 0 < id ->
  Handler.parseIDFromURL idVar = (id, None).
Proof.
  intros Hp Hid. unfold Handler.parseIDFromURL. rewrite Hp.
  destruct (id <=? 0) eqn:E; [apply Z.leb_le in E; lia | reflexivity].
Qed.

(** X14. For a positive identity in the URL, the get handler answers 200
    exactly when the backend returns the row and both timestamps of the row
    have a JSON text, and then with the projection of that row; when the
    backend returns a row with a timestamp that has none, the failure of
    [json.Marshal] is logged and a bare 500 is sent; a no-rows answer gives
    404.  The delete handler answers 204 exactly when the backend reports a
    number of affected rows other than zero, and 404 when it reports
    zero. *)
Theorem get_and_delete_follow_the_backend :
  forall (MarshalJSON : Time -> option error) (s : PostgresStore)
         (w : Http.ResponseWriter) (idVar : string) (id : Z),
    GoInt.ParseInt idVar = Some id -> 0 < id ->
    (Handler.statusOf
       (value (Handler.GetUser MarshalJSON (handlerOn s) w idVar)) = Some 200
     <-> exists u,
           db_QueryRowScanUser (db s) sqlGetUserByID [ArgInt id] = Ok u
           /\ MarshalJSON (CreatedAt u) = None
           /\ MarshalJSON (UpdatedAt u) = None)
    /\ (forall u,
          db_QueryRowScanUser (db s) sqlGetUserByID [ArgInt id] = Ok u ->
          MarshalJSON (CreatedAt u) = None ->
          MarshalJSON (UpdatedAt u) = None ->
          value (Handler.GetUser MarshalJSON (handlerOn s) w idVar)
          = Handler.Json 200 (Handler.OneUser (ToResponse u)))
    /\ (forall u,
          db_QueryRowScanUser (db s) sqlGetUserByID [ArgInt id] = Ok u ->
          MarshalJSON (CreatedAt u) <> None
          \/ MarshalJSON (UpdatedAt u) <> None ->
          exists err,
            Handler.GetUser MarshalJSON (handlerOn s) w idVar
            = (Handler.Header 500,
               [Driver (QueryRowContext sqlGetUserByID [ArgInt id]);
                LogError "failed to marshal JSON response" err []]))
    /\ (db_QueryRowScanUser (db s) sqlGetUserByID [ArgInt id] = Err sqlErrNoRows ->
        value (Handler.GetUser MarshalJSON (handlerOn s) w idVar)
        = Handler.Json 404 (Handler.ErrorMessage "User not found"))
    /\ (Handler.statusOf
          (value (Handler.DeleteUser MarshalJSON (handlerOn s) w idVar))
        = Some 204
        <-> exists n,
              n <> 0
              /\ db_Exec (db s) sqlDeleteUser [ArgInt id] = Ok (Ok n))
    /\ (db_Exec (db s) sqlDeleteUser [ArgInt id] = Ok (Ok 0) ->
        value (Handler.DeleteUser MarshalJSON (handlerOn s) w idVar)
        = Handler.Json 404 (Handler.ErrorMessage "User not found")).
Proof.
  intros MarshalJSON s w idVar id Hp Hid.
  pose proof (parseIDFromURL_of_parse idVar id Hp Hid) as Hparse.
  assert (Hle : (id <=? 0) = false) by (apply Z.leb_gt; exact Hid).
  unfold Handler.GetUser, Handler.DeleteUser. rewrite Hparse.
  cbn [handlerOn Handler.store Handler.postgresStorer Handler.st_GetUserByID
       Handler.st_DeleteUser].
  unfold GetUserByID, DeleteUser. rewrite Hle.
  split; [|split; [|split; [|split; [|split]]]].
  - go_simpl. destruct (db_QueryRowScanUser _ _ _) as [u|raw]; go_simpl.
    + rewrite respondWithJSON_status.
      pose proof (jsonMarshal_user MarshalJSON u) as Hm.
      destruct (Handler.jsonMarshal MarshalJSON _) as [e|].
      * split; [discriminate|]. intros [u' [Hu Hok]]. inversion Hu; subst u'.
        apply Hm in Hok. discriminate Hok.
      * split; [|reflexivity]. intros _. exists u.
        split; [reflexivity | apply Hm; reflexivity].
    + split.
      * destruct (errorsIs _ StUserNotFound); go_simpl; discriminate.
      * intros [u [Hu _]]. discriminate Hu.
  - intros u Hu Hc Hup. go_simpl. rewrite Hu. go_simpl.
    rewrite respondWithJSON_cases.
    replace (Handler.jsonMarshal MarshalJSON (Handler.OneUser (ToResponse u)))
      with (@None error)
      by (symmetry; apply jsonMarshal_user; split; assumption).
    reflexivity.
  - intros u Hu Hbad. rewrite Hu.
    pose proof (jsonMarshal_user MarshalJSON u) as Hm.
    unfold bind, call, emit, ret. cbn [fst snd value].
    rewrite respondWithJSON_cases.
    destruct (Handler.jsonMarshal MarshalJSON _) as [e|].
    + exists e. reflexivity.
    + exfalso. destruct (proj1 Hm eq_refl) as [H1 H2].
      destruct Hbad as [Hbad|Hbad]; contradiction.
  - intros Hu. go_simpl. rewrite Hu. reflexivity.
  - go_simpl. destruct (db_Exec _ _ _) as [[n|raw]|raw]; go_simpl.
    + destruct (n =? 0) eqn:En.
      * apply Z.eqb_eq in En. split; [discriminate|].
        intros [m [Hm Hx]]. inversion Hx. congruence.
      * apply Z.eqb_neq in En. split; [|reflexivity].
        intros _. exists n. auto.
    + split.
      * destruct (errorsIs _ StUserNotFound); go_simpl; discriminate.
      * intros [m [_ Hx]]. discriminate Hx.
    + split.
      * destruct (errorsIs _ StUserNotFound); go_simpl; discriminate.
      * intros [m [_ Hx]]. discriminate Hx.
  - intros Hx. go_simpl. rewrite Hx. reflexivity.
Qed.

Lemma get_and_delete_follow_the_backend_witness :
  value (Handler.GetUser marshalsAll (handlerOn {| db := conflictDB |})
           okWriter "999")
  = Handler.Json 404 (Handler.ErrorMessage "User not found")
  /\ value (Handler.DeleteUser marshalsAll (handlerOn {| db := conflictDB |})
              okWriter "999")
     = Handler.Json 404 (Handler.ErrorMessage "User not found").
Proof.
  pose proof (get_and_delete_follow_the_backend marshalsAll
                {| db := conflictDB |} okWriter "999" 999 eq_refl ltac:(lia))
    as [_ [_ [_ [Hget [_ Hdel]]]]].
  split; [apply Hget | apply Hdel]; reflexivity.
Defined.

(* ================================================================== *)
(** * The configuration *)

Section ConfigFacts.

Variable ParseDuration : string -> result Z.
Variable env : Config.Env.

Lemma eqb_empty_iff (v : string) : String.eqb v "" = true <-> v = "".
Proof. apply String.eqb_eq. Qed.

Lemma loadIntEnv_unset (key : string) (d : Z) :
  unsetOrEmpty env key -> Config.loadIntEnv env key d = (d, None).
Proof.
  unfold Config.loadIntEnv, Config.loadEnv. intros [H|H]; rewrite H; reflexivity.
Qed.

Lemma loadTimeDurEnv_unset (key : string) (d : Z) :
  unsetOrEmpty env key ->
  Config.loadTimeDurEnv ParseDuration env key d = (d, None).
Proof.
  unfold Config.loadTimeDurEnv, Config.loadEnv.
  intros [H|H]; rewrite H; reflexivity.
Qed.

Lemma loadEnv_unset (key d : string) :
  env key = None -> Config.loadEnv env key d = d.
Proof. unfold Config.loadEnv. intros H. rewrite H. reflexivity. Qed.

Lemma loadIntEnv_error_iff (key : string) (d : Z) :
  snd (Config.loadIntEnv env key d) <> None <-> badInt env key.
Proof.
  unfold Config.loadIntEnv, Config.loadEnv, badInt.
  destruct (env key) as [v|] eqn:Ek.
  - destruct (String.eqb v "") eqn:Ev.
    + apply String.eqb_eq in Ev. simpl. split; [congruence|].
      intros [w [Hw [Hne _]]]. inversion Hw; subst. contradiction.
    + apply String.eqb_neq in Ev.
      destruct (GoInt.Atoi v) as [z|] eqn:Ea; simpl.
      * split; [congruence|].
        intros [w [Hw [_ Hn]]]. inversion Hw; subst. congruence.
      * split; [|congruence]. intros _. exists v. auto.
  - simpl. split; [congruence|]. intros [w [Hw _]]. discriminate.
Qed.

Lemma loadTimeDurEnv_error_iff (key : string) (d : Z) :
  snd (Config.loadTimeDurEnv ParseDuration env key d) <> None
  <-> badDuration ParseDuration env key.
Proof.
  unfold Config.loadTimeDurEnv, Config.loadEnv, badDuration.
  destruct (env key) as [v|] eqn:Ek.
  - destruct (String.eqb v "") eqn:Ev.
    + apply String.eqb_eq in Ev. simpl. split; [congruence|].
      intros [w [e [Hw [Hne _]]]]. inversion Hw; subst. contradiction.
    + apply String.eqb_neq in Ev.
      destruct (ParseDuration v) as [z|e] eqn:Ea; simpl.
      * split; [congruence|].
        intros [w [e [Hw [_ Hn]]]]. inversion Hw; subst. congruence.
      * split; [|congruence]. intros _. exists v, e. auto.
  - simpl. split; [congruence|]. intros [w [e [Hw _]]]. discriminate.
Qed.

(** X15. In an environment where the six numeric and duration variables are
    unset or empty and the seven text variables are unset, [LoadConfig]
    succeeds with the documented defaults: server port 8080, the local
    database [users_db] on port 5432 for user [postgres] without TLS, 25 open
    and 5 idle connections, five minutes for both lifetimes, and development
    mode. *)
Theorem LoadConfig_defaults :
  unsetOrEmpty env "SERVER_PORT" -> unsetOrEmpty env "POSTGRES_PORT" ->
  unsetOrEmpty env "MAX_OPEN_CONNS" -> unsetOrEmpty env "MAX_IDLE_CONNS" ->
  unsetOrEmpty env "CONN_MAX_LIFETIME" -> unsetOrEmpty env "CONN_MAX_IDLETIME" ->
  env "POSTGRES_HOST" = None -> env "POSTGRES_USER" = None ->
  env "POSTGRES_PASSWORD" = None -> env "POSTGRES_DB" = None ->
  env "POSTGRES_SSLMODE" = None -> env "ENV" = None ->
  Config.LoadConfig ParseDuration env = (Some defaultConfig, None).
Proof.
  intros H1 H2 H3 H4 H5 H6 H7 H8 H9 H10 H11 H12.
  unfold Config.LoadConfig.
  rewrite (loadIntEnv_unset _ _ H1), (loadIntEnv_unset _ _ H2),
    (loadIntEnv_unset _ _ H3), (loadIntEnv_unset _ _ H4),
    (loadTimeDurEnv_unset _ _ H5), (loadTimeDurEnv_unset _ _ H6),
    (loadEnv_unset _ _ H7), (loadEnv_unset _ _ H8), (loadEnv_unset _ _ H9),
    (loadEnv_unset _ _ H10), (loadEnv_unset _ _ H11), (loadEnv_unset _ _ H12).
  reflexivity.
Qed.

(** X16. [LoadConfig] fails exactly when one of the four integer variables
    is set to a non-empty value that is not a decimal 64-bit integer, or one
    of the two durations to a non-empty value that [time.ParseDuration]
    refuses; it returns a configuration exactly when it returns no error. *)
Theorem LoadConfig_fails_iff :
  (snd (Config.LoadConfig ParseDuration env) <> None
   <-> badInt env "SERVER_PORT" \/ badInt env "POSTGRES_PORT"
       \/ badInt env "MAX_OPEN_CONNS" \/ badInt env "MAX_IDLE_CONNS"
       \/ badDuration ParseDuration env "CONN_MAX_LIFETIME"
       \/ badDuration ParseDuration env "CONN_MAX_IDLETIME")
  /\ (fst (Config.LoadConfig ParseDuration env) = None
      <-> snd (Config.LoadConfig ParseDuration env) <> None).
Proof.
  pose proof (loadIntEnv_error_iff "SERVER_PORT" 8080) as H1.
  pose proof (loadIntEnv_error_iff "POSTGRES_PORT" 5432) as H2.
  pose proof (loadIntEnv_error_iff "MAX_OPEN_CONNS" 25) as H3.
  pose proof (loadIntEnv_error_iff "MAX_IDLE_CONNS" 5) as H4.
  pose proof (loadTimeDurEnv_error_iff "CONN_MAX_LIFETIME" (5 * Config.Minute)) as H5.
  pose proof (loadTimeDurEnv_error_iff "CONN_MAX_IDLETIME" (5 * Config.Minute)) as H6.
  unfold Config.LoadConfig.
  destruct (Config.loadIntEnv env "SERVER_PORT" 8080) as [v1 [e1|]];
    [cbn [fst snd] in *; split; split; intros; try congruence;
     left; apply H1; congruence|].
  destruct (Config.loadIntEnv env "POSTGRES_PORT" 5432) as [v2 [e2|]];
    [cbn [fst snd] in *; split; split; intros; try congruence;
     right; left; apply H2; congruence|].
  destruct (Config.loadIntEnv env "MAX_OPEN_CONNS" 25) as [v3 [e3|]];
    [cbn [fst snd] in *; split; split; intros; try congruence;
     right; right; left; apply H3; congruence|].
  destruct (Config.loadIntEnv env "MAX_IDLE_CONNS" 5) as [v4 [e4|]];
    [cbn [fst snd] in *; split; split; intros; try congruence;
     right; right; right; left; apply H4; congruence|].
  destruct (Config.loadTimeDurEnv ParseDuration env "CONN_MAX_LIFETIME" _)
    as [v5 [e5|]];
    [cbn [fst snd] in *; split; split; intros; try congruence;
     right; right; right; right; left; apply H5; congruence|].
  destruct (Config.loadTimeDurEnv ParseDuration env "CONN_MAX_IDLETIME" _)
    as [v6 [e6|]];
    [cbn [fst snd] in *; split; split; intros; try congruence;
     right; right; right; right; right; apply H6; congruence|].
  cbn [fst snd] in *. split; split; intros H; try congruence.
  exfalso.
  destruct H as [H|[H|[H|[H|[H|H]]]]];
    [apply H1 in H|apply H2 in H|apply H3 in H|apply H4 in H
     |apply H5 in H|apply H6 in H]; congruence.
Qed.

End ConfigFacts.

Lemma LoadConfig_defaults_witness :
  Config.LoadConfig (fun _ => Err (Other "time: invalid duration"))
    (fun key => if String.eqb key "MAX_OPEN_CONNS" then Some "" else None)
  = (Some defaultConfig, None).
Proof.
  apply (LoadConfig_defaults (fun _ => Err (Other "time: invalid duration"))
           (fun key => if String.eqb key "MAX_OPEN_CONNS" then Some "" else None));
    try (left; reflexivity); try (right; reflexivity); reflexivity.
Defined.

Section ConfigValues.

Variable ParseDuration : string -> result Z.
Variable env : Config.Env.

Lemma loadIntEnv_value (key v : string) (d z : Z) :
  env key = Some v -> GoInt.Atoi v = Some z ->
  Config.loadIntEnv env key d = (z, None).
Proof.
  intros Hk Ha. unfold Config.loadIntEnv, Config.loadEnv. rewrite Hk.
  destruct (String.eqb v "") eqn:E.
  - apply String.eqb_eq in E. subst v. discriminate Ha.
  - rewrite Ha. reflexivity.
Qed.

Lemma loadEnv_set (key v d : string) :
  env key = Some v -> Config.loadEnv env key d = v.
Proof. intros Hk. unfold Config.loadEnv. rewrite Hk. reflexivity. Qed.

(** X17. [LoadConfig] checks no value.  When it succeeds, each integer
    variable that holds a decimal 64-bit integer gives exactly that integer,
    negative, zero or beyond the range of ports as it may be, and each text
    variable that is set gives its value, the empty string included; an
    integer variable set to the empty string gives the default instead.
    Production mode is on exactly when [ENV] is [production]. *)
Theorem LoadConfig_takes_values_unchecked :
  forall cfg : Config.Config,
    Config.LoadConfig ParseDuration env = (Some cfg, None) ->
    (forall v z, env "SERVER_PORT" = Some v -> GoInt.Atoi v = Some z ->
                 Config.sc_Port (Config.Server cfg) = z)
    /\ (forall v z, env "POSTGRES_PORT" = Some v -> GoInt.Atoi v = Some z ->
                    cfg_Port (Config.Postgres cfg) = z)
    /\ (forall v z, env "MAX_OPEN_CONNS" = Some v -> GoInt.Atoi v = Some z ->
                    cfg_MaxOpenConns (Config.Postgres cfg) = z)
    /\ (forall v z, env "MAX_IDLE_CONNS" = Some v -> GoInt.Atoi v = Some z ->
                    cfg_MaxIdleConns (Config.Postgres cfg) = z)
    /\ (forall v, env "POSTGRES_HOST" = Some v ->
                  cfg_Host (Config.Postgres cfg) = v)
    /\ (forall v, env "POSTGRES_USER" = Some v ->
                  cfg_User (Config.Postgres cfg) = v)
    /\ (forall v, env "POSTGRES_PASSWORD" = Some v ->
                  cfg_Password (Config.Postgres cfg) = v)
    /\ (forall v, env "POSTGRES_DB" = Some v ->
                  cfg_DBName (Config.Postgres cfg) = v)
    /\ (forall v, env "POSTGRES_SSLMODE" = Some v ->
                  cfg_SSLMode (Config.Postgres cfg) = v)
    /\ (env "POSTGRES_PORT" = Some "" ->
        cfg_Port (Config.Postgres cfg) = 5432)
    /\ (Config.IsProd cfg = true <-> env "ENV" = Some "production").
Proof.
  intros cfg H. unfold Config.LoadConfig in H.
  destruct (Config.loadIntEnv env "SERVER_PORT" 8080) as [v1 [e1|]] eqn:E1;
    [discriminate|].
  destruct (Config.loadIntEnv env "POSTGRES_PORT" 5432) as [v2 [e2|]] eqn:E2;
    [discriminate|].
  destruct (Config.loadIntEnv env "MAX_OPEN_CONNS" 25) as [v3 [e3|]] eqn:E3;
    [discriminate|].
  destruct (Config.loadIntEnv env "MAX_IDLE_CONNS" 5) as [v4 [e4|]] eqn:E4;
    [discriminate|].
  destruct (Config.loadTimeDurEnv ParseDuration env "CONN_MAX_LIFETIME" _)
    as [v5 [e5|]] eqn:E5; [discriminate|].
  destruct (Config.loadTimeDurEnv ParseDuration env "CONN_MAX_IDLETIME" _)
    as [v6 [e6|]] eqn:E6; [discriminate|].
  inversion H; subst cfg; clear H.
  cbn [Config.Server Config.Postgres Config.IsProd Config.sc_Port cfg_Host
       cfg_Port cfg_User cfg_Password cfg_DBName cfg_SSLMode cfg_MaxOpenConns
       cfg_MaxIdleConns].
  repeat split.
  - intros v z Hv Hz. rewrite (loadIntEnv_value _ _ _ _ Hv Hz) in E1.
    congruence.
  - intros v z Hv Hz. rewrite (loadIntEnv_value _ _ _ _ Hv Hz) in E2.
    congruence.
  - intros v z Hv Hz. rewrite (loadIntEnv_value _ _ _ _ Hv Hz) in E3.
    congruence.
  - intros v z Hv Hz. rewrite (loadIntEnv_value _ _ _ _ Hv Hz) in E4.
    congruence.
  - intros v Hv. apply loadEnv_set, Hv.
  - intros v Hv. apply loadEnv_set, Hv.
  - intros v Hv. apply loadEnv_set, Hv.
  - intros v Hv. apply loadEnv_set, Hv.
  - intros v Hv. apply loadEnv_set, Hv.
  - intros Hv. unfold Config.loadIntEnv, Config.loadEnv in E2.
    rewrite Hv in E2. cbn in E2. congruence.
  - intros Hp. apply String.eqb_eq in Hp. unfold Config.loadEnv in Hp.
    destruct (env "ENV") as [v|]; [congruence | discriminate].
  - intros Hv. rewrite (loadEnv_set _ _ _ Hv). reflexivity.
Qed.

End ConfigValues.

Lemma LoadConfig_takes_values_unchecked_witness :
  exists cfg,
    Config.LoadConfig (fun _ => Err (Other "time: invalid duration")) oddEnv
    = (Some cfg, None)
    /\ cfg_Port (Config.Postgres cfg) = -1
    /\ cfg_Host (Config.Postgres cfg) = ""
    /\ Config.IsProd cfg = true.
Proof.
  eexists. split; [reflexivity|].
  pose proof (LoadConfig_takes_values_unchecked
                (fun _ => Err (Other "time: invalid duration")) oddEnv
                _ eq_refl) as [_ [Hport [_ [_ [Hhost [_ [_ [_ [_ [_ Hprod]]]]]]]]]].
  split; [apply (Hport "-1"); reflexivity|].
  split; [apply Hhost; reflexivity|].
  apply Hprod. reflexivity.
Defined.

(* ================================================================== *)
(** * The logging middleware *)

Lemma lastHeader_writes (calls : list Middleware.WriterCall) (d : Z) :
  forallb isWrite calls = true -> lastHeader calls d = d.
Proof.
  unfold lastHeader. revert d.
  induction calls as [|c calls IH]; intros d H; [reflexivity|].
  cbn [forallb] in H. apply andb_true_iff in H. destruct H as [Hc Hr].
  destruct c; [discriminate|]. cbn [fold_left]. apply IH, Hr.
Qed.

Lemma lastHeader_cons (c : Middleware.WriterCall)
  (calls : list Middleware.WriterCall) (d : Z) :
  lastHeader (c :: calls) d
  = lastHeader calls (match c with
                      | Middleware.CallWriteHeader code => code
                      | Middleware.CallWrite _ => d
                      end).
Proof. reflexivity. Qed.

(** Once the status is fixed no call changes it, and none panics. *)
Lemma ServeHTTP_fixed (calls : list Middleware.WriterCall) :
  forall w,
    Middleware.wroteHeader (Middleware.inner w) = true ->
    exists w',
      Middleware.ServeHTTP calls w = Some w'
      /\ Middleware.wroteHeader (Middleware.inner w') = true
      /\ Middleware.status (Middleware.inner w')
         = Middleware.status (Middleware.inner w)
      /\ Middleware.statusCode w' = lastHeader calls (Middleware.statusCode w).
Proof.
  induction calls as [|c calls IH]; intros w Hw.
  - exists w. repeat split; assumption.
  - rewrite lastHeader_cons. cbn [Middleware.ServeHTTP].
    destruct c as [code|data].
    + cbn [Middleware.apply]. unfold Middleware.WriteHeader.
      cbn [Middleware.inner Middleware.statusCode].
      unfold Middleware.rw_WriteHeader. rewrite Hw.
      destruct (IH {| Middleware.inner := Middleware.inner w;
                      Middleware.statusCode := code |} Hw)
        as [w' [Hs [Hh [Hst Hc]]]].
      exists w'. repeat split; assumption.
    + cbn [Middleware.apply]. unfold Middleware.Write, Middleware.rw_Write.
      rewrite Hw.
      destruct (String.eqb data "");
        [|destruct (negb (Middleware.bodyAllowedForStatus
                            (Middleware.status (Middleware.inner w))))].
      * destruct (IH {| Middleware.inner := Middleware.inner w;
                        Middleware.statusCode := Middleware.statusCode w |} Hw)
          as [w' [Hs [Hh [Hst Hc]]]].
        exists w'. repeat split; assumption.
      * destruct (IH {| Middleware.inner := Middleware.inner w;
                        Middleware.statusCode := Middleware.statusCode w |} Hw)
          as [w' [Hs [Hh [Hst Hc]]]].
        exists w'. repeat split; assumption.
      * match goal with
        | |- context [Middleware.ServeHTTP calls ?x] =>
            destruct (IH x Hw) as [w' [Hs [Hh [Hst Hc]]]]
        end.
        exists w'. repeat split; assumption.
Qed.

(** While the status is open: the calls panic, or the wrapper holds the
    code of the last [WriteHeader] and the writer the status the calls
    fix. *)
Lemma ServeHTTP_open (calls : list Middleware.WriterCall) :
  forall w,
    Middleware.wroteHeader (Middleware.inner w) = false ->
    match Middleware.ServeHTTP calls w with
    | None => panics calls = true
    | Some w' =>
        panics calls = false
        /\ Middleware.statusCode w' = lastHeader calls (Middleware.statusCode w)
        /\ Middleware.sentStatus (Middleware.inner w') = fixedStatus calls
    end.
Proof.
  induction calls as [|c calls IH]; intros w Hw.
  - cbn [Middleware.ServeHTTP panics fixedStatus]. unfold Middleware.sentStatus.
    rewrite Hw. repeat split; reflexivity.
  - rewrite lastHeader_cons. cbn [Middleware.ServeHTTP panics fixedStatus].
    destruct c as [code|data].
    + cbn [Middleware.apply]. unfold Middleware.WriteHeader.
      cbn [Middleware.inner Middleware.statusCode].
      unfold Middleware.rw_WriteHeader. rewrite Hw.
      destruct (Middleware.invalidCode code); [reflexivity|].
      cbn [orb].
      destruct (Middleware.informational code); cbn [andb].
      * match goal with
        | |- context [Middleware.ServeHTTP calls ?x] =>
            specialize (IH x eq_refl); destruct (Middleware.ServeHTTP calls x)
        end; exact IH.
      * match goal with
        | |- context [Middleware.ServeHTTP calls ?x] =>
            destruct (ServeHTTP_fixed calls x eq_refl)
              as [w' [Hs [Hh [Hst Hc]]]]
        end.
        rewrite Hs. unfold Middleware.sentStatus. rewrite Hh, Hst.
        split; [reflexivity | split; [exact Hc | reflexivity]].
    + cbn [Middleware.apply]. unfold Middleware.Write, Middleware.rw_Write.
      rewrite Hw. unfold Middleware.rw_WriteHeader. rewrite Hw.
      change (Middleware.invalidCode 200) with false.
      change (Middleware.informational 200) with false. cbv iota.
      cbn [Middleware.status]. change (Middleware.bodyAllowedForStatus 200) with true.
      cbn [negb].
      destruct (String.eqb data "");
        match goal with
        | |- context [Middleware.ServeHTTP calls ?x] =>
            destruct (ServeHTTP_fixed calls x eq_refl)
              as [w' [Hs [Hh [Hst Hc]]]]
        end;
        rewrite Hs; unfold Middleware.sentStatus; rewrite Hh, Hst;
        (split; [reflexivity | split; [exact Hc | reflexivity]]).
Qed.

Lemma LoggingMiddleware_cases (calls : list Middleware.WriterCall)
  (duration : Z) (r : Http.Request) :
  match Middleware.LoggingMiddleware (Some calls) duration
          Middleware.newResponseWriter r with
  | None => panics calls = true
  | Some (w, entry) =>
      panics calls = false
      /\ entry = accessLog r (lastHeader calls 200) duration
      /\ Middleware.sentStatus w = fixedStatus calls
  end.
Proof.
  unfold Middleware.LoggingMiddleware.
  pose proof (ServeHTTP_open calls
                {| Middleware.inner := Middleware.newResponseWriter;
                   Middleware.statusCode := 200 |} eq_refl) as H.
  destruct (Middleware.ServeHTTP calls _) as [w'|]; [|exact H].
  destruct H as [Hp [Hc Hs]]. cbn [Middleware.statusCode] in Hc.
  rewrite Hc. repeat split; assumption.
Qed.

(** X18. What the access log reports against the status of the response.
    A handler whose [WriteHeader] is given a code outside 100..999 while the
    status is open makes the writer panic, and no entry is written.
    Otherwise the entry carries the request's method, path, remote address
    and user agent, the measured duration, and as status the code of the
    handler's last [WriteHeader], 200 when it makes none; the status of the
    response is the code of the first [WriteHeader] that is not
    informational when no [Write] comes before it, and 200 otherwise.  The
    two agree when the handler writes one valid final header first and then
    only bodies, and when it writes no header; a handler that writes a body
    and then a header, or an informational header only, gets that header's
    code logged while the response carries 200. *)
Theorem logged_status_against_sent_status :
  forall (calls : list Middleware.WriterCall) (duration : Z)
         (r : Http.Request),
    match Middleware.LoggingMiddleware (Some calls) duration
            Middleware.newResponseWriter r with
    | None => panics calls = true
    | Some (w, entry) =>
        panics calls = false
        /\ entry = accessLog r (lastHeader calls 200) duration
        /\ Middleware.sentStatus w = fixedStatus calls
    end
    /\ (forall code rest,
          calls = Middleware.CallWriteHeader code :: rest ->
          Middleware.invalidCode code = false ->
          Middleware.informational code = false ->
          forallb isWrite rest = true ->
          panics calls = false
          /\ lastHeader calls 200 = code /\ fixedStatus calls = code)
    /\ (forallb isWrite calls = true ->
        panics calls = false
        /\ lastHeader calls 200 = 200 /\ fixedStatus calls = 200)
    /\ (forall data code,
          calls = [Middleware.CallWrite data; Middleware.CallWriteHeader code] ->
          panics calls = false
          /\ lastHeader calls 200 = code /\ fixedStatus calls = 200)
    /\ (forall code,
          calls = [Middleware.CallWriteHeader code] ->
          Middleware.invalidCode code = false ->
          Middleware.informational code = true ->
          panics calls = false
          /\ lastHeader calls 200 = code /\ fixedStatus calls = 200)
    /\ (forall code rest,
          calls = Middleware.CallWriteHeader code :: rest ->
          Middleware.invalidCode code = true ->
          panics calls = true).
Proof.
  intros calls duration r.
  split; [apply LoggingMiddleware_cases|].
  split; [|split; [|split; [|split]]].
  - intros code rest Hc Hv Hi Hw. subst calls.
    cbn [panics fixedStatus]. rewrite Hv, Hi, lastHeader_cons.
    repeat split; [apply (lastHeader_writes rest code Hw)].
  - intros Hw. split; [|split].
    + destruct calls as [|[k|d] rest]; [reflexivity|discriminate|reflexivity].
    + apply lastHeader_writes, Hw.
    + destruct calls as [|[k|d] rest]; [reflexivity|discriminate|reflexivity].
  - intros data code Hc. subst calls. repeat split; reflexivity.
  - intros code Hc Hv Hi. subst calls. cbn [panics fixedStatus].
    rewrite Hv, Hi. repeat split; reflexivity.
  - intros code rest Hc Hv. subst calls. cbn [panics]. rewrite Hv. reflexivity.
Qed.

(** Early hints ([103]) alone, a body before the header, and a code the
    writer refuses. *)
Example LoggingMiddleware_runs :
  List.map
    (fun calls =>
       option_map
         (fun p => (Middleware.log_status (snd p), Middleware.sentStatus (fst p)))
         (Middleware.LoggingMiddleware (Some calls) 0
            Middleware.newResponseWriter (requestFor "GET" "/healthz")))
    [[Middleware.CallWriteHeader 103];
     [Middleware.CallWrite "ok"; Middleware.CallWriteHeader 404];
     [Middleware.CallWriteHeader 0];
     [Middleware.CallWriteHeader 204; Middleware.CallWrite "late"];
     [Middleware.CallWriteHeader 103; Middleware.CallWriteHeader 1000]]
  = [Some (103, 200); Some (404, 200); None; Some (204, 204); None].
Proof. reflexivity. Qed.

(** *** The handlers behind the middleware *)

Section HandlerResponses.

Variable isEmail : string -> bool.
Variable MarshalJSON : Time -> option error.
Variable h : Handler.UserHandler.
Variable w : Http.ResponseWriter.

Lemma respondWithJSON_wellFormed (code : Z) (payload : Handler.Payload) :
  In code [200; 201; 400; 404; 409; 500] ->
  wellFormed (value (Handler.respondWithJSON MarshalJSON w code payload)).
Proof.
  intros Hc. rewrite respondWithJSON_cases.
  destruct (Handler.jsonMarshal MarshalJSON payload); cbn [value fst wellFormed].
  - right. left. reflexivity.
  - exact Hc.
Qed.

Ltac well_formed :=
  repeat first
    [ rewrite value_bind
    | apply respondWithJSON_wellFormed; cbn [In]; tauto
    | progress unfold Handler.respondWithError, Handler.respondWithData ].

Lemma CreateUser_wellFormed (body : option UserCreate) :
  wellFormed (value (Handler.CreateUser isEmail MarshalJSON h w body)).
Proof.
  unfold Handler.CreateUser. destruct body as [uc|]; [|well_formed].
  destruct (DomainAlpha.UserCreate_Validate isEmail uc); [well_formed|].
  rewrite value_bind.
  destruct (snd (value (Handler.st_CreateUser (Handler.store h) uc))) as [e|];
    [destruct (errorsIs e StDuplicateEmail)|]; well_formed.
Qed.

Lemma GetUser_wellFormed (idVar : string) :
  wellFormed (value (Handler.GetUser MarshalJSON h w idVar)).
Proof.
  unfold Handler.GetUser.
  destruct (Handler.parseIDFromURL idVar) as [id [e|]]; [well_formed|].
  rewrite value_bind.
  destruct (snd (value (Handler.st_GetUserByID (Handler.store h) id))) as [e|];
    [destruct (errorsIs e StUserNotFound); well_formed|].
  destruct (fst (value (Handler.st_GetUserByID (Handler.store h) id)));
    [well_formed | exact I].
Qed.

Lemma UpdateUser_wellFormed (idVar : string) (body : option UserUpdate) :
  wellFormed (value (Handler.UpdateUser isEmail MarshalJSON h w idVar body)).
Proof.
  unfold Handler.UpdateUser.
  destruct (Handler.parseIDFromURL idVar) as [id [e|]]; [well_formed|].
  destruct body as [uu|]; [|well_formed].
  destruct (DomainAlpha.UserUpdate_Validate isEmail uu); [well_formed|].
  rewrite value_bind.
  destruct (value (Handler.st_UpdateUser (Handler.store h) id uu)) as [e|];
    [destruct (errorsIs e StUserNotFound);
     [|destruct (errorsIs e StDuplicateEmail)]|]; well_formed.
Qed.

Lemma DeleteUser_wellFormed (idVar : string) :
  wellFormed (value (Handler.DeleteUser MarshalJSON h w idVar)).
Proof.
  unfold Handler.DeleteUser.
  destruct (Handler.parseIDFromURL idVar) as [id [e|]]; [well_formed|].
  rewrite value_bind.
  destruct (value (Handler.st_DeleteUser (Handler.store h) id)) as [e|];
    [destruct (errorsIs e StUserNotFound); well_formed|].
  left. reflexivity.
Qed.

Lemma ListUsers_wellFormed (rawPage rawPageSize : string) :
  wellFormed (value (Handler.ListUsers MarshalJSON h w rawPage rawPageSize)).
Proof.
  unfold Handler.ListUsers. rewrite value_bind.
  destruct (value (Handler.st_ListUsers (Handler.store h)
                     (Handler.pageParam rawPage)
                     (Handler.pageSizeParam rawPageSize)))
    as [[users totalCount] [e|]]; well_formed.
Qed.

Lemma matchRoutes_handler (prefix : string)
  (rs : list (Mux.Route Http.ResponseWriter Handler.Response))
  (r : Http.Request) :
  forall mismatch f vars,
    Mux.matchRoutes prefix rs r mismatch = Mux.Matched f vars ->
    exists route, In route rs /\ Mux.handler route = f.
Proof.
  induction rs as [|route rs IH]; intros mismatch f vars; cbn [Mux.matchRoutes].
  - destruct mismatch; discriminate.
  - destruct (Mux.matchTemplate prefix (Mux.template route) (Http.Path r)).
    + destruct (String.eqb (Mux.method route) (Http.Method r)).
      * intros H. inversion H; subst. exists route. split; [left|]; reflexivity.
      * intros H. destruct (IH _ _ _ H) as [rt [Hin Hf]].
        exists rt. split; [right; exact Hin | exact Hf].
    + intros H. destruct (IH _ _ _ H) as [rt [Hin Hf]].
      exists rt. split; [right; exact Hin | exact Hf].
Qed.

(** Whatever the router hands to a handler, the response is one of the
    package's. *)
Lemma ServeHTTP_wellFormed (cleanPath : string -> string) (prefix : string)
  (r : Http.Request) (resp : Handler.Response) :
  value (Mux.ServeHTTP cleanPath
           (Handler.RegisterRoutes isEmail MarshalJSON h (newRouter prefix)) w r)
  = Mux.Handled resp ->
  wellFormed resp.
Proof.
  unfold Mux.ServeHTTP.
  destruct (negb (String.eqb (cleanPath (Http.Path r)) (Http.Path r)));
    [discriminate|].
  unfold Mux.Match.
  destruct (Mux.matchRoutes _ _ r false) as [f vars| |] eqn:Em;
    [|discriminate|discriminate].
  apply matchRoutes_handler in Em. destruct Em as [route [Hin Hf]].
  rewrite value_bind. cbn [value ret fst]. intros Hresp.
  inversion Hresp as [Hv]. clear Hresp. subst f.
  unfold Handler.RegisterRoutes, newRouter, Mux.HandleFunc in Hin.
  cbn [Mux.pathPrefix Mux.routes app In] in Hin.
  destruct Hin as [Hr|[Hr|[Hr|[Hr|[Hr|[]]]]]]; subst route;
    cbn [Mux.handler].
  - apply CreateUser_wellFormed.
  - apply GetUser_wellFormed.
  - apply UpdateUser_wellFormed.
  - apply DeleteUser_wellFormed.
  - apply ListUsers_wellFormed.
Qed.

End HandlerResponses.

(** X19. Behind the middleware, a request that the router hands to a
    handler of package handler is logged with the status of its response.
    The status is one of 200, 201, 204, 400, 404, 409 and 500; the entry
    carries that code, the request's method, path, remote address and user
    agent, and the measured duration, and the response carries the same
    code; a handler that panics leaves no entry. *)
Theorem handler_responses_are_logged_with_their_status :
  forall (isEmail : string -> bool) (MarshalJSON : Time -> option error)
         (cleanPath : string -> string) (h : Handler.UserHandler)
         (prefix : string) (w : Http.ResponseWriter) (r : Http.Request)
         (marshal : Handler.Payload -> string) (duration : Z)
         (resp : Handler.Response),
    value (Mux.ServeHTTP cleanPath
             (Handler.RegisterRoutes isEmail MarshalJSON h (newRouter prefix))
             w r)
    = Mux.Handled resp ->
    match Handler.statusOf resp with
    | Some code =>
        In code handlerStatuses
        /\ exists rw,
             Middleware.LoggingMiddleware (Middleware.writerCalls marshal resp)
               duration Middleware.newResponseWriter r
             = Some (rw, accessLog r code duration)
             /\ Middleware.sentStatus rw = code
    | None =>
        Middleware.LoggingMiddleware (Middleware.writerCalls marshal resp)
          duration Middleware.newResponseWriter r = None
    end.
Proof.
  intros isEmail MarshalJSON cleanPath h prefix w r marshal duration resp Hs.
  apply ServeHTTP_wellFormed in Hs.
  destruct resp as [code payload|code|]; cbn [Handler.statusOf wellFormed] in *;
    [| |reflexivity].
  - assert (Hcode : In code handlerStatuses
                    /\ Middleware.invalidCode code = false
                    /\ Middleware.informational code = false).
    { cbn [In] in Hs.
      destruct Hs as [H|[H|[H|[H|[H|[H|[]]]]]]]; subst code;
        (split; [cbn; tauto | split; reflexivity]). }
    destruct Hcode as [Hin [Hv Hi]]. split; [exact Hin|].
    cbn [Middleware.writerCalls].
    pose proof (LoggingMiddleware_cases
                  [Middleware.CallWriteHeader code;
                   Middleware.CallWrite (marshal payload)] duration r) as H.
    destruct (Middleware.LoggingMiddleware _ duration _ r) as [[rw entry]|].
    + destruct H as [_ [He Hsent]]. exists rw. subst entry.
      cbn [fixedStatus] in Hsent. rewrite Hi in Hsent.
      split; [reflexivity | exact Hsent].
    + cbn [panics] in H. rewrite Hv, Hi in H. discriminate H.
  - assert (Hcode : In code handlerStatuses
                    /\ Middleware.invalidCode code = false
                    /\ Middleware.informational code = false).
    { cbn [In] in Hs.
      destruct Hs as [H|[H|[]]]; subst code;
        (split; [cbn; tauto | split; reflexivity]). }
    destruct Hcode as [Hin [Hv Hi]]. split; [exact Hin|].
    cbn [Middleware.writerCalls].
    pose proof (LoggingMiddleware_cases [Middleware.CallWriteHeader code]
                  duration r) as H.
    destruct (Middleware.LoggingMiddleware _ duration _ r) as [[rw entry]|].
    + destruct H as [_ [He Hsent]]. exists rw. subst entry.
      cbn [fixedStatus] in Hsent. rewrite Hi in Hsent.
      split; [reflexivity | exact Hsent].
    + cbn [panics] in H. rewrite Hv, Hi in H. discriminate H.
Qed.

Lemma handler_responses_are_logged_with_their_status_witness :
  In 404 handlerStatuses
  /\ exists rw,
       Middleware.LoggingMiddleware
         (Middleware.writerCalls (fun _ => "{}")
            (Handler.Json 404 (Handler.ErrorMessage "User not found")))
         5 Middleware.newResponseWriter (requestFor "GET" "/api/users/999")
       = Some (rw, accessLog (requestFor "GET" "/api/users/999") 404 5)
       /\ Middleware.sentStatus rw = 404.
Proof.
  apply (handler_responses_are_logged_with_their_status
           (fun _ => true) marshalsAll (fun p => p)
           (handlerOn {| db := conflictDB |}) "/api" okWriter
           (requestFor "GET" "/api/users/999") (fun _ => "{}") 5
           (Handler.Json 404 (Handler.ErrorMessage "User not found"))
           eq_refl).
Defined.

(* ================================================================== *)
(** * The migrate command *)

Section MigrateFacts.

Variable ParseDuration : string -> result Z.
Variable migrateNew : string -> string -> result MigrateCmd.Migrate.
Variable isNoChange : error -> bool.

Local Abbreviation run := (MigrateCmd.main ParseDuration migrateNew isNoChange).

Lemma deferredClose_calls (m : MigrateCmd.Migrate) :
  MigrateCmd.calls (MigrateCmd.deferredClose m) = [MigrateCmd.CloseInstance].
Proof.
  unfold MigrateCmd.deferredClose, MigrateCmd.calls.
  destruct (MigrateCmd.m_Close m) as [[e1|] [e2|]]; reflexivity.
Qed.

Lemma selectMigration_call (m : MigrateCmd.Migrate) (f : MigrateCmd.Flags)
  (c : MigrateCmd.Call) (err : option error) :
  MigrateCmd.selectMigration m f = Some (c, err) ->
  c <> MigrateCmd.CloseInstance.
Proof.
  unfold MigrateCmd.selectMigration.
  destruct (String.eqb (MigrateCmd.direction f) "up");
    [|destruct (String.eqb (MigrateCmd.direction f) "down")];
    try destruct (MigrateCmd.steps f >? 0);
    intros H; inversion H; discriminate.
Qed.

(** What the command does once the configuration is loaded and the instance
    created, by the migration selected. *)
Lemma main_after_New (env : Config.Env) (f : MigrateCmd.Flags)
  (cfg : Config.Config) (m : MigrateCmd.Migrate) :
  Config.LoadConfig ParseDuration env = (Some cfg, None) ->
  migrateNew ("file://" ++ MigrateCmd.migrationsPath f)
    (MigrateCmd.dsnOf (Config.Postgres cfg)) = Ok m ->
  run env f
  = let new := MigrateCmd.Did
                 (MigrateCmd.New ("file://" ++ MigrateCmd.migrationsPath f)
                    (MigrateCmd.dsnOf (Config.Postgres cfg))) in
    match MigrateCmd.selectMigration m f with
    | None =>
        (1, [new; MigrateCmd.Fatalf "Invalid command: %s"
                    (MigrateCmd.StringArg (MigrateCmd.direction f))])
    | Some (c, Some e) =>
        if isNoChange e
        then (0, new :: MigrateCmd.Did c
                 :: MigrateCmd.Printf "Migration completed successfully"
                      MigrateCmd.NoArg
                 :: MigrateCmd.deferredClose m)
        else (1, [new; MigrateCmd.Did c;
                  MigrateCmd.Fatalf "Migration failed: %v" (MigrateCmd.ErrArg e)])
    | Some (c, None) =>
        (0, new :: MigrateCmd.Did c
            :: MigrateCmd.Printf "Migration completed successfully"
                 MigrateCmd.NoArg
            :: MigrateCmd.deferredClose m)
    end.
Proof.
  intros Hc Hm. unfold MigrateCmd.main. rewrite Hc, Hm.
  destruct (MigrateCmd.selectMigration m f) as [[c [e|]]|]; try reflexivity.
  destruct (isNoChange e); reflexivity.
Qed.

Lemma calls_on_success (x : MigrateCmd.Call) (c : MigrateCmd.Call)
  (msg : string) (m : MigrateCmd.Migrate) :
  MigrateCmd.calls
    (MigrateCmd.Did x :: MigrateCmd.Did c
     :: MigrateCmd.Printf msg MigrateCmd.NoArg :: MigrateCmd.deferredClose m)
  = [x; c; MigrateCmd.CloseInstance].
Proof.
  change (x :: c :: MigrateCmd.calls (MigrateCmd.deferredClose m)
          = [x; c; MigrateCmd.CloseInstance]).
  rewrite deferredClose_calls. reflexivity.
Qed.

(** X20. The migrate command exits with status 0 exactly when the
    configuration loads, the migrate instance is created, the direction is
    [up] or [down], and the selected migration returns [nil] or
    [ErrNoChange]; a direction other than [up] and [down] is only refused
    after the instance was created, and then no migration is run. *)
Theorem migrate_exit_status :
  forall (env : Config.Env) (f : MigrateCmd.Flags),
    (fst (run env f) = 0
     <-> exists cfg m c err,
           Config.LoadConfig ParseDuration env = (Some cfg, None)
           /\ migrateNew ("file://" ++ MigrateCmd.migrationsPath f)
                (MigrateCmd.dsnOf (Config.Postgres cfg)) = Ok m
           /\ MigrateCmd.selectMigration m f = Some (c, err)
           /\ migrated isNoChange err)
    /\ (forall cfg m,
          Config.LoadConfig ParseDuration env = (Some cfg, None) ->
          migrateNew ("file://" ++ MigrateCmd.migrationsPath f)
            (MigrateCmd.dsnOf (Config.Postgres cfg)) = Ok m ->
          MigrateCmd.direction f <> "up" ->
          MigrateCmd.direction f <> "down" ->
          run env f
          = (1, [MigrateCmd.Did
                   (MigrateCmd.New ("file://" ++ MigrateCmd.migrationsPath f)
                      (MigrateCmd.dsnOf (Config.Postgres cfg)));
                 MigrateCmd.Fatalf "Invalid command: %s"
                   (MigrateCmd.StringArg (MigrateCmd.direction f))])).
Proof.
  intros env f. split.
  - destruct (Config.LoadConfig ParseDuration env) as [[cfg|] [e|]] eqn:Ec;
      try (unfold MigrateCmd.main; rewrite Ec; cbn [fst];
           split; [discriminate|];
           intros [cfg' [m [c [err [H _]]]]]; discriminate H).
    destruct (migrateNew ("file://" ++ MigrateCmd.migrationsPath f)
                (MigrateCmd.dsnOf (Config.Postgres cfg))) as [m|e] eqn:Em.
    + rewrite (main_after_New env f cfg m Ec Em). cbv zeta.
      destruct (MigrateCmd.selectMigration m f) as [[c err]|] eqn:Es.
      * destruct err as [e|]; [destruct (isNoChange e) eqn:En|]; cbn [fst].
        -- split; [|reflexivity]. intros _. exists cfg, m, c, (Some e).
           repeat split; auto.
        -- split; [discriminate|].
           intros [cfg' [m' [c' [err' [H1 [H2 [H3 H4]]]]]]].
           inversion H1; subst cfg'. rewrite Em in H2. inversion H2; subst m'.
           rewrite Es in H3. inversion H3; subst. simpl in H4. congruence.
        -- split; [|reflexivity]. intros _. exists cfg, m, c, None.
           repeat split; auto.
      * cbn [fst]. split; [discriminate|].
        intros [cfg' [m' [c' [err' [H1 [H2 [H3 H4]]]]]]].
        inversion H1; subst cfg'. rewrite Em in H2. inversion H2; subst m'.
        rewrite Es in H3. discriminate H3.
    + unfold MigrateCmd.main. rewrite Ec, Em. cbn [fst].
      split; [discriminate|].
      intros [cfg' [m' [c' [err' [H1 [H2 _]]]]]].
      inversion H1; subst cfg'. rewrite Em in H2. discriminate H2.
  - intros cfg m Hc Hm Hup Hdown. rewrite (main_after_New env f cfg m Hc Hm).
    unfold MigrateCmd.selectMigration.
    apply String.eqb_neq in Hup, Hdown. rewrite Hup, Hdown. reflexivity.
Qed.

(** X21. The deferred close of the migrate instance runs exactly when the
    command exits with status 0, and is then its last library call.  On
    every other exit, a failed migration and a refused direction included,
    the instance that was created is never closed: [log.Fatalf] ends the
    process before the deferred call. *)
Theorem migrate_closes_only_on_success :
  forall (env : Config.Env) (f : MigrateCmd.Flags),
    (In MigrateCmd.CloseInstance (MigrateCmd.calls (snd (run env f)))
     <-> fst (run env f) = 0)
    /\ (fst (run env f) = 0 ->
        last (MigrateCmd.calls (snd (run env f))) MigrateCmd.Up
        = MigrateCmd.CloseInstance)
    /\ (forall cfg m c e,
          Config.LoadConfig ParseDuration env = (Some cfg, None) ->
          migrateNew ("file://" ++ MigrateCmd.migrationsPath f)
            (MigrateCmd.dsnOf (Config.Postgres cfg)) = Ok m ->
          MigrateCmd.selectMigration m f = Some (c, Some e) ->
          isNoChange e = false ->
          MigrateCmd.calls (snd (run env f))
          = [MigrateCmd.New ("file://" ++ MigrateCmd.migrationsPath f)
               (MigrateCmd.dsnOf (Config.Postgres cfg));
             c]).
Proof.
  intros env f.
  assert (Hmain :
    (In MigrateCmd.CloseInstance (MigrateCmd.calls (snd (run env f)))
     <-> fst (run env f) = 0)
    /\ (fst (run env f) = 0 ->
        last (MigrateCmd.calls (snd (run env f))) MigrateCmd.Up
        = MigrateCmd.CloseInstance)).
  { destruct (Config.LoadConfig ParseDuration env) as [[cfg|] [e|]] eqn:Ec;
      try (unfold MigrateCmd.main; rewrite Ec;
           cbn [fst snd MigrateCmd.calls flat_map app In];
           split; [split; [intros [] | discriminate] | discriminate]).
    destruct (migrateNew ("file://" ++ MigrateCmd.migrationsPath f)
                (MigrateCmd.dsnOf (Config.Postgres cfg))) as [m|e] eqn:Em.
    - rewrite (main_after_New env f cfg m Ec Em). cbv zeta.
      destruct (MigrateCmd.selectMigration m f) as [[c err]|] eqn:Es.
      + pose proof (selectMigration_call m f c err Es) as Hc.
        destruct err as [e|]; [destruct (isNoChange e)|]; cbn [fst snd];
          rewrite ?calls_on_success;
          cbn [MigrateCmd.calls flat_map app In last].
        * split; [split; [reflexivity | auto] | reflexivity].
        * split; [split; [|discriminate] | discriminate].
          intros [H|[H|[]]]; [discriminate H | congruence].
        * split; [split; [reflexivity | auto] | reflexivity].
      + cbn [fst snd MigrateCmd.calls flat_map app In].
        split; [split; [|discriminate] | discriminate].
        intros [H|[]]. discriminate H.
    - unfold MigrateCmd.main. rewrite Ec, Em.
      cbn [fst snd MigrateCmd.calls flat_map app In].
      split; [split; [|discriminate] | discriminate].
      intros [H|[]]. discriminate H. }
  destruct Hmain as [H1 H2]. split; [exact H1|]. split; [exact H2|].
  intros cfg m c e Hc Hm Hs He.
  rewrite (main_after_New env f cfg m Hc Hm). cbv zeta.
  rewrite Hs, He. reflexivity.
Qed.

End MigrateFacts.

(* ================================================================== *)
(** * The api command *)

Lemma handleError_closed (msg : string) (fields : list Field) :
  handleError ApiMain.errDBClosed msg fields
  = (Errorf "%w: %w" [ErrDatabaseInternal; ApiMain.errDBClosed],
     [LogError msg ApiMain.errDBClosed fields]).
Proof. reflexivity. Qed.

(** Requests on a store whose handle was closed. *)
Lemma closed_store_requests (d : DB) (MarshalJSON : Time -> option error)
  (w : Http.ResponseWriter) :
  let h := handlerOn {| db := ApiMain.closed d |} in
  (forall idVar id,
      GoInt.ParseInt idVar = Some id -> 0 < id ->
      Handler.statusOf (value (Handler.GetUser MarshalJSON h w idVar))
      = Some 500
      /\ Handler.statusOf (value (Handler.DeleteUser MarshalJSON h w idVar))
         = Some 500)
  /\ (forall rawPage rawPageSize,
        Handler.statusOf
          (value (Handler.ListUsers MarshalJSON h w rawPage rawPageSize))
        = Some 500)
  /\ (forall isEmail uc,
        DomainAlpha.UserCreate_Validate isEmail uc = None ->
        Handler.statusOf
          (value (Handler.CreateUser isEmail MarshalJSON h w (Some uc)))
        = Some 500)
  /\ (forall isEmail idVar id uu,
        GoInt.ParseInt idVar = Some id -> 0 < id ->
        DomainAlpha.UserUpdate_Validate isEmail uu = None ->
        Handler.statusOf
          (value (Handler.UpdateUser isEmail MarshalJSON h w idVar (Some uu)))
        = Some 500).
Proof.
  cbv zeta. split; [|split; [|split]].
  - intros idVar id Hp Hid.
    pose proof (parseIDFromURL_of_parse idVar id Hp Hid) as Hparse.
    assert (Hle : (id <=? 0) = false) by (apply Z.leb_gt; exact Hid).
    unfold Handler.GetUser, Handler.DeleteUser. rewrite Hparse.
    cbn [handlerOn Handler.store Handler.postgresStorer Handler.st_GetUserByID
         Handler.st_DeleteUser].
    unfold GetUserByID, DeleteUser. rewrite Hle.
    cbn [db ApiMain.closed db_QueryRowScanUser db_Exec].
    go_simpl. rewrite ?handleError_closed. go_simpl. split; reflexivity.
  - intros rawPage rawPageSize. unfold Handler.ListUsers.
    cbn [handlerOn Handler.store Handler.postgresStorer Handler.st_ListUsers].
    pose proof (pageParam_range rawPage) as Hp.
    pose proof (pageSizeParam_range rawPageSize) as Hs.
    unfold ListUsers.
    destruct (Handler.pageParam rawPage <? 1) eqn:E1;
      [apply Z.ltb_lt in E1; lia|].
    destruct ((Handler.pageSizeParam rawPageSize <? 1)
              || (Handler.pageSizeParam rawPageSize >? 100)) eqn:E2.
    { apply orb_true_iff in E2. destruct E2 as [E2|E2].
      - apply Z.ltb_lt in E2. lia.
      - apply Z.gtb_lt in E2. lia. }
    unfold withTx. cbn [db ApiMain.closed db_BeginTx].
    go_simpl. rewrite ?handleError_closed. go_simpl. reflexivity.
  - intros isEmail uc Hv. unfold Handler.CreateUser. rewrite Hv.
    cbn [handlerOn Handler.store Handler.postgresStorer Handler.st_CreateUser].
    unfold CreateUser. cbn [db ApiMain.closed db_QueryRowScanInt64].
    go_simpl. rewrite ?handleError_closed. go_simpl. reflexivity.
  - intros isEmail idVar id uu Hp Hid Hv.
    pose proof (parseIDFromURL_of_parse idVar id Hp Hid) as Hparse.
    assert (Hle : (id <=? 0) = false) by (apply Z.leb_gt; exact Hid).
    unfold Handler.UpdateUser. rewrite Hparse, Hv.
    cbn [handlerOn Handler.store Handler.postgresStorer Handler.st_UpdateUser].
    unfold UpdateUser. rewrite Hle.
    destruct (buildUpdateQuery uu id) as [query args].
    cbn [db ApiMain.closed db_Exec].
    go_simpl. rewrite ?handleError_closed. go_simpl. reflexivity.
Qed.

(** X22. The api command closes its store right after opening it.  When the
    start of [main] gets as far as registering the handlers, the driver has
    seen the open, the probe and the close, in this order, and the handlers
    hold the closed store: every request that reaches the store (a get, an
    update or a delete with a positive identity, a create or an update with
    a valid body, every listing) is answered 500. *)
Theorem api_serves_on_a_closed_store :
  forall (ParseDuration : string -> result Z) (NewLogger : bool -> option error)
         (sqlOpen : string -> string -> result DB) (env : Config.Env)
         (h : Handler.UserHandler) (port : Z),
    value (ApiMain.startup ParseDuration NewLogger sqlOpen env)
    = ApiMain.Serving h port ->
    (exists cfg d,
        Config.LoadConfig ParseDuration env = (Some cfg, None)
        /\ sqlOpen "postgres" (connString (Config.Postgres cfg)) = Ok d
        /\ h = handlerOn {| db := ApiMain.closed d |}
        /\ driverCalls
             (trace (ApiMain.startup ParseDuration NewLogger sqlOpen env))
           = [Open "postgres" (connString (Config.Postgres cfg));
              PingContext (5 * Second); Close])
    /\ (forall MarshalJSON w idVar id,
          GoInt.ParseInt idVar = Some id -> 0 < id ->
          Handler.statusOf (value (Handler.GetUser MarshalJSON h w idVar))
          = Some 500
          /\ Handler.statusOf (value (Handler.DeleteUser MarshalJSON h w idVar))
             = Some 500)
    /\ (forall MarshalJSON w rawPage rawPageSize,
          Handler.statusOf
            (value (Handler.ListUsers MarshalJSON h w rawPage rawPageSize))
          = Some 500)
    /\ (forall MarshalJSON w isEmail uc,
          DomainAlpha.UserCreate_Validate isEmail uc = None ->
          Handler.statusOf
            (value (Handler.CreateUser isEmail MarshalJSON h w (Some uc)))
          = Some 500)
    /\ (forall MarshalJSON w isEmail idVar id uu,
          GoInt.ParseInt idVar = Some id -> 0 < id ->
          DomainAlpha.UserUpdate_Validate isEmail uu = None ->
          Handler.statusOf
            (value (Handler.UpdateUser isEmail MarshalJSON h w idVar (Some uu)))
          = Some 500).
Proof.
  intros PD NL sqlOpen env h port. unfold ApiMain.startup.
  destruct (Config.LoadConfig PD env) as [[cfg|] [e|]] eqn:Ec;
    try discriminate.
  destruct (NL (Config.IsProd cfg)) as [e|]; [discriminate|].
  unfold NewPostgresStore, PostgresStore_Close.
  destruct (sqlOpen "postgres" (connString (Config.Postgres cfg)))
    as [d|e] eqn:Eo; go_simpl; [|discriminate].
  destruct (db_Ping d) as [e|] eqn:Ep; go_simpl.
  - destruct (db_Close d); go_simpl; discriminate.
  - intros H. inversion H; subst h port. clear H.
    split.
    + exists cfg, d. repeat split; try assumption; reflexivity.
    + split; [|split; [|split]]; intros MarshalJSON w;
        apply (closed_store_requests d MarshalJSON w).
Qed.

Lemma api_serves_on_a_closed_store_witness :
  exists h port,
    value (ApiMain.startup (fun _ => Err (Other "time: invalid duration"))
             (fun _ => None) (fun _ _ => Ok (Table.tableDB seedUsers))
             (fun _ => None))
    = ApiMain.Serving h port
    /\ Handler.statusOf
         (value (Handler.ListUsers marshalsAll h okWriter "1" "10"))
       = Some 500.
Proof.
  eexists. eexists. split; [reflexivity|].
  apply (api_serves_on_a_closed_store
           (fun _ => Err (Other "time: invalid duration"))
           (fun _ => None) (fun _ _ => Ok (Table.tableDB seedUsers))
           (fun _ => None) _ 8080 eq_refl).
Defined.

(* ================================================================== *)
(** * Statements and values *)

(** X23. The text of the update statement depends only on which fields are
    supplied: two updates that supply the same fields build the same
    statement, whatever the values and the identities are.  No value ever
    becomes part of a statement. *)
Theorem update_statement_ignores_values :
  forall (u u' : UserUpdate) (id id' : Z),
    (uu_Email u = "" <-> uu_Email u' = "") ->
    (uu_FirstName u = "" <-> uu_FirstName u' = "") ->
    (uu_LastName u = "" <-> uu_LastName u' = "") ->
    fst (buildUpdateQuery u id) = fst (buildUpdateQuery u' id').
Proof.
  intros [e f l] [e' f' l'] id id'. cbn [uu_Email uu_FirstName uu_LastName].
  intros He Hf Hl.
  destruct e as [|e0 e1]; destruct e' as [|e0' e1'];
    try (exfalso; destruct He as [H1 H2];
         first [discriminate (H1 eq_refl) | discriminate (H2 eq_refl)]);
    destruct f as [|f0 f1]; destruct f' as [|f0' f1'];
    try (exfalso; destruct Hf as [H1 H2];
         first [discriminate (H1 eq_refl) | discriminate (H2 eq_refl)]);
    destruct l as [|l0 l1]; destruct l' as [|l0' l1'];
    try (exfalso; destruct Hl as [H1 H2];
         first [discriminate (H1 eq_refl) | discriminate (H2 eq_refl)]);
    reflexivity.
Qed.

Lemma update_statement_ignores_values_witness :
  fst (buildUpdateQuery
         {| uu_Email := "a@b.c"; uu_FirstName := ""; uu_LastName := "Lee" |} 1)
  = fst (buildUpdateQuery
           {| uu_Email := "x'; DROP TABLE users; --"; uu_FirstName := "";
              uu_LastName := "Roe" |} 2).
Proof.
  apply update_statement_ignores_values;
    cbn [uu_Email uu_FirstName uu_LastName]; split; intros H;
    first [discriminate H | reflexivity].
Defined.

(* ================================================================== *)
(** * From the backend's answer to the response *)

Lemma ListUsers_success (s : PostgresStore) (page pageSize n : Z)
  (us : list User) :
  1 <= page -> 1 <= pageSize <= 100 ->
  db_BeginTx (db s) true = None ->
  tx_QueryRowScanInt (db s) sqlCountUsers [] = Ok n ->
  tx_Query (db s) sqlListUsers
    [ArgInt pageSize; ArgInt (GoInt.wrapInt ((page - 1) * pageSize))]
  = Ok {| scans := List.map Ok us; iterErr := None |} ->
  tx_Commit (db s) = None ->
  value (ListUsers s page pageSize) = (us, n, None).
Proof.
  intros Hp Hs Hb Hc Hq Hm. unfold ListUsers.
  destruct (page <? 1) eqn:E1; [apply Z.ltb_lt in E1; lia|].
  destruct ((pageSize <? 1) || (pageSize >? 100)) eqn:E2.
  { apply orb_true_iff in E2. destruct E2 as [E2|E2].
    - apply Z.ltb_lt in E2. lia.
    - apply Z.gtb_lt in E2. lia. }
  unfold withTx, listUsersTx, deferredRollback. go_simpl.
  rewrite Hb. go_simpl. rewrite Hc. go_simpl. rewrite Hq. go_simpl.
  cbn [scans iterErr]. rewrite scanLoop_all_ok. go_simpl.
  rewrite Hm. go_simpl. reflexivity.
Qed.

(** X24. When the backend answers the count and delivers the rows of the
    page without error, the listing response carries the projections of
    exactly these rows, in the order the backend delivered them, and the
    count the backend gave, provided the timestamps of the rows have a JSON
    text; when one has none, the failure of [json.Marshal] is logged and a
    bare 500 is sent.  And whenever [ListUsers] returns an error it returns
    no row and a count of zero, also when some rows had been scanned before
    the error. *)
Theorem listing_carries_the_backend_rows :
  forall (MarshalJSON : Time -> option error) (s : PostgresStore)
         (w : Http.ResponseWriter) (rawPage rawPageSize : string) (n : Z)
         (us : list User),
    db_BeginTx (db s) true = None ->
    tx_QueryRowScanInt (db s) sqlCountUsers [] = Ok n ->
    tx_Query (db s) sqlListUsers
      [ArgInt (Handler.pageSizeParam rawPageSize);
       ArgInt (GoInt.wrapInt ((Handler.pageParam rawPage - 1)
                              * Handler.pageSizeParam rawPageSize))]
    = Ok {| scans := List.map Ok us; iterErr := None |} ->
    tx_Commit (db s) = None ->
    (marshals MarshalJSON us ->
     value (Handler.ListUsers MarshalJSON (handlerOn s) w rawPage rawPageSize)
     = Handler.Json 200
         (Handler.PageOfUsers
            {| Users := List.map ToResponse us;
               TotalCount := n;
               Page := Handler.pageParam rawPage;
               PageSize := Handler.pageSizeParam rawPageSize;
               TotalPages :=
                 Handler.totalPagesOf n (Handler.pageSizeParam rawPageSize) |}))
    /\ (~ marshals MarshalJSON us ->
        value (Handler.ListUsers MarshalJSON (handlerOn s) w rawPage rawPageSize)
        = Handler.Header 500
        /\ exists err,
             In (LogError "failed to marshal JSON response" err [])
               (trace (Handler.ListUsers MarshalJSON (handlerOn s) w
                         rawPage rawPageSize)))
    /\ (forall s' page pageSize,
          snd (value (ListUsers s' page pageSize)) <> None ->
          fst (value (ListUsers s' page pageSize)) = ([], 0)).
Proof.
  intros MarshalJSON s w rawPage rawPageSize n us Hb Hc Hq Hm.
  pose proof (ListUsers_success s _ _ n us (pageParam_range rawPage)
                (pageSizeParam_range rawPageSize) Hb Hc Hq Hm) as Hst.
  pose proof (jsonMarshal_page MarshalJSON us n (Handler.pageParam rawPage)
                (Handler.pageSizeParam rawPageSize)
                (Handler.totalPagesOf n (Handler.pageSizeParam rawPageSize)))
    as Hj.
  assert (Hrun : Handler.ListUsers MarshalJSON (handlerOn s) w rawPage rawPageSize
                 = (r <- ListUsers s (Handler.pageParam rawPage)
                           (Handler.pageSizeParam rawPageSize) ;;
                    Handler.respondWithJSON MarshalJSON w 200
                      (Handler.PageOfUsers
                         {| Users := List.map ToResponse us;
                            TotalCount := n;
                            Page := Handler.pageParam rawPage;
                            PageSize := Handler.pageSizeParam rawPageSize;
                            TotalPages :=
                              Handler.totalPagesOf n
                                (Handler.pageSizeParam rawPageSize) |}))).
  { unfold Handler.ListUsers.
    cbn [handlerOn Handler.store Handler.postgresStorer Handler.st_ListUsers].
    unfold bind at 1 3. unfold value in Hst.
    destruct (ListUsers s (Handler.pageParam rawPage)
                (Handler.pageSizeParam rawPageSize)) as [[[us' n'] e'] t].
    cbn [fst] in Hst. inversion Hst; subst. reflexivity. }
  split; [|split].
  - intros Hok. apply Hj in Hok.
    rewrite Hrun, value_bind, respondWithJSON_cases, Hok. reflexivity.
  - intros Hbad. rewrite Hrun, value_bind, trace_bind, respondWithJSON_cases.
    destruct (Handler.jsonMarshal MarshalJSON _) as [e|].
    + split; [reflexivity|]. exists e. apply in_or_app. right. left. reflexivity.
    + exfalso. apply Hbad, Hj. reflexivity.
  - intros s' page pageSize. unfold ListUsers.
    destruct (page <? 1); [reflexivity|].
    destruct ((pageSize <? 1) || (pageSize >? 100)); [reflexivity|].
    go_simpl.
    destruct (snd (value (withTx s' true ([], 0) (listUsersTx s' page pageSize))));
      [reflexivity | intros H; exfalso; apply H; reflexivity].
Qed.

Lemma listing_carries_the_backend_rows_witness :
  value (Handler.ListUsers marshalsAll
           (handlerOn {| db := Table.tableDB seedUsers |}) okWriter "1" "10")
  = Handler.Json 200
      (Handler.PageOfUsers
         {| Users := List.map ToResponse seedUsers;
            TotalCount := 2; Page := 1; PageSize := 10; TotalPages := 1 |}).
Proof.
  apply (proj1 (listing_carries_the_backend_rows marshalsAll
                  {| db := Table.tableDB seedUsers |} okWriter "1" "10" 2
                  seedUsers eq_refl eq_refl eq_refl eq_refl)).
  repeat constructor.
Defined.

Section BackendToStatus.

Variable isEmail : string -> bool.
Variable MarshalJSON : Time -> option error.
Variable w : Http.ResponseWriter.

(** X25. From the backend's answer to the status of a create or an update
    with a valid body.  A create is answered 201 with the identity the
    insert returned; when the insert fails with a backend error that wraps
    none of the store's own error values, the answer is 409 exactly when the
    error is a unique violation on the e-mail constraint, and 500 otherwise,
    a no-rows error included.  An update whose statement fails is answered
    409 on such a violation, else 404 on a no-rows error, else 500. *)
Theorem create_and_update_follow_the_backend :
  forall (s : PostgresStore) (uc : UserCreate) (uu : UserUpdate)
         (idVar : string) (id : Z),
    DomainAlpha.UserCreate_Validate isEmail uc = None ->
    DomainAlpha.UserUpdate_Validate isEmail uu = None ->
    GoInt.ParseInt idVar = Some id -> 0 < id ->
    (forall newID,
        db_QueryRowScanInt64 (db s) sqlCreateUser
          [ArgString (uc_Email uc); ArgString (uc_FirstName uc);
           ArgString (uc_LastName uc)] = Ok newID ->
        value (Handler.CreateUser isEmail MarshalJSON (handlerOn s) w (Some uc))
        = Handler.Json 201 (Handler.Created {| ucr_ID := newID |}))
    /\ (forall raw,
          db_QueryRowScanInt64 (db s) sqlCreateUser
            [ArgString (uc_Email uc); ArgString (uc_FirstName uc);
             ArgString (uc_LastName uc)] = Err raw ->
          foreign raw ->
          Handler.statusOf
            (value (Handler.CreateUser isEmail MarshalJSON (handlerOn s) w
                      (Some uc)))
          = Some (if emailUniqueViolationb raw then 409 else 500))
    /\ (forall raw,
          db_Exec (db s) (updateStatement uu) (updateArguments uu id) = Err raw ->
          foreign raw ->
          Handler.statusOf
            (value (Handler.UpdateUser isEmail MarshalJSON (handlerOn s) w idVar
                      (Some uu)))
          = Some (if emailUniqueViolationb raw then 409
                  else if errorsIs raw SqlErrNoRows then 404 else 500)).
Proof.
  intros s uc uu idVar id Hvc Hvu Hp Hid.
  pose proof (parseIDFromURL_of_parse idVar id Hp Hid) as Hparse.
  assert (Hle : (id <=? 0) = false) by (apply Z.leb_gt; exact Hid).
  split; [|split].
  - intros newID Hx. unfold Handler.CreateUser. rewrite Hvc.
    cbn [handlerOn Handler.store Handler.postgresStorer Handler.st_CreateUser].
    unfold CreateUser. go_simpl. rewrite Hx. go_simpl. reflexivity.
  - intros raw Hx [Hd [Hn Hi]]. unfold Handler.CreateUser. rewrite Hvc.
    cbn [handlerOn Handler.store Handler.postgresStorer Handler.st_CreateUser].
    unfold CreateUser. go_simpl. rewrite Hx. go_simpl.
    rewrite handleError_cases.
    destruct (emailUniqueViolationb raw); [reflexivity|].
    destruct (errorsIs raw SqlErrNoRows); cbn; [reflexivity|].
    rewrite Hd. go_simpl. reflexivity.
  - intros raw Hx [Hd [Hn Hi]]. unfold Handler.UpdateUser. rewrite Hparse, Hvu.
    cbn [handlerOn Handler.store Handler.postgresStorer Handler.st_UpdateUser].
    unfold UpdateUser. rewrite Hle, buildUpdateQuery_shape. go_simpl.
    rewrite Hx. go_simpl. rewrite handleError_cases.
    destruct (emailUniqueViolationb raw); [reflexivity|].
    destruct (errorsIs raw SqlErrNoRows); cbn; [reflexivity|].
    rewrite Hn, Hd. go_simpl. reflexivity.
Qed.

End BackendToStatus.

Lemma create_and_update_follow_the_backend_witness :
  Handler.statusOf
    (value (Handler.CreateUser (fun _ => true) marshalsAll
              (handlerOn {| db := conflictDB |}) okWriter
              (Some {| uc_Email := "new@example.com"; uc_FirstName := "John";
                       uc_LastName := "Doe" |})))
  = Some 409.
Proof.
  apply (proj1 (proj2 (create_and_update_follow_the_backend (fun _ => true)
                         marshalsAll okWriter
                         {| db := conflictDB |}
                         {| uc_Email := "new@example.com"; uc_FirstName := "John";
                            uc_LastName := "Doe" |}
                         {| uu_Email := ""; uu_FirstName := ""; uu_LastName := "" |}
                         "7" 7 eq_refl eq_refl eq_refl ltac:(lia)))
           duplicateEmailError eq_refl).
  repeat split; reflexivity.
Defined.
